(** * Multivariate time-series anomaly detection: the statistical core

    A shallow embedding of [anomaly_detector.py] and proofs about it.

    Conventions of the embedding.
    - A NumPy [float64] is an exact rational ([Q]); the quantities below are
      counts, quotients of counts, differences and comparisons, and there is
      no NaN or infinity in [Q].  A one-dimensional array is a [list Q], a
      two-dimensional one a list of rows.
    - Arrays written by index ([a[i] = v], [a[:, i] = v]) are lists updated
      with stdpp's [<[i:=v]>].
    - A CSV file is the table pandas parses it to; the file system is a map
      from paths to such tables.  Timestamps are integers (nanoseconds since
      the epoch), a missing numeric entry is [None].
    - A function that can raise returns a [result]; a method that assigns to
      [self] returns the new object with its value.  [process_data] threads
      the system object and the file system through its steps.
    - scikit-learn's scaler and isolation forest, NumPy's [argsort], the
      test [std() == 0] that pandas evaluates in float64 and Python's
      conversion of a string to a float are parameters of the development,
      constrained where a statement needs it by what their documentation
      promises.
    - Calls to [logger] have no effect on any value and are left out. *)

From Stdlib Require Import QArith Qabs ZArith Lia Permutation Sorted.
From stdpp Require Import base list sorting strings gmap.

Open Scope Q_scope.

(** ** NumPy helpers *)

(** [np.sum] of a boolean mask. *)
Fixpoint np_sum_mask (mask : list bool) : nat :=
  match mask with
  | [] => O
  | b :: rest => if b then S (np_sum_mask rest) else np_sum_mask rest
  end.

(** [arr <= x], elementwise. *)
Definition mask_le (arr : list Q) (x : Q) : list bool :=
  map (fun y => Qle_bool y x) arr.

(** [arr >= x], elementwise. *)
Definition mask_ge (arr : list Q) (x : Q) : list bool :=
  map (fun y => Qle_bool x y) arr.

Definition Q_of_nat (n : nat) : Q := inject_Z (Z.of_nat n).

(** [np.clip] on one entry: [minimum(maximum(x, lo), hi)]. *)
Definition clip1 (lo hi x : Q) : Q :=
  let m := if Qle_bool lo x then x else lo in
  if Qle_bool m hi then m else hi.

Definition np_clip (arr : list Q) (lo hi : Q) : list Q := map (clip1 lo hi) arr.

(** [enumerate(arr)]. *)
Definition enumerate {A} (arr : list A) : list (nat * A) :=
  zip (seq 0 (length arr)) arr.

(** ** ScoreTransformer.transform_scores *)

Definition percentile_rank (score_range : list Q) (score : Q) : Q :=
  Q_of_nat (np_sum_mask (mask_le score_range score))
    / Q_of_nat (length score_range) * 100.

(** One iteration of the [for i, score in enumerate(scores)] loop. *)
Definition transform_step (score_range : list Q)
    (transformed_scores : list Q) (it : nat * Q) : list Q :=
  let '(i, score) := it in
  <[i := 100 - percentile_rank score_range score]> transformed_scores.

Definition transform_scores (scores : list Q) (analysis_period_only : bool)
    : list Q :=
  let score_range := if analysis_period_only then scores else scores in
  let transformed_scores := replicate (length scores) 0 in
  let transformed_scores :=
    foldl (transform_step score_range) transformed_scores (enumerate scores) in
  np_clip transformed_scores 0 100.

(** The percentile transform in the words of the specification: the share of
    the batch that is at most [s], and the score derived from it. *)
Definition fraction_le (batch : list Q) (s : Q) : Q :=
  Q_of_nat (length (List.filter (fun y => Qle_bool y s) batch))
    / Q_of_nat (length batch).

Definition spec_transformed (batch : list Q) (s : Q) : Q :=
  clip1 0 100 (100 - fraction_le batch s * 100).

(** ** Exceptions and results *)

(** The [ValueError]s the code raises, one constructor per [raise] site. *)
Inductive value_error : Type :=
  | MissingTimeColumn
      (* "CSV must contain a 'Time' column" *)
  | InsufficientTrainingData (training_hours min_training_hours : nat)
      (* "Insufficient training data: {} hours, minimum required: {}" *)
  | NotTrainedPrediction
      (* "Model must be trained before prediction" *)
  | NotTrainedAttribution
      (* "Model must be trained before feature attribution" *)
  | MissingRequiredColumns (missing : list string)
      (* "Missing required columns: {}" *)
  | LengthMismatch
      (* pandas: "Length of values does not match length of index" *)
  | UnknownFormatCode.
      (* "Unknown format code 'f' for object of type 'str'" *)

Inductive exn : Type :=
  | ValueError (msg : value_error)
  | FileNotFoundError (path : string)   (* pd.read_csv on a missing file *)
  | KeyError (name : string)            (* df[name] on a missing column *)
  | IndexError                          (* a list or array index out of range *)
  | TypeError                           (* the mean of a column of strings *)
  | SklearnError (what : string).       (* raised inside scikit-learn *)

Inductive result (A : Type) : Type :=
  | Ok (a : A)
  | Err (e : exn).
Arguments Ok {A} a.
Arguments Err {A} e.

Definition rbind {A B} (r : result A) (k : A -> result B) : result B :=
  match r with
  | Ok a => k a
  | Err e => Err e
  end.

Declare Scope result_scope.
Delimit Scope result_scope with result.
Notation "x <- r ;; k" := (rbind r (fun x => k))
  (at level 100, r at next level, right associativity) : result_scope.

(** A [for] loop whose body may raise. *)
Fixpoint rfoldl {A B} (f : A -> B -> result A) (a : A) (l : list B)
    : result A :=
  match l with
  | [] => Ok a
  | b :: rest =>
      match f a b with
      | Ok a' => rfoldl f a' rest
      | Err e => Err e
      end
  end.

Fixpoint rmapM {A B} (f : A -> result B) (l : list A) : result (list B) :=
  match l with
  | [] => Ok []
  | a :: rest =>
      (b <- f a ;;
       bs <- rmapM f rest ;;
       Ok (b :: bs))%result
  end.

(** The failure kinds the specification names.  The code has one exception
    class for all of them ([ValueError]) and tells them apart by the raise
    site; [error_kind] reads the kind off the raise site. *)
Inductive error_kind : Type :=
  | ValidationError
  | NotFittedError
  | SchemaError
  | IOError
  | OtherError.

Definition error_kind_of (e : exn) : error_kind :=
  match e with
  | ValueError MissingTimeColumn => ValidationError
  | ValueError (InsufficientTrainingData _ _) => ValidationError
  | ValueError NotTrainedPrediction => NotFittedError
  | ValueError NotTrainedAttribution => NotFittedError
  | ValueError (MissingRequiredColumns _) => SchemaError
  | FileNotFoundError _ => IOError
  | _ => OtherError
  end.

(** ** More NumPy helpers *)

(** [arr[idx]] for a Python list or an array; out of range raises. *)
Definition index1 {A} (arr : list A) (idx : nat) : result A :=
  match arr !! idx with
  | Some a => Ok a
  | None => Err IndexError
  end.

(** [arr[idxs]]: indexing by an array of positions. *)
Definition index_all {A} (arr : list A) (idxs : list nat) : result (list A) :=
  rmapM (index1 arr) idxs.

(** [np.where(mask)[0]]: the positions that hold [True], ascending. *)
Fixpoint np_where_from (start : nat) (mask : list bool) : list nat :=
  match mask with
  | [] => []
  | b :: rest =>
      if b then start :: np_where_from (S start) rest
      else np_where_from (S start) rest
  end.

Definition np_where (mask : list bool) : list nat := np_where_from 0 mask.

(** [arr[mask]]: the entries at the positions that hold [True]. *)
Fixpoint select_mask {A} (arr : list A) (mask : list bool) : list A :=
  match arr, mask with
  | a :: arr', b :: mask' =>
      if b then a :: select_mask arr' mask' else select_mask arr' mask'
  | _, _ => []
  end.

Definition Qsum (xs : list Q) : Q := foldr Qplus 0 xs.

(** [np.mean] of a one-dimensional array. *)
Definition np_mean (xs : list Q) : Q := Qsum xs / Q_of_nat (length xs).

(** A stable ascending argsort by insertion: what NumPy's default sort does
    on an array of at most sixteen entries.  On longer arrays NumPy promises
    only an ascending permutation; the development takes [argsort] as a
    parameter and uses this function as its instance. *)
Fixpoint insert_by {K} (leb : K -> K -> bool) (x : nat * K)
    (l : list (nat * K)) : list (nat * K) :=
  match l with
  | [] => [x]
  | y :: rest =>
      if leb x.2 y.2 then x :: y :: rest else y :: insert_by leb x rest
  end.

Definition argsort_by {K} (leb : K -> K -> bool) (keys : list K) : list nat :=
  map fst (foldr (insert_by leb) [] (enumerate keys)).

Definition argsort_insertion : list Q -> list nat := argsort_by Qle_bool.

(** ** ScoreTransformer.get_top_features *)

Definition default_min_contribution : Q := 1 # 100.

Section TopFeatures.

(** [np.argsort]. *)
Variable argsort : list Q -> list nat.

(** [sorted_feature_indices] of the loop body, for one row. *)
Definition sorted_feature_indices (row : list Q) (min_contribution : Q)
    : result (list nat) :=
  let sample_contributions := map Qabs row in
  let significant_features := mask_ge sample_contributions min_contribution in
  let significant_features :=
    if Nat.eqb (np_sum_mask significant_features) 0
    then map (fun _ => true) significant_features
    else significant_features in
  let feature_indices := np_where significant_features in
  let feature_contributions :=
    select_mask sample_contributions significant_features in
  let sorted_indices := reverse (argsort feature_contributions) in
  index_all feature_indices sorted_indices.

Definition top_7_indices (row : list Q) (min_contribution : Q)
    : result (list nat) :=
  (sorted <- sorted_feature_indices row min_contribution ;;
   Ok (take 7 sorted))%result.

(** The body of [for i in range(n_samples)]. *)
Definition get_top_features_row (row : list Q) (feature_names : list string)
    (min_contribution : Q) : result (list string) :=
  (top_7 <- top_7_indices row min_contribution ;;
   top_7_features <- rmapM (index1 feature_names) top_7 ;;
   (* while len(top_7_features) < 7: top_7_features.append("") *)
   Ok (top_7_features
         ++ replicate (7 - length top_7_features) EmptyString))%result.

Definition get_top_features (contributions : list (list Q))
    (feature_names : list string) (min_contribution : Q)
    : result (list (list string)) :=
  rmapM (fun row => get_top_features_row row feature_names min_contribution)
        contributions.

End TopFeatures.

(** Attribution in the words of the specification: the mean of column [i]
    of the matrix being explained, and the copy of a matrix in which column
    [i] is replaced by a given value. *)
Definition spec_column_mean (matrix : list (list Q)) (i : nat) : Q :=
  fold_right Qplus 0 (List.map (fun row => nth i row 0) matrix)
    / inject_Z (Z.of_nat (length matrix)).

Definition spec_replace_column (matrix : list (list Q)) (i : nat) (v : Q)
    : list (list Q) :=
  List.map (fun row => firstn i row ++ v :: skipn (S i) row) matrix.

(** Top-feature selection in the words of the specification: the features
    that pass the threshold, or all of them when none passes. *)
Definition spec_survivors (row : list Q) (min_contribution : Q) : list nat :=
  let passing :=
    List.filter (fun i => Qle_bool min_contribution (Qabs (nth i row 0)))
                (seq 0 (length row)) in
  match passing with
  | [] => seq 0 (length row)
  | _ => passing
  end.

(** What [np.argsort] promises: an ascending permutation of the positions. *)
Definition argsort_spec (argsort : list Q -> list nat) : Prop :=
  forall a : list Q,
    Permutation (argsort a) (seq 0 (length a)) /\
    StronglySorted (fun i j => nth i a 0 <= nth j a 0) (argsort a).

(** A stable argsort: equal keys keep the order of their positions. *)
Definition argsort_stable (argsort : list Q -> list nat) : Prop :=
  forall a : list Q,
    Permutation (argsort a) (seq 0 (length a)) /\
    StronglySorted
      (fun i j => nth i a 0 < nth j a 0 \/ (nth i a 0 == nth j a 0 /\ (i < j)%nat))
      (argsort a).

(** Closed forms of the loop body of [get_top_features], used to state what
    it computes: the surviving positions in the order the code ranks them,
    and the seven slots built from the first seven. *)
Definition ranked_survivors (argsort : list Q -> list nat) (row : list Q)
    (min_contribution : Q) : list nat :=
  let survivors := spec_survivors row min_contribution in
  let keys := map (fun i => Qabs (nth i row 0)) survivors in
  map (fun j => nth j survivors 0%nat) (reverse (argsort keys)).

Definition seven_slots (feature_names : list string) (ranked : list nat)
    : list string :=
  let top := take 7 ranked in
  map (fun idx => nth idx feature_names EmptyString) top
    ++ replicate (7 - length top) EmptyString.

(** The tie-break of the specification, as a property of the code run with a
    given [argsort]: of two ranked features with equal absolute contributions
    the one that comes first in the feature ordering is ranked first. *)
Definition ties_keep_feature_order (argsort : list Q -> list nat) : Prop :=
  forall (row : list Q) (min_contribution : Q) (top : list nat)
         (p q i j : nat),
    top_7_indices argsort row min_contribution = Ok top ->
    top !! p = Some i ->
    top !! q = Some j ->
    Qabs (nth i row 0) == Qabs (nth j row 0) ->
    (i < j)%nat ->
    (p < q)%nat.

(** Lexicographic order on (position, key) pairs: by key, then position. *)
Definition key_then_position (x y : nat * Q) : Prop :=
  x.2 < y.2 \/ (x.2 == y.2 /\ (x.1 < y.1)%nat).

(** ** Tables *)

(** A pandas column: numeric ([None] is a missing value) or of object
    dtype. *)
Inductive column : Type :=
  | NumCol (vals : list (option Q))
  | ObjCol (vals : list string).

(** What [pd.read_csv] followed by [pd.to_datetime] on ['Time'] yields: the
    ['Time'] column, when the file has one, as nanoseconds since the epoch,
    and the other columns in file order. *)
Record csv_file : Type := {
  csv_time : option (list Z);
  csv_cols : list (string * column);
}.

(** A frame that has its ['Time'] column. *)
Record DataFrame : Type := {
  df_time : list Z;
  df_cols : list (string * column);
}.

(** [col[order]]: the rows of a column taken in the given order. *)
Definition reindex_column (order : list nat) (c : column) : column :=
  match c with
  | NumCol vals => NumCol (map (fun i => default None (vals !! i)) order)
  | ObjCol vals => ObjCol (map (fun i => default EmptyString (vals !! i)) order)
  end.

(** [col[mask]]. *)
Definition mask_column (mask : list bool) (c : column) : column :=
  match c with
  | NumCol vals => NumCol (select_mask vals mask)
  | ObjCol vals => ObjCol (select_mask vals mask)
  end.

(** [df.sort_values('Time').reset_index(drop=True)].  Rows with the same
    timestamp keep their file order here; pandas leaves their order open. *)
Definition sort_values_Time (t : list Z) (cols : list (string * column))
    : DataFrame :=
  let order := argsort_by Z.leb t in
  {| df_time := map (fun i => default 0%Z (t !! i)) order;
     df_cols := map (fun nc => (nc.1, reindex_column order nc.2)) cols |}.

(** [s.isnull().sum()]. *)
Definition isnull_sum (vals : list (option Q)) : nat :=
  np_sum_mask (map (fun v => match v with None => true | Some _ => false end)
                   vals).

(** [s.fillna(method='ffill')]: carry the last seen value forward. *)
Fixpoint ffill_from (last : option Q) (vals : list (option Q))
    : list (option Q) :=
  match vals with
  | [] => []
  | v :: rest =>
      let cur := match v with Some _ => v | None => last end in
      cur :: ffill_from cur rest
  end.

Definition ffill (vals : list (option Q)) : list (option Q) :=
  ffill_from None vals.

(** [s.fillna(method='bfill')]: carry the next seen value backward. *)
Definition bfill (vals : list (option Q)) : list (option Q) :=
  reverse (ffill (reverse vals)).

(** The body of the missing-value loop, for one numeric column. *)
Definition fill_missing (c : column) : column :=
  match c with
  | NumCol vals =>
      if Nat.ltb 0 (isnull_sum vals) then NumCol (bfill (ffill vals)) else c
  | ObjCol _ => c
  end.

(** [s.dropna()]. *)
Definition dropna (vals : list (option Q)) : list Q := omap id vals.

(** The sample variance behind [s.std()] (one degree of freedom removed,
    missing values skipped), in exact arithmetic; [None] is NaN, the value
    for fewer than two observations. *)
Definition sample_variance (xs : list Q) : option Q :=
  if Nat.ltb (length xs) 2 then None
  else
    let m := np_mean xs in
    Some (Qsum (map (fun x => (x - m) * (x - m)) xs)
            / Q_of_nat (length xs - 1)).

(** The test [s.std() == 0] in exact arithmetic.  pandas evaluates the test
    in float64, where rounding can leave a constant column with a deviation
    that is not zero and a column that is not constant with one that is; the
    development therefore takes the test as a parameter, and uses this
    function only as an instance to run the model on tables of small
    integers, where the two agree. *)
Definition exact_std_is_zero (vals : list (option Q)) : bool :=
  match sample_variance (dropna vals) with
  | Some v => Qeq_bool v 0
  | None => false
  end.

(** [constant_features] of [load_and_validate_data]: the names of the numeric
    columns for which the test [df[col].std() == 0] holds. *)
Definition constant_features (series_std_is_zero : list (option Q) -> bool)
    (cols : list (string * column)) : list string :=
  omap (fun nc : string * column =>
          match nc.2 with
          | NumCol vals => if series_std_is_zero vals then Some nc.1 else None
          | ObjCol _ => None
          end) cols.

(** [df.drop(columns=names)]. *)
Definition drop_columns (names : list string) (cols : list (string * column))
    : list (string * column) :=
  List.filter (fun nc : string * column => negb (bool_decide (nc.1 ∈ names)))
              cols.

(** A Python float. *)
Inductive pyfloat : Type :=
  | Finite (q : Q)
  | NaN
  | PosInf
  | NegInf.

(** ** DataProcessor *)

Section Pipeline.

(** [s.std() == 0] as pandas evaluates it, in float64, on a numeric column. *)
Variable series_std_is_zero : list (option Q) -> bool.

(** A fitted [StandardScaler], and its two operations. *)
Context {Scaler : Type}.
Variable scaler_fit : list (list Q) -> Scaler.
Variable scaler_transform : Scaler -> list (list Q) -> list (list Q).

Record DataProcessor : Type := {
  min_training_hours : nat;
  scaler : option Scaler;          (* [None]: not fitted yet *)
  feature_names : list string;
}.

(** [DataProcessor.__init__]. *)
Definition DataProcessor_init (min_training_hours : nat) : DataProcessor :=
  {| min_training_hours := min_training_hours;
     scaler := None;
     feature_names := [] |}.

(** The frame of [load_and_validate_data] after sorting and filling, before
    the constant features are dropped. *)
Definition sorted_and_filled (t : list Z) (cols : list (string * column))
    : DataFrame :=
  let df := sort_values_Time t cols in
  {| df_time := df_time df;
     df_cols := map (fun nc => (nc.1, fill_missing nc.2)) (df_cols df) |}.

(** The [except] clause logs and re-raises: an error leaves as it came, and
    [self.feature_names] is assigned only when nothing was raised. *)
Definition load_and_validate_data (self : DataProcessor)
    (fs : gmap string csv_file) (csv_path : string)
    : result (DataProcessor * DataFrame) :=
  match fs !! csv_path with
  | None => Err (FileNotFoundError csv_path)
  | Some file =>
      match csv_time file with
      | None => Err (ValueError MissingTimeColumn)
      | Some t =>
          let df := sorted_and_filled t (csv_cols file) in
          let constant := constant_features series_std_is_zero (df_cols df) in
          let df :=
            match constant with
            | [] => df
            | _ => {| df_time := df_time df;
                      df_cols := drop_columns constant (df_cols df) |}
            end in
          let self := {| min_training_hours := min_training_hours self;
                         scaler := scaler self;
                         feature_names := map fst (df_cols df) |} in
          Ok (self, df)
      end
  end.

(** [pd.Timestamp('2004-01-dd hh:mm:ss')], in nanoseconds since the epoch;
    1 January 2004 is day 12418. *)
Definition Timestamp_2004_01 (dd hh mm ss : Z) : Z :=
  (((12418 + (dd - 1)) * 86400 + hh * 3600 + mm * 60 + ss) * 1000000000)%Z.

Definition train_start : Z := Timestamp_2004_01 1 0 0 0.
Definition train_end : Z := Timestamp_2004_01 5 23 59 59.
Definition analysis_start : Z := Timestamp_2004_01 1 0 0 0.
Definition analysis_end : Z := Timestamp_2004_01 19 7 59 59.

(** [(df['Time'] >= lo) & (df['Time'] <= hi)]. *)
Definition between_mask (t : list Z) (lo hi : Z) : list bool :=
  map (fun x => Z.leb lo x && Z.leb x hi) t.

(** [df[mask].copy()]. *)
Definition select_rows (df : DataFrame) (mask : list bool) : DataFrame :=
  {| df_time := select_mask (df_time df) mask;
     df_cols := map (fun nc => (nc.1, mask_column mask nc.2)) (df_cols df) |}.

(** [len(df)]. *)
Definition len (df : DataFrame) : nat := length (df_time df).

Definition training_window (df : DataFrame) : DataFrame :=
  select_rows df (between_mask (df_time df) train_start train_end).

Definition analysis_window (df : DataFrame) : DataFrame :=
  select_rows df (between_mask (df_time df) analysis_start analysis_end).

Definition split_data (self : DataProcessor) (df : DataFrame)
    : result (DataFrame * DataFrame) :=
  let training_data := training_window df in
  let analysis_data := analysis_window df in
  let training_hours := len training_data in
  if Nat.ltb training_hours (min_training_hours self)
  then Err (ValueError (InsufficientTrainingData training_hours
                          (min_training_hours self)))
  else Ok (training_data, analysis_data).

(** [df[name]]. *)
Fixpoint lookup_column (cols : list (string * column)) (name : string)
    : result column :=
  match cols with
  | [] => Err (KeyError name)
  | (n, c) :: rest =>
      if bool_decide (n = name) then Ok c else lookup_column rest name
  end.

(** [float(s)], which the scaler's conversion of an object array to float64
    applies to each string: [None] when it raises ValueError. *)
Variable float_of_string : string -> option pyfloat.

(** The entries of a column as floats, as the scaler sees them when it
    converts its input to float64. *)
Definition float_values (c : column) : result (list pyfloat) :=
  match c with
  | NumCol vals =>
      Ok (map (fun v : option Q => match v with
                                   | Some q => Finite q
                                   | None => NaN
                                   end) vals)
  | ObjCol vals =>
      rmapM (fun s => match float_of_string s with
                      | Some f => Ok f
                      | None =>
                          Err (SklearnError "could not convert string to float")
                      end) vals
  end.

(** [np.nan_to_num(x, nan=0.0, posinf=0.0, neginf=0.0)] on one entry of a
    float array. *)
Definition nan_to_num (f : pyfloat) : Q :=
  match f with
  | Finite q => q
  | NaN | PosInf | NegInf => 0
  end.

(** The rows of the matrix whose columns are [cols], with [nan_to_num]
    applied: one row per time tick. *)
Definition feature_rows (n_rows : nat) (cols : list (list pyfloat))
    : list (list Q) :=
  map (fun r => map (fun col => nan_to_num (default NaN (col !! r))) cols)
      (seq 0 n_rows).

(** [features.dtype == object]: [df[names].values] is an array of Python
    objects as soon as one selected column holds strings. *)
Definition is_object_array (cols : list column) : bool :=
  existsb (fun c => match c with
                    | ObjCol _ => true
                    | NumCol _ => false
                    end) cols.

Definition has_inf (vals : list (list pyfloat)) : bool :=
  existsb (existsb (fun f => match f with
                             | PosInf | NegInf => true
                             | Finite _ | NaN => false
                             end)) vals.

Definition has_nan (vals : list (list pyfloat)) : bool :=
  existsb (existsb (fun f => match f with
                             | NaN => true
                             | Finite _ | PosInf | NegInf => false
                             end)) vals.

(** The float64 matrix the scaler works on.  [np.nan_to_num] changes a float
    array only and returns an object array as it is; the scaler then converts
    the strings, raises on one that is no number, and refuses an infinity.
    A NaN that is still there (in an object array only) is let through by
    the scaler.  The matrices of this development hold rationals and cannot
    carry it: the model raises at that point. *)
Definition scaler_input (n_rows : nat) (cols : list column)
    : result (list (list Q)) :=
  (vals <- rmapM float_values cols ;;
   if is_object_array cols && has_inf vals
   then Err (SklearnError "Input X contains infinity")
   else if is_object_array cols && has_nan vals
   then Err (SklearnError "Input X contains NaN")
   else Ok (feature_rows n_rows vals))%result.

(** [fit_transform] validates and converts its input; [transform] first
    checks that the scaler is fitted. *)
Definition preprocess_features (self : DataProcessor) (df : DataFrame)
    (fit_scaler : bool) : result (DataProcessor * list (list Q)) :=
  (cols <- rmapM (lookup_column (df_cols df)) (feature_names self) ;;
   if fit_scaler then
     features <- scaler_input (len df) cols ;;
     let sc := scaler_fit features in
     Ok ({| min_training_hours := min_training_hours self;
            scaler := Some sc;
            feature_names := feature_names self |},
         scaler_transform sc features)
   else
     match scaler self with
     | None => Err (SklearnError "StandardScaler is not fitted")
     | Some sc =>
         features <- scaler_input (len df) cols ;;
         Ok (self, scaler_transform sc features)
     end)%result.

(** ** AnomalyDetector *)

(** A fitted [IsolationForest]; [forest_fit contamination random_state X]
    is [IsolationForest(contamination, random_state).fit(X)], and
    [decision_function] returns one score per row of its argument. *)
Context {Forest : Type}.
Variable forest_fit : Q -> Z -> list (list Q) -> result Forest.
Variable decision_function : Forest -> list (list Q) -> list Q.

Record AnomalyDetector : Type := {
  contamination : Q;
  random_state : Z;
  model : option Forest;           (* [None]: [fit] was never run *)
  is_fitted : bool;
}.

(** [AnomalyDetector.__init__]. *)
Definition AnomalyDetector_init (contamination : Q) (random_state : Z)
    : AnomalyDetector :=
  {| contamination := contamination;
     random_state := random_state;
     model := None;
     is_fitted := false |}.

Definition train (self : AnomalyDetector) (training_features : list (list Q))
    : result AnomalyDetector :=
  ((* the throw-away model that counts anomalies for the log *)
   _ <- forest_fit (5 # 100) (random_state self) training_features ;;
   fitted <- forest_fit (contamination self) (random_state self)
               training_features ;;
   Ok {| contamination := contamination self;
         random_state := random_state self;
         model := Some fitted;
         is_fitted := true |})%result.

(** [self.model.decision_function(features)]. *)
Definition model_decision_function (self : AnomalyDetector)
    (features : list (list Q)) : result (list Q) :=
  match model self with
  | Some forest => Ok (decision_function forest features)
  | None => Err (SklearnError "IsolationForest is not fitted")
  end.

Definition predict_anomaly_scores (self : AnomalyDetector)
    (features : list (list Q)) : result (list Q) :=
  if negb (is_fitted self) then Err (ValueError NotTrainedPrediction)
  else model_decision_function self features.

(** [features[:, i]]. *)
Definition column_of (features : list (list Q)) (i : nat) : list Q :=
  map (fun row => nth i row 0) features.

(** [m[:, i] = v] for a scalar [v]. *)
Definition set_column_scalar (m : list (list Q)) (i : nat) (v : Q)
    : list (list Q) :=
  map (fun row => <[i := v]> row) m.

(** [m[:, i] = col] for an array [col] with one entry per row. *)
Definition set_column (m : list (list Q)) (i : nat) (col : list Q)
    : list (list Q) :=
  zip_with (fun row v => <[i := v]> row) m col.

(** [a - b], elementwise. *)
Definition np_sub (a b : list Q) : list Q := zip_with Qminus a b.

(** [features.shape]. *)
Definition shape (features : list (list Q)) : nat * nat :=
  (length features, length (default [] (head features))).

(** The copy of [features] whose column [i] holds that column's mean. *)
Definition perturbed_features (features : list (list Q)) (i : nat)
    : list (list Q) :=
  set_column_scalar features i (np_mean (column_of features i)).

(** The body of [for i in range(n_features)]. *)
Definition contributions_step (forest : Forest) (features : list (list Q))
    (baseline_scores : list Q) (contributions : list (list Q)) (i : nat)
    : list (list Q) :=
  let perturbed_scores :=
    decision_function forest (perturbed_features features i) in
  set_column contributions i (np_sub baseline_scores perturbed_scores).

Definition calculate_feature_contributions (self : AnomalyDetector)
    (features : list (list Q)) (feature_names : list string)
    : result (list (list Q)) :=
  if negb (is_fitted self) then Err (ValueError NotTrainedAttribution)
  else
    let '(n_samples, n_features) := shape features in
    let contributions := replicate n_samples (replicate n_features 0) in
    match model self with
    | None => Err (SklearnError "IsolationForest is not fitted")
    | Some forest =>
        let baseline_scores := decision_function forest features in
        Ok (foldl (contributions_step forest features baseline_scores)
                  contributions (seq 0 n_features))
    end.

(** ** AnomalyDetectionSystem *)


Variable argsort : list Q -> list nat.

Record AnomalyDetectionSystem : Type := {
  data_processor : DataProcessor;
  anomaly_detector : AnomalyDetector;
}.

Definition default_min_training_hours : nat := 72.

(** [AnomalyDetectionSystem.__init__]. *)
Definition AnomalyDetectionSystem_init (contamination : Q)
    (random_state : Z) : AnomalyDetectionSystem :=
  {| data_processor := DataProcessor_init default_min_training_hours;
     anomaly_detector := AnomalyDetector_init contamination random_state |}.

(** What a run can change: the system object and the files on disk. *)
Record World : Type := {
  system : AnomalyDetectionSystem;
  files : gmap string csv_file;
}.

(** Computations that read and write the world and may raise. *)
Definition M (A : Type) : Type := World -> World * result A.

Definition bind_world {A B} (c : M A) (k : A -> M B) : M B :=
  fun w =>
    match c w with
    | (w', Ok a) => k a w'
    | (w', Err e) => (w', Err e)
    end.

Declare Scope world_scope.
Delimit Scope world_scope with world.
Notation "x <- c ;; k" := (bind_world c (fun x => k))
  (at level 100, c at next level, right associativity) : world_scope.

(** A pure step that may raise. *)
Definition lift {A} (r : result A) : M A := fun w => (w, r).

Definition get_files : M (gmap string csv_file) :=
  fun w => (w, Ok (files w)).

Definition get_feature_names : M (list string) :=
  fun w => (w, Ok (feature_names (data_processor (system w)))).

(** A method of [self.data_processor]; the object changes when the call
    returns. *)
Definition call_processor {A}
    (method : DataProcessor -> result (DataProcessor * A)) : M A :=
  fun w =>
    match method (data_processor (system w)) with
    | Ok (dp, a) =>
        ({| system := {| data_processor := dp;
                         anomaly_detector := anomaly_detector (system w) |};
            files := files w |}, Ok a)
    | Err e => (w, Err e)
    end.

(** A method of [self.anomaly_detector] that changes the detector. *)
Definition call_detector_update
    (method : AnomalyDetector -> result AnomalyDetector) : M unit :=
  fun w =>
    match method (anomaly_detector (system w)) with
    | Ok ad =>
        ({| system := {| data_processor := data_processor (system w);
                         anomaly_detector := ad |};
            files := files w |}, Ok tt)
    | Err e => (w, Err e)
    end.

(** A method of [self.anomaly_detector] that only reads it. *)
Definition call_detector {A} (method : AnomalyDetector -> result A) : M A :=
  fun w => (w, method (anomaly_detector (system w))).

Definition csv_of_frame (df : DataFrame) : csv_file :=
  {| csv_time := Some (df_time df); csv_cols := df_cols df |}.

(** [df.to_csv(path, index=False)]. *)
Definition to_csv (df : DataFrame) (path : string) : M unit :=
  fun w =>
    ({| system := system w;
        files := <[path := csv_of_frame df]> (files w) |}, Ok tt).

Definition column_length (c : column) : nat :=
  match c with
  | NumCol vals => length vals
  | ObjCol vals => length vals
  end.

(** The column list after [df[name] = c]: replaced in place when the name
    exists, appended otherwise. *)
Fixpoint set_col (cols : list (string * column)) (name : string)
    (c : column) : list (string * column) :=
  match cols with
  | [] => [(name, c)]
  | (n, c0) :: rest =>
      if bool_decide (n = name) then (n, c) :: rest
      else (n, c0) :: set_col rest name c
  end.

(** [df[name] = c]; pandas refuses values of the wrong length. *)
Definition assign_column (df : DataFrame) (name : string) (c : column)
    : result DataFrame :=
  if Nat.eqb (column_length c) (len df)
  then Ok {| df_time := df_time df; df_cols := set_col (df_cols df) name c |}
  else Err (ValueError LengthMismatch).

(** [f'top_feature_{i+1}'], for [i] below nine. *)
Definition top_feature_column (i : nat) : string :=
  "top_feature_" +:+ String (Ascii.ascii_of_nat (48 + (i + 1))) EmptyString.

(** The body of [for i in range(7)] in step 9. *)
Definition add_top_feature_column (top_features : list (list string))
    (output_df : DataFrame) (i : nat) : result DataFrame :=
  (col <- rmapM (fun features => index1 features i) top_features ;;
   assign_column output_df (top_feature_column i) (ObjCol col))%result.

Definition create_output (analysis_data : DataFrame)
    (transformed_scores : list Q) (top_features : list (list string))
    : result DataFrame :=
  (output_df <- assign_column analysis_data "Abnormality_score"
                  (NumCol (map Some transformed_scores)) ;;
   rfoldl (add_top_feature_column top_features) output_df (seq 0 7))%result.

(** [df.columns]. *)
Definition frame_columns (df : DataFrame) : list string :=
  "Time"%string :: map fst (df_cols df).

Definition required_columns : list string :=
  "Abnormality_score"%string :: map top_feature_column (seq 0 7).

(** The statistics [_validate_results] logs before it checks the columns:
    the mean and maximum of the scores in the training window, when there
    are any, and the minimum, maximum and mean of all scores, formatted
    with [:.2f].  On a column of numbers nothing raises; on a column of
    strings the mean raises, or else the formatting of the minimum. *)
Definition log_score_statistics (t : list Z) (scores : column) : result unit :=
  match scores with
  | NumCol _ => Ok tt
  | ObjCol vals =>
      let training_mask := between_mask t train_start train_end in
      let training_scores := select_mask vals training_mask in
      if Nat.ltb 0 (length training_scores) then Err TypeError
      else if Nat.ltb 0 (length vals) then Err (ValueError UnknownFormatCode)
      else Ok tt
  end.

Definition validate_results (output_df training_data : DataFrame)
    : result unit :=
  ((* output_df.loc[training_mask, 'Abnormality_score'] *)
   scores <- lookup_column (df_cols output_df) "Abnormality_score" ;;
   _ <- log_score_statistics (df_time output_df) scores ;;
   let missing_columns :=
     List.filter
       (fun col => negb (bool_decide (col ∈ frame_columns output_df)))
       required_columns in
   match missing_columns with
   | [] => Ok tt
   | _ => Err (ValueError (MissingRequiredColumns missing_columns))
   end)%result.

(** The [except] clause of [process_data] logs and re-raises, so the error
    of the failing step is the error of the run. *)
Definition process_data (input_csv_path output_csv_path : string) : M unit :=
  ((* Step 1: load and validate data *)
   fs <- get_files ;;
   df <- call_processor
           (fun dp => load_and_validate_data dp fs input_csv_path) ;;
   (* Step 2: split data into training and analysis periods *)
   split <- call_processor
              (fun dp => rbind (split_data dp df) (fun s => Ok (dp, s))) ;;
   let training_data := split.1 in
   let analysis_data := split.2 in
   (* Step 3: preprocess features *)
   training_features <- call_processor
                          (fun dp => preprocess_features dp training_data true) ;;
   analysis_features <- call_processor
                          (fun dp => preprocess_features dp analysis_data false) ;;
   (* Step 4: train the model *)
   _ <- call_detector_update (fun ad => train ad training_features) ;;
   (* Step 5: predict anomaly scores *)
   raw_scores <- call_detector
                   (fun ad => predict_anomaly_scores ad analysis_features) ;;
   (* Step 6: transform scores to the 0-100 scale *)
   let transformed_scores := transform_scores raw_scores true in
   (* Step 7: feature contributions *)
   names <- get_feature_names ;;
   contributions <- call_detector
                      (fun ad => calculate_feature_contributions ad
                                   analysis_features names) ;;
   (* Step 8: top contributing features *)
   top_features <- lift (get_top_features argsort contributions names
                           default_min_contribution) ;;
   (* Step 9: the output frame *)
   output_df <- lift (create_output analysis_data transformed_scores
                        top_features) ;;
   (* Step 10: save results *)
   _ <- to_csv output_df output_csv_path ;;
   (* Step 11: validation *)
   lift (validate_results output_df training_data))%world.

End Pipeline.

Arguments DataProcessor : clear implicits.
Arguments AnomalyDetector : clear implicits.
Arguments AnomalyDetectionSystem : clear implicits.
Arguments World : clear implicits.
Arguments M : clear implicits.

(** ** A small instance of the library parameters

    Enough of a scaler and of a forest to run the model on concrete tables:
    the scaler leaves the matrix as it is, and a row scores the lower the
    larger its entries are. *)

Definition sample_scaler_fit (X : list (list Q)) : unit := tt.

Definition sample_scaler_transform (sc : unit) (X : list (list Q))
    : list (list Q) := X.

(** The sample tables hold numbers only; this instance converts no string. *)
Definition sample_float_of_string (s : string) : option pyfloat := None.

Definition sample_forest_fit (contamination : Q) (random_state : Z)
    (X : list (list Q)) : result unit := Ok tt.

Definition sample_decision_function (forest : unit) (X : list (list Q))
    : list Q :=
  map (fun row => 0 - Qsum (map Qabs row)) X.

(** ** Sample tables *)

(** [n] hourly ticks from the start of the training window. *)
Definition hourly_ticks (n : nat) : list Z :=
  map (fun i => (train_start + Z.of_nat i * 3600 * 1000000000)%Z) (seq 0 n).

(** Seventy-four hourly rows inside the training window and one row on
    10 January.  Column [x] is 1 throughout the training window and 5
    afterwards, column [k] is 1 everywhere, column [y] counts the rows. *)
Definition sample_drift_table : csv_file :=
  {| csv_time := Some (hourly_ticks 74 ++ [Timestamp_2004_01 10 0 0 0]);
     csv_cols :=
       [("x"%string, NumCol (replicate 74 (Some 1) ++ [Some 5]));
        ("k"%string, NumCol (replicate 75 (Some 1)));
        ("y"%string, NumCol (map (fun i => Some (Q_of_nat i)) (seq 0 75)))] |}.

(** Three hourly rows: too few to train on. *)
Definition sample_short_table : csv_file :=
  {| csv_time := Some (hourly_ticks 3);
     csv_cols := [("y"%string, NumCol [Some 1; Some 2; Some 3])] |}.

(** The frame [load_and_validate_data] makes of [sample_short_table]. *)
Definition sample_short_frame : DataFrame :=
  {| df_time := hourly_ticks 3;
     df_cols := [("y"%string, NumCol [Some 1; Some 2; Some 3])] |}.

Definition sample_world (table : csv_file) : World unit unit :=
  {| system := AnomalyDetectionSystem_init (1 # 10) 42;
     files := {["in.csv"%string := table]} |}.

Definition sample_run (table : csv_file) : World unit unit * result unit :=
  process_data exact_std_is_zero sample_scaler_fit sample_scaler_transform sample_float_of_string sample_forest_fit
    sample_decision_function argsort_insertion "in.csv" "out.csv"
    (sample_world table).


From Stdlib Require Import Ascii.

(** ** Frames whose columns line up *)

(** Every column has one entry per row. *)
Definition frame_aligned (df : DataFrame) : Prop :=
  Forall (fun nc : string * column => column_length nc.2 = len df)
         (df_cols df).

Definition in_training_window (t : Z) : Prop :=
  (train_start <= t <= train_end)%Z.

Definition in_analysis_window (t : Z) : Prop :=
  (analysis_start <= t <= analysis_end)%Z.

(** [main] of [anomaly_detector.py]: a fresh system with contamination 0.1
    and seed 42 runs [process_data]; the [except] clause prints and
    re-raises. *)
Definition main {Scaler Forest : Type}
    (series_std_is_zero : list (option Q) -> bool)
    (scaler_fit : list (list Q) -> Scaler)
    (scaler_transform : Scaler -> list (list Q) -> list (list Q))
    (float_of_string : string -> option pyfloat)
    (forest_fit : Q -> Z -> list (list Q) -> result Forest)
    (decision_function : Forest -> list (list Q) -> list Q)
    (argsort : list Q -> list nat)
    (fs : gmap string csv_file) (input_csv_path output_csv_path : string)
    : World Scaler Forest * result unit :=
  process_data series_std_is_zero scaler_fit scaler_transform
    float_of_string forest_fit decision_function argsort
    input_csv_path output_csv_path
    {| system := AnomalyDetectionSystem_init (1 # 10) 42; files := fs |}.

(** ** backend/app.py *)

Definition ALLOWED_EXTENSIONS : list string := ["csv"; "xls"; "xlsx"]%string.

(** [c.lower()] on one character of a byte string: the ASCII capitals move
    to their small letters, every other byte stays.  (Outside ASCII, Python
    lowers only the Kelvin sign and the dotted capital I to something with
    an ASCII letter, k and i, which no allowed extension contains.) *)
Definition lower_char (c : ascii) : ascii :=
  let n := nat_of_ascii c in
  if Nat.leb 65 n && Nat.leb n 90 then ascii_of_nat (n + 32) else c.

(** [s.lower()]. *)
Definition lower (s : list ascii) : list ascii := map lower_char s.

Definition is_dot (c : ascii) : bool := bool_decide (c = "."%char).

(** ['.' in s]. *)
Definition contains_dot (s : list ascii) : bool := existsb is_dot s.

(** The two parts around the last dot of [s], when there is a dot. *)
Fixpoint split_last_dot (s : list ascii)
    : option (list ascii * list ascii) :=
  match s with
  | [] => None
  | c :: rest =>
      match split_last_dot rest with
      | Some (before, after) => Some (c :: before, after)
      | None => if is_dot c then Some ([], rest) else None
      end
  end.

(** [s.rsplit('.', 1)]. *)
Definition rsplit_dot (s : list ascii) : list (list ascii) :=
  match split_last_dot s with
  | Some (before, after) => [before; after]
  | None => [s]
  end.

(** [allowed_file]; [and] evaluates its right operand only when the left
    one holds. *)
Definition allowed_file (filename : string) : result bool :=
  let s := String.list_ascii_of_string filename in
  if contains_dot s then
    (ext <- index1 (rsplit_dot s) 1 ;;
     Ok (bool_decide (String.string_of_list_ascii (lower ext) ∈ ALLOWED_EXTENSIONS)))
      %result
  else Ok false.

(** [scores > x], elementwise. *)
Definition mask_gt (arr : list Q) (x : Q) : list bool :=
  map (fun y => negb (Qle_bool y x)) arr.

(** [a & b], elementwise. *)
Definition mask_and (a b : list bool) : list bool := zip_with andb a b.

(** [score_distribution] of [process_analysis_result], for a score column
    without missing entries. *)
Record ScoreDistribution : Type := {
  normal : nat;
  slight : nat;
  moderate : nat;
  significant : nat;
  severe : nat;
}.

Definition score_distribution (scores : list Q) : ScoreDistribution :=
  {| normal := length (select_mask scores (mask_le scores 10));
     slight := length (select_mask scores
                         (mask_and (mask_gt scores 10) (mask_le scores 30)));
     moderate := length (select_mask scores
                           (mask_and (mask_gt scores 30) (mask_le scores 60)));
     significant := length (select_mask scores
                              (mask_and (mask_gt scores 60)
                                        (mask_le scores 90)));
     severe := length (select_mask scores (mask_gt scores 90)) |}.

(** The values [sanitize_json] tells apart: dictionaries (in insertion
    order), lists, floats, and the scalars it returns as they are.  The
    endpoints pass it dictionaries and lists of such values. *)
#[local] Unset Elimination Schemes.
Inductive pyvalue : Type :=
  | PyDict (items : list (string * pyvalue))
  | PyList (items : list pyvalue)
  | PyFloat (f : pyfloat)
  | PyNone
  | PyStr (s : string)
  | PyInt (z : Z)
  | PyBool (b : bool).
#[local] Set Elimination Schemes.

(** [math.isnan(f) or math.isinf(f)]. *)
Definition isnan_or_isinf (f : pyfloat) : bool :=
  match f with
  | Finite _ => false
  | _ => true
  end.

Fixpoint sanitize_json (data : pyvalue) : pyvalue :=
  match data with
  | PyDict items =>
      PyDict (map (fun kv : string * pyvalue =>
                     let (k, v) := kv in (k, sanitize_json v)) items)
  | PyList items => PyList (map sanitize_json items)
  | PyFloat f => if isnan_or_isinf f then PyNone else PyFloat f
  | other => other
  end.

(** No NaN and no infinity anywhere inside a value: what JSON can carry. *)
Fixpoint json_safe (data : pyvalue) : bool :=
  match data with
  | PyDict items =>
      forallb (fun kv : string * pyvalue => let (_, v) := kv in json_safe v)
              items
  | PyList items => forallb json_safe items
  | PyFloat f => negb (isnan_or_isinf f)
  | _ => true
  end.

(** The keys of a dictionary and the lengths of lists, all the way down:
    the shape [sanitize_json] has to keep. *)
Fixpoint same_shape (a b : pyvalue) : bool :=
  match a, b with
  | PyDict xs, PyDict ys =>
      (fix go (xs ys : list (string * pyvalue)) : bool :=
         match xs, ys with
         | [], [] => true
         | (k, v) :: xs', (k', v') :: ys' =>
             bool_decide (k = k') && same_shape v v' && go xs' ys'
         | _, _ => false
         end) xs ys
  | PyList xs, PyList ys =>
      (fix go (xs ys : list pyvalue) : bool :=
         match xs, ys with
         | [], [] => true
         | v :: xs', v' :: ys' => same_shape v v' && go xs' ys'
         | _, _ => false
         end) xs ys
  | PyDict _, _ | PyList _, _ => false
  | _, PyDict _ | _, PyList _ => false
  | _, _ => true
  end.

(** A value with a NaN and an infinity inside. *)
Definition sample_payload : pyvalue :=
  PyDict [("processingTime"%string, PyFloat (Finite (3 # 2)));
          ("summary"%string,
           PyDict [("mean"%string, PyFloat NaN);
                   ("scores"%string,
                    PyList [PyFloat (Finite 1); PyFloat PosInf; PyInt 3])])].

(** A scoring function that reads the first column only. *)
Definition sample_first_column_score (forest : unit) (X : list (list Q))
    : list Q :=
  map (fun row => 0 - Qabs (nth 0 row 0)) X.
(** ** Proofs: the percentile transform *)

Lemma np_sum_mask_filter (f : Q -> bool) (arr : list Q) :
  np_sum_mask (map f arr) = length (List.filter f arr).
Proof.
  induction arr as [|y arr IH]; simpl; [reflexivity|].
  destruct (f y); simpl; congruence.
Qed.

Lemma percentile_rank_fraction batch s :
  percentile_rank batch s = fraction_le batch s * 100.
Proof.
  unfold percentile_rank, fraction_le, mask_le.
  now rewrite np_sum_mask_filter.
Qed.

(** The index-writing loop computes a [map]: slot [i] receives the value of
    score [i], every slot is written exactly once. *)
Lemma indexed_fill {A B} (f : A -> B) (step : list B -> nat * A -> list B)
    (Hstep : forall acc i x, step acc (i, x) = <[i := f x]> acc) (l : list A) :
  forall (pre zs : list B),
    length zs = length l ->
    foldl step (pre ++ zs) (zip (seq (length pre) (length l)) l)
    = pre ++ map f l.
Proof.
  induction l as [|x l IH]; intros pre zs Hlen.
  - destruct zs; [reflexivity | discriminate].
  - destruct zs as [|z zs]; [discriminate|].
    simpl. rewrite Hstep, insert_app_r_alt by lia.
    rewrite Nat.sub_diag. simpl.
    specialize (IH (pre ++ [f x]) zs).
    rewrite length_app in IH. simpl in IH.
    rewrite Nat.add_1_r in IH.
    rewrite <- !app_assoc in IH. simpl in IH.
    apply IH. simpl in Hlen. lia.
Qed.

Lemma transform_scores_map scores flag :
  transform_scores scores flag
  = map (fun s => clip1 0 100 (100 - percentile_rank scores s)) scores.
Proof.
  unfold transform_scores, np_clip, enumerate.
  assert (Hr : (if flag then scores else scores) = scores) by now destruct flag.
  rewrite Hr.
  pose proof (indexed_fill (fun s => 100 - percentile_rank scores s)
                (transform_step scores) (fun _ _ _ => eq_refl) scores
                [] (replicate (length scores) 0)) as H.
  simpl in H. rewrite length_replicate in H. specialize (H eq_refl).
  rewrite H, map_map. reflexivity.
Qed.

Lemma clip1_range lo hi x : lo <= hi -> lo <= clip1 lo hi x <= hi.
Proof.
  intros Hlh. unfold clip1.
  destruct (Qle_bool lo x) eqn:E1.
  - apply Qle_bool_iff in E1.
    destruct (Qle_bool x hi) eqn:E2.
    + apply Qle_bool_iff in E2. split; assumption.
    + split; [assumption | apply Qle_refl].
  - destruct (Qle_bool lo hi) eqn:E2.
    + split; [apply Qle_refl | assumption].
    + split; [assumption | apply Qle_refl].
Qed.

Lemma Qle_bool_false x y : Qle_bool x y = false -> y < x.
Proof.
  intros H. apply Qnot_le_lt. intros Hle.
  apply Qle_bool_iff in Hle. congruence.
Qed.

Lemma clip1_mono lo hi x y : x <= y -> clip1 lo hi x <= clip1 lo hi y.
Proof.
  intros Hxy. unfold clip1.
  destruct (Qle_bool lo x) eqn:Ex; destruct (Qle_bool lo y) eqn:Ey;
    try (apply Qle_bool_iff in Ex); try (apply Qle_bool_iff in Ey);
    try (apply Qle_bool_false in Ex); try (apply Qle_bool_false in Ey).
  - destruct (Qle_bool x hi) eqn:Fx; destruct (Qle_bool y hi) eqn:Fy;
      try (apply Qle_bool_iff in Fx); try (apply Qle_bool_iff in Fy);
      try (apply Qle_bool_false in Fx); try (apply Qle_bool_false in Fy).
    + assumption.
    + assumption.
    + exfalso. apply (Qlt_irrefl hi).
      eapply Qlt_le_trans; [exact Fx|]. eapply Qle_trans; eassumption.
    + apply Qle_refl.
  - exfalso. apply (Qlt_irrefl lo).
    eapply Qle_lt_trans; [exact Ex|]. eapply Qle_lt_trans; eassumption.
  - destruct (Qle_bool lo hi) eqn:Fx; destruct (Qle_bool y hi) eqn:Fy;
      try (apply Qle_bool_iff in Fx); try (apply Qle_bool_iff in Fy);
      try (apply Qle_bool_false in Fx); try (apply Qle_bool_false in Fy).
    + assumption.
    + assumption.
    + exfalso. apply (Qlt_irrefl hi).
      eapply Qlt_le_trans; [exact Fx|]. eapply Qle_trans; eassumption.
    + apply Qle_refl.
  - apply Qle_refl.
Qed.

Lemma Q_of_nat_nonneg n : 0 <= Q_of_nat n.
Proof.
  unfold Q_of_nat, Qle. simpl. lia.
Qed.

Lemma Q_of_nat_le n m : (n <= m)%nat -> Q_of_nat n <= Q_of_nat m.
Proof.
  intros H. unfold Q_of_nat. rewrite <- Zle_Qle. lia.
Qed.

(** The number of entries at most [x] grows with [x]. *)
Lemma count_le_mono (arr : list Q) (x y : Q) :
  x <= y ->
  (np_sum_mask (mask_le arr x) <= np_sum_mask (mask_le arr y))%nat.
Proof.
  intros Hxy. unfold mask_le.
  induction arr as [|z arr IH]; simpl; [lia|].
  destruct (Qle_bool z x) eqn:Ex.
  - apply Qle_bool_iff in Ex.
    assert (Hy : Qle_bool z y = true).
    { apply Qle_bool_iff. eapply Qle_trans; eassumption. }
    rewrite Hy. lia.
  - destruct (Qle_bool z y); lia.
Qed.

Lemma mask_le_Qeq (arr : list Q) (x y : Q) :
  x == y -> mask_le arr x = mask_le arr y.
Proof.
  intros Hxy. unfold mask_le. apply map_ext. intros z.
  destruct (Qle_bool z x) eqn:Ex; destruct (Qle_bool z y) eqn:Ey;
    try reflexivity; exfalso.
  - apply Qle_bool_iff in Ex. rewrite Hxy in Ex.
    apply Qle_bool_iff in Ex. congruence.
  - apply Qle_bool_iff in Ey. rewrite <- Hxy in Ey.
    apply Qle_bool_iff in Ey. congruence.
Qed.

Lemma percentile_rank_mono (arr : list Q) (x y : Q) :
  x <= y -> percentile_rank arr x <= percentile_rank arr y.
Proof.
  intros Hxy. unfold percentile_rank.
  apply Qmult_le_compat_r; [|discriminate].
  unfold Qdiv. apply Qmult_le_compat_r.
  - apply Q_of_nat_le, count_le_mono, Hxy.
  - apply Qinv_le_0_compat, Q_of_nat_nonneg.
Qed.

Lemma transform_scores_lookup scores flag i s :
  scores !! i = Some s ->
  transform_scores scores flag !! i
  = Some (clip1 0 100 (100 - percentile_rank scores s)).
Proof.
  intros Hi. rewrite transform_scores_map, list_lookup_fmap, Hi. reflexivity.
Qed.

(** C1. For every batch of raw scores, the transformed score at each position
    is 100 minus one hundred times the share of the batch that is at most the
    raw score there, clipped to [0,100]; the output has one entry per raw
    score and every entry lies between 0 and 100, both included. *)
Theorem transform_scores_percentile (scores : list Q) (flag : bool)
    (i : nat) (s : Q) :
  scores !! i = Some s ->
  transform_scores scores flag !! i = Some (spec_transformed scores s) /\
  length (transform_scores scores flag) = length scores /\
  (forall t, t ∈ transform_scores scores flag -> 0 <= t <= 100).
Proof.
  intros Hi. split; [|split].
  - rewrite (transform_scores_lookup _ _ _ _ Hi).
    unfold spec_transformed. now rewrite percentile_rank_fraction.
  - rewrite transform_scores_map. apply length_map.
  - intros t Ht. rewrite transform_scores_map in Ht.
    apply list_elem_of_fmap in Ht as (x & -> & _).
    apply clip1_range. discriminate.
Qed.

Lemma transform_scores_percentile_witness :
  [1 # 2; -(1 # 3); 1 # 2; 2] !! 1%nat = Some (-(1 # 3)) /\
  transform_scores [1 # 2; -(1 # 3); 1 # 2; 2] true !! 1%nat
    = Some (spec_transformed [1 # 2; -(1 # 3); 1 # 2; 2] (-(1 # 3))).
Proof.
  split; [reflexivity|].
  apply (transform_scores_percentile [1 # 2; -(1 # 3); 1 # 2; 2] true 1
           (-(1 # 3))).
  reflexivity.
Defined.

(** C8. Within one batch a smaller raw score never gets a smaller transformed
    score, and equal raw scores get the same transformed score. *)
Theorem transform_scores_monotone (scores : list Q) (flag : bool)
    (i j : nat) (a b ta tb : Q) :
  scores !! i = Some a ->
  scores !! j = Some b ->
  transform_scores scores flag !! i = Some ta ->
  transform_scores scores flag !! j = Some tb ->
  (a < b -> tb <= ta) /\ (a == b -> ta = tb).
Proof.
  intros Ha Hb Hta Htb.
  rewrite (transform_scores_lookup _ _ _ _ Ha) in Hta.
  rewrite (transform_scores_lookup _ _ _ _ Hb) in Htb.
  injection Hta as <-. injection Htb as <-.
  split.
  - intros Hlt. apply clip1_mono.
    apply Qplus_le_compat; [apply Qle_refl|].
    apply Qopp_le_compat, percentile_rank_mono, Qlt_le_weak, Hlt.
  - intros Heq. unfold percentile_rank.
    now rewrite (mask_le_Qeq scores a b Heq).
Qed.

Lemma transform_scores_monotone_witness :
  ((-(1 # 3)) < 2 -> 0 # 4 <= 300 # 4) /\ (-(1 # 3) == 2 -> 300 # 4 = 0 # 4).
Proof.
  apply (transform_scores_monotone [1 # 2; -(1 # 3); 1 # 2; 2] true 1 3
           (-(1 # 3)) 2 (300 # 4) (0 # 4)); reflexivity.
Defined.

(** C10. The flag [analysis_period_only] does not change the result of
    [transform_scores]. *)
Theorem transform_scores_flag_irrelevant (scores : list Q) :
  transform_scores scores true = transform_scores scores false.
Proof.
  unfold transform_scores. reflexivity.
Qed.

(** ** Proofs: the insertion argsort *)

Lemma insert_by_perm {K} (leb : K -> K -> bool) x l :
  Permutation (insert_by leb x l) (x :: l).
Proof.
  induction l as [|y l IH]; simpl; [reflexivity|].
  destruct (leb x.2 y.2); [reflexivity|].
  rewrite IH. apply perm_swap.
Qed.

Lemma insertion_perm {K} (leb : K -> K -> bool) (l : list (nat * K)) :
  Permutation (foldr (insert_by leb) [] l) l.
Proof.
  induction l as [|x l IH]; simpl; [reflexivity|].
  rewrite insert_by_perm. now constructor.
Qed.

Lemma argsort_by_perm {K} (leb : K -> K -> bool) (keys : list K) :
  Permutation (argsort_by leb keys) (seq 0 (length keys)).
Proof.
  unfold argsort_by, enumerate.
  rewrite (Permutation_map fst (insertion_perm leb _)).
  change (map fst ?l) with (l.*1).
  rewrite fst_zip; [reflexivity|]. rewrite length_seq. lia.
Qed.

Lemma insert_by_sorted (x : nat * Q) (l : list (nat * Q)) :
  StronglySorted key_then_position l ->
  Forall (fun y => (x.1 < y.1)%nat) l ->
  StronglySorted key_then_position (insert_by Qle_bool x l).
Proof.
  induction 1 as [|y l Hl IH Hy]; intros Hpos; simpl.
  - repeat constructor.
  - apply Forall_cons in Hpos as [Hxy Hpos].
    destruct (Qle_bool x.2 y.2) eqn:E.
    + apply Qle_bool_iff in E.
      constructor; [constructor; assumption|].
      constructor.
      * unfold key_then_position.
        apply Qle_lteq in E as [E|E]; [left|right]; auto.
      * rewrite Forall_forall in Hy, Hpos |- *.
        intros z Hz. specialize (Hy z Hz). specialize (Hpos z Hz).
        unfold key_then_position in *.
        destruct Hy as [Hy|[Hy _]].
        -- left. eapply Qle_lt_trans; eassumption.
        -- apply Qle_lteq in E as [E|E].
           ++ left. now rewrite <- Hy.
           ++ right. split; [now rewrite E | assumption].
    + apply Qle_bool_false in E.
      constructor; [apply IH, Hpos|].
      rewrite (insert_by_perm Qle_bool x l).
      constructor; [left; exact E | assumption].
Qed.

Lemma insertion_sorted (keys : list Q) (start : nat) :
  let sorted :=
    foldr (insert_by Qle_bool) [] (zip (seq start (length keys)) keys) in
  StronglySorted key_then_position sorted /\
  Forall (fun y => (start <= y.1)%nat) sorted.
Proof.
  revert start. induction keys as [|k keys IH]; intros start; simpl.
  - split; constructor.
  - destruct (IH (S start)) as [Hs Hp]. simpl in Hs, Hp. split.
    + apply insert_by_sorted; [assumption|].
      eapply Forall_impl; [exact Hp|]. simpl. intros; lia.
    + rewrite (insert_by_perm Qle_bool _ _).
      constructor; [simpl; lia|].
      eapply Forall_impl; [exact Hp|]. simpl. intros; lia.
Qed.

Lemma enumerate_lookup {A} (arr : list A) (d : A) :
  Forall (fun p => p.2 = nth p.1 arr d) (enumerate arr).
Proof.
  unfold enumerate. rewrite Forall_forall. intros [i a] Hin.
  apply list_elem_of_lookup in Hin as [j Hj].
  apply lookup_zip_Some in Hj as [Hi Ha].
  apply lookup_seq in Hi as [-> _]. simpl.
  symmetry. now apply nth_lookup_Some.
Qed.

Lemma StronglySorted_weaken {A} (R1 R2 : A -> A -> Prop) (l : list A) :
  (forall x y, x ∈ l -> y ∈ l -> R1 x y -> R2 x y) ->
  StronglySorted R1 l -> StronglySorted R2 l.
Proof.
  intros Himp Hs. induction Hs as [|x l Hl IH Hx]; constructor.
  - apply IH. intros a b Ha Hb. apply Himp; [now right | now right].
  - rewrite Forall_forall in Hx |- *. intros y Hy.
    apply Himp; [left | right; exact Hy | auto].
Qed.

Lemma StronglySorted_map {A B} (f : A -> B) (R1 : A -> A -> Prop)
    (R2 : B -> B -> Prop) (l : list A) :
  (forall x y, x ∈ l -> y ∈ l -> R1 x y -> R2 (f x) (f y)) ->
  StronglySorted R1 l -> StronglySorted R2 (map f l).
Proof.
  intros Himp Hs. induction Hs as [|x l Hl IH Hx]; simpl; constructor.
  - apply IH. intros a b Ha Hb. apply Himp; [now right | now right].
  - rewrite Forall_forall in Hx. apply Forall_forall. intros y Hy.
    apply list_elem_of_fmap in Hy as (z & -> & Hz).
    apply Himp; [left | right; exact Hz | auto].
Qed.

Lemma StronglySorted_reverse {A} (R : A -> A -> Prop) (l : list A) :
  StronglySorted R l -> StronglySorted (fun x y => R y x) (reverse l).
Proof.
  induction 1 as [|x l Hl IH Hx].
  - constructor.
  - rewrite reverse_cons. apply StronglySorted_app. split; [|split].
    + intros a b Ha Hb. apply list_elem_of_singleton in Hb as ->.
      rewrite Forall_forall in Hx. apply Hx.
      apply elem_of_reverse, Ha.
    + exact IH.
    + repeat constructor.
Qed.

Lemma StronglySorted_lookup {A} (R : A -> A -> Prop) (l : list A)
    (p q : nat) (x y : A) :
  StronglySorted R l -> (p < q)%nat ->
  l !! p = Some x -> l !! q = Some y -> R x y.
Proof.
  intros Hs. revert p q. induction Hs as [|z l Hl IH Hz]; intros p q Hpq Hp Hq.
  - discriminate.
  - destruct q as [|q]; [lia|]. simpl in Hq.
    destruct p as [|p]; simpl in Hp.
    + injection Hp as <-. rewrite Forall_forall in Hz.
      apply Hz. eapply list_elem_of_lookup_2; eassumption.
    + eapply (IH p q); [lia | eassumption | eassumption].
Qed.

(** The insertion argsort is a stable ascending argsort. *)
Lemma argsort_insertion_stable : argsort_stable argsort_insertion.
Proof.
  intros a. split; [apply argsort_by_perm|].
  unfold argsort_insertion, argsort_by.
  destruct (insertion_sorted a 0) as [Hs _]. simpl in Hs.
  fold (enumerate a) in Hs.
  assert (Hk : Forall (fun p : nat * Q => p.2 = nth p.1 a 0)
                 (foldr (insert_by Qle_bool) [] (enumerate a))).
  { rewrite (insertion_perm Qle_bool _). apply enumerate_lookup. }
  eapply StronglySorted_map; [|exact Hs].
  intros x y Hx Hy Hxy. rewrite Forall_forall in Hk.
  rewrite <- (Hk x Hx), <- (Hk y Hy). exact Hxy.
Qed.

Lemma argsort_stable_spec (argsort : list Q -> list nat) :
  argsort_stable argsort -> argsort_spec argsort.
Proof.
  intros H a. destruct (H a) as [Hp Hs]. split; [exact Hp|].
  eapply StronglySorted_weaken; [|exact Hs].
  intros x y _ _ [Hlt|[Heq _]].
  - now apply Qlt_le_weak.
  - rewrite Heq. apply Qle_refl.
Qed.

Lemma argsort_insertion_spec : argsort_spec argsort_insertion.
Proof. apply argsort_stable_spec, argsort_insertion_stable. Qed.

(** ** Proofs: top-feature selection *)

Lemma np_where_from_filter {A} (f : A -> bool) (d : A) (arr : list A)
    (start : nat) :
  np_where_from start (map f arr)
  = List.filter (fun i => f (nth (i - start) arr d))
                (seq start (length arr)).
Proof.
  revert start. induction arr as [|x arr IH]; intros start; simpl.
  - reflexivity.
  - rewrite Nat.sub_diag, IH.
    assert (Hext :
      List.filter (fun i => f (nth (i - S start) arr d))
                  (seq (S start) (length arr))
      = List.filter (fun i => f match (i - start)%nat with
                               | O => x
                               | S m => nth m arr d
                               end)
                    (seq (S start) (length arr))).
    { apply filter_ext_in. intros i Hi. apply in_seq in Hi.
      replace (i - start)%nat with (S (i - S start)) by lia. reflexivity. }
    rewrite Hext. destruct (f x); reflexivity.
Qed.

Lemma np_where_from_length (mask : list bool) (start : nat) :
  length (np_where_from start mask) = np_sum_mask mask.
Proof.
  revert start. induction mask as [|b mask IH]; intros start; simpl.
  - reflexivity.
  - destruct b; simpl; now rewrite IH.
Qed.

Lemma np_where_from_all {A} (l : list A) (start : nat) :
  np_where_from start (map (fun _ => true) l) = seq start (length l).
Proof.
  revert start. induction l as [|x l IH]; intros start; simpl.
  - reflexivity.
  - now rewrite IH.
Qed.

Lemma select_mask_np_where {A} (d : A) (arr : list A) (mask : list bool)
    (start : nat) :
  length mask = length arr ->
  select_mask arr mask
  = map (fun i => nth (i - start) arr d) (np_where_from start mask).
Proof.
  revert mask start. induction arr as [|x arr IH]; intros mask start Hlen.
  - destruct mask; [reflexivity | discriminate].
  - destruct mask as [|b mask]; [discriminate|].
    simpl in Hlen. injection Hlen as Hlen. simpl.
    assert (Htail :
      map (fun i => match (i - start)%nat with
                    | O => x
                    | S m => nth m arr d
                    end) (np_where_from (S start) mask)
      = map (fun i => nth (i - S start) arr d)
            (np_where_from (S start) mask)).
    { apply map_ext_in. intros i Hi.
      assert (Hge : (S start <= i)%nat).
      { clear -Hi. revert start Hi.
        induction mask as [|b mask IHm]; intros start Hi; simpl in Hi.
        - contradiction.
        - destruct b; simpl in Hi.
          + destruct Hi as [<-|Hi]; [lia|]. specialize (IHm _ Hi). lia.
          + specialize (IHm _ Hi). lia. }
      replace (i - start)%nat with (S (i - S start)) by lia. reflexivity. }
    destruct b; simpl; rewrite ?Nat.sub_diag, Htail, <- (IH mask (S start) Hlen);
      reflexivity.
Qed.

Lemma rmapM_index1 {A} (arr : list A) (d : A) (idxs : list nat) :
  Forall (fun i => (i < length arr)%nat) idxs ->
  rmapM (index1 arr) idxs = Ok (map (fun i => nth i arr d) idxs).
Proof.
  induction 1 as [|i idxs Hi _ IH]; simpl.
  - reflexivity.
  - unfold index1 at 1.
    destruct (lookup_lt_is_Some_2 arr i Hi) as [a Ha].
    rewrite Ha. simpl. rewrite IH. simpl.
    now rewrite (nth_lookup_Some _ _ d _ Ha).
Qed.

Lemma map_nth_seq {A} (l : list A) (d : A) :
  map (fun i => nth i l d) (seq 0 (length l)) = l.
Proof.
  apply list_eq. intros i.
  change (map ?f ?l) with (f <$> l). rewrite list_lookup_fmap.
  destruct (decide (i < length l)%nat) as [Hlt|Hge].
  - rewrite lookup_seq_lt by assumption. simpl.
    destruct (lookup_lt_is_Some_2 l i Hlt) as [a Ha].
    now rewrite Ha, (nth_lookup_Some _ _ d _ Ha).
  - rewrite lookup_seq_ge by lia. simpl. symmetry.
    apply lookup_ge_None. lia.
Qed.

(** The positions the code keeps are the survivors of the specification. *)
Lemma feature_indices_survivors (row : list Q) (min_contribution : Q) :
  let sample_contributions := map Qabs row in
  let significant := mask_ge sample_contributions min_contribution in
  let significant :=
    if Nat.eqb (np_sum_mask significant) 0
    then map (fun _ => true) significant else significant in
  np_where significant = spec_survivors row min_contribution /\
  length significant = length sample_contributions.
Proof.
  simpl. unfold np_where, spec_survivors, mask_ge.
  rewrite map_map.
  pose proof (np_where_from_filter
                (fun x => Qle_bool min_contribution (Qabs x)) 0 row 0) as Hf.
  pose proof (np_where_from_length
                (map (fun x => Qle_bool min_contribution (Qabs x)) row) 0)
    as Hl.
  assert (Hsame :
    List.filter (fun i => Qle_bool min_contribution (Qabs (nth (i - 0) row 0)))
                (seq 0 (length row))
    = List.filter (fun i => Qle_bool min_contribution (Qabs (nth i row 0)))
                  (seq 0 (length row))).
  { apply filter_ext. intros i. now rewrite Nat.sub_0_r. }
  cbv beta in Hf. rewrite Hsame in Hf. rewrite <- Hf.
  destruct (Nat.eqb_spec
              (np_sum_mask
                 (map (fun x => Qle_bool min_contribution (Qabs x)) row)) 0)
    as [Hz|Hnz].
  - rewrite Hz in Hl. apply length_zero_iff_nil in Hl. rewrite Hl.
    rewrite np_where_from_all, !length_map. split; reflexivity.
  - destruct (np_where_from 0
                (map (fun x => Qle_bool min_contribution (Qabs x)) row))
      eqn:E.
    + simpl in Hl. congruence.
    + rewrite !length_map. split; reflexivity.
Qed.

Lemma nth_map_Qabs (i : nat) (row : list Q) :
  nth i (map Qabs row) 0 = Qabs (nth i row 0).
Proof. exact (map_nth Qabs row 0 i). Qed.

Lemma nth_map_lt {A B} (f : A -> B) (l : list A) (i : nat) (da : A) (db : B) :
  (i < length l)%nat -> nth i (map f l) db = f (nth i l da).
Proof.
  intros Hlt. destruct (lookup_lt_is_Some_2 l i Hlt) as [a Ha].
  rewrite (nth_lookup_Some _ _ da _ Ha).
  apply nth_lookup_Some.
  change (map f l) with (f <$> l). now rewrite list_lookup_fmap, Ha.
Qed.

Lemma spec_survivors_bound (row : list Q) (min_contribution : Q) (i : nat) :
  i ∈ spec_survivors row min_contribution -> (i < length row)%nat.
Proof.
  unfold spec_survivors. intros Hin.
  assert (Hseq : In i (seq 0 (length row))).
  { destruct (List.filter _ _) eqn:E.
    - now apply list_elem_of_In.
    - rewrite <- E in Hin. apply list_elem_of_In, filter_In in Hin.
      tauto. }
  apply in_seq in Hseq. lia.
Qed.

Lemma StronglySorted_lt_seq (start n : nat) :
  StronglySorted lt (seq start n).
Proof.
  revert start. induction n as [|n IH]; intros start; simpl; constructor.
  - apply IH.
  - apply Forall_forall. intros x Hx.
    apply list_elem_of_In, in_seq in Hx. lia.
Qed.

Lemma StronglySorted_List_filter {A} (R : A -> A -> Prop) (f : A -> bool)
    (l : list A) :
  StronglySorted R l -> StronglySorted R (List.filter f l).
Proof.
  induction 1 as [|x l Hl IH Hx]; simpl; [constructor|].
  destruct (f x); [|exact IH].
  constructor; [exact IH|].
  rewrite Forall_forall in Hx |- *. intros y Hy.
  apply Hx. apply list_elem_of_In, filter_In in Hy as [Hy _].
  now apply list_elem_of_In.
Qed.

Lemma spec_survivors_increasing (row : list Q) (min_contribution : Q) :
  StronglySorted lt (spec_survivors row min_contribution).
Proof.
  unfold spec_survivors.
  destruct (List.filter _ _) eqn:E.
  - apply StronglySorted_lt_seq.
  - rewrite <- E. apply StronglySorted_List_filter, StronglySorted_lt_seq.
Qed.

Lemma rmapM_closed_form {A B} (f : A -> result B) (g : A -> B) (l : list A) :
  Forall (fun a => f a = Ok (g a)) l -> rmapM f l = Ok (map g l).
Proof.
  induction 1 as [|a l Ha _ IH]; simpl; [reflexivity|].
  now rewrite Ha, IH.
Qed.

Lemma seven_slots_length (feature_names : list string) (ranked : list nat) :
  length (seven_slots feature_names ranked) = 7%nat.
Proof.
  unfold seven_slots. rewrite length_app, length_map, length_replicate.
  rewrite length_take. lia.
Qed.

Section TopFeatureFacts.

Variable argsort : list Q -> list nat.
Hypothesis argsort_permutes :
  forall a : list Q, Permutation (argsort a) (seq 0 (length a)).

Lemma argsort_in_range (a : list Q) (j : nat) :
  j ∈ argsort a -> (j < length a)%nat.
Proof.
  intros Hj. rewrite (argsort_permutes a) in Hj.
  apply list_elem_of_In, in_seq in Hj. lia.
Qed.

Lemma sorted_feature_indices_ranked (row : list Q) (min_contribution : Q) :
  sorted_feature_indices argsort row min_contribution
  = Ok (ranked_survivors argsort row min_contribution).
Proof.
  unfold sorted_feature_indices, ranked_survivors.
  destruct (feature_indices_survivors row min_contribution) as [Hfi Hlen].
  cbv zeta in Hfi, Hlen |- *.
  rewrite (select_mask_np_where 0 _ _ 0 Hlen).
  fold (np_where (if Nat.eqb (np_sum_mask
                                (mask_ge (map Qabs row) min_contribution)) 0
                  then map (fun _ => true)
                         (mask_ge (map Qabs row) min_contribution)
                  else mask_ge (map Qabs row) min_contribution)).
  rewrite Hfi.
  set (survivors := spec_survivors row min_contribution).
  assert (Hkeys :
    map (fun i => nth (i - 0) (map Qabs row) 0) survivors
    = map (fun i => Qabs (nth i row 0)) survivors).
  { apply map_ext. intros i. now rewrite Nat.sub_0_r, nth_map_Qabs. }
  rewrite Hkeys. unfold index_all.
  apply rmapM_index1.
  apply Forall_forall. intros j Hj.
  apply elem_of_reverse, argsort_in_range in Hj.
  now rewrite length_map in Hj.
Qed.

Lemma ranked_survivors_perm (row : list Q) (min_contribution : Q) :
  Permutation (ranked_survivors argsort row min_contribution)
              (spec_survivors row min_contribution).
Proof.
  unfold ranked_survivors.
  set (survivors := spec_survivors row min_contribution).
  set (keys := map (fun i => Qabs (nth i row 0)) survivors).
  rewrite (Permutation_map _ (reverse_Permutation (argsort keys))).
  rewrite (Permutation_map _ (argsort_permutes keys)).
  unfold keys. rewrite length_map, map_nth_seq. reflexivity.
Qed.

(** Whatever order [argsort] gives to its keys, the ranked survivors carry
    the reversed order on absolute contributions. *)
Lemma ranked_survivors_sorted (row : list Q) (min_contribution : Q)
    (Rkey : nat -> nat -> Q -> Q -> Prop) (Rout : nat -> nat -> Prop) :
  (forall a : list Q,
     StronglySorted (fun i j => Rkey i j (nth i a 0) (nth j a 0)) (argsort a)) ->
  (forall i j : nat,
     let survivors := spec_survivors row min_contribution in
     (i < length survivors)%nat -> (j < length survivors)%nat ->
     Rkey i j (Qabs (nth (nth i survivors 0%nat) row 0))
              (Qabs (nth (nth j survivors 0%nat) row 0)) ->
     Rout (nth j survivors 0%nat) (nth i survivors 0%nat)) ->
  StronglySorted Rout (ranked_survivors argsort row min_contribution).
Proof.
  intros Hsorted Htransfer. unfold ranked_survivors.
  set (survivors := spec_survivors row min_contribution) in *.
  set (keys := map (fun i => Qabs (nth i row 0)) survivors).
  eapply StronglySorted_map;
    [|apply StronglySorted_reverse, (Hsorted keys)].
  intros x y Hx Hy Hxy. cbv beta in Hxy.
  apply elem_of_reverse, argsort_in_range in Hx.
  apply elem_of_reverse, argsort_in_range in Hy.
  unfold keys in Hx, Hy. rewrite length_map in Hx, Hy.
  apply Htransfer; [assumption | assumption |].
  unfold keys in Hxy.
  rewrite (nth_map_lt _ survivors y 0%nat 0 Hy) in Hxy.
  rewrite (nth_map_lt _ survivors x 0%nat 0 Hx) in Hxy.
  exact Hxy.
Qed.

Lemma get_top_features_row_slots (row : list Q) (feature_names : list string)
    (min_contribution : Q) :
  (length row <= length feature_names)%nat ->
  get_top_features_row argsort row feature_names min_contribution
  = Ok (seven_slots feature_names
          (ranked_survivors argsort row min_contribution)).
Proof.
  intros Hlen. unfold get_top_features_row, top_7_indices.
  rewrite sorted_feature_indices_ranked. simpl.
  rewrite (rmapM_index1 feature_names EmptyString).
  - simpl. now rewrite length_map.
  - apply Forall_forall. intros idx Hidx.
    apply elem_of_take in Hidx as (p & Hp & _).
    apply list_elem_of_lookup_2 in Hp.
    rewrite (ranked_survivors_perm row min_contribution) in Hp.
    apply spec_survivors_bound in Hp. lia.
Qed.

End TopFeatureFacts.

(** C2. For every row of the contribution matrix, with feature names for all
    its columns, [get_top_features] returns seven slots: the names of the
    first seven of the surviving features (those whose absolute contribution
    reaches the threshold, or all features when none does) ranked by
    descending absolute contribution, followed by empty strings.  The
    pipeline calls it with the threshold [default_min_contribution]. *)
Theorem get_top_features_spec (argsort : list Q -> list nat)
    (contributions : list (list Q)) (feature_names : list string)
    (min_contribution : Q) :
  argsort_spec argsort ->
  Forall (fun row => (length row <= length feature_names)%nat) contributions ->
  exists top_features_list : list (list string),
    get_top_features argsort contributions feature_names min_contribution
      = Ok top_features_list /\
    length top_features_list = length contributions /\
    forall (i : nat) (row : list Q),
      contributions !! i = Some row ->
      exists (ranked : list nat) (slots : list string),
        top_features_list !! i = Some slots /\
        Permutation ranked (spec_survivors row min_contribution) /\
        StronglySorted
          (fun a b => Qabs (nth b row 0) <= Qabs (nth a row 0)) ranked /\
        slots = map (fun idx => nth idx feature_names EmptyString)
                    (take 7 ranked)
                  ++ replicate (7 - length (take 7 ranked)) EmptyString /\
        length slots = 7%nat.
Proof.
  intros Hargsort Hnames.
  assert (Hperm : forall a, Permutation (argsort a) (seq 0 (length a)))
    by (intros a; apply Hargsort).
  exists (map (fun row => seven_slots feature_names
                            (ranked_survivors argsort row min_contribution))
              contributions).
  split; [|split].
  - unfold get_top_features. apply rmapM_closed_form.
    eapply Forall_impl; [exact Hnames|]. intros row Hrow.
    now apply get_top_features_row_slots.
  - apply length_map.
  - intros i row Hi.
    exists (ranked_survivors argsort row min_contribution),
           (seven_slots feature_names
              (ranked_survivors argsort row min_contribution)).
    split; [|split; [|split; [|split]]].
    + change (map ?f ?l) with (f <$> l).
      now rewrite list_lookup_fmap, Hi.
    + now apply ranked_survivors_perm.
    + apply (ranked_survivors_sorted argsort Hperm row min_contribution
               (fun _ _ ki kj => ki <= kj)).
      * intros a. apply Hargsort.
      * intros x y survivors _ _ Hxy. exact Hxy.
    + reflexivity.
    + apply seven_slots_length.
Qed.

Lemma get_top_features_spec_witness :
  argsort_spec argsort_insertion /\
  exists top_features_list : list (list string),
    get_top_features argsort_insertion
      [[1 # 2; -(3 # 4); 1 # 1000; 1 # 2]; [0; 1 # 1000; 0; 1 # 500]]
      ["a"; "b"; "c"; "d"]%string default_min_contribution
      = Ok top_features_list /\
    length top_features_list = 2%nat.
Proof.
  split; [exact argsort_insertion_spec|].
  destruct (get_top_features_spec argsort_insertion
              [[1 # 2; -(3 # 4); 1 # 1000; 1 # 2]; [0; 1 # 1000; 0; 1 # 500]]
              ["a"; "b"; "c"; "d"]%string default_min_contribution
              argsort_insertion_spec)
    as (top & Hrun & Hlen & _).
  - repeat constructor.
  - exists top. split; [exact Hrun | exact Hlen].
Defined.

(** C9, as the specification states it, fails: with two equal contributions
    the feature that comes later in the feature ordering is ranked first. *)
Lemma equal_contributions_rank_later_first :
  get_top_features_row argsort_insertion [1 # 2; 1 # 2] ["a"; "b"]%string
    default_min_contribution
    = Ok ["b"; "a"; ""; ""; ""; ""; ""]%string /\
  ~ ties_keep_feature_order argsort_insertion.
Proof.
  split; [reflexivity|].
  intros H.
  specialize (H [1 # 2; 1 # 2] default_min_contribution [1; 0]%nat
                1%nat 0%nat 0%nat 1%nat eq_refl eq_refl eq_refl).
  simpl in H. assert (Hlt : (1 < 0)%nat) by (apply H; [reflexivity | lia]).
  lia.
Qed.

(** C9, amended. With a stable ascending [argsort], of two ranked features
    with equal absolute contributions the one that comes later in the feature
    ordering is ranked first; the ranking is a function of the row and the
    threshold, so identical input gives the identical order. *)
Theorem ties_rank_later_feature_first (argsort : list Q -> list nat)
    (row : list Q) (min_contribution : Q) (top : list nat) (p q i j : nat) :
  argsort_stable argsort ->
  top_7_indices argsort row min_contribution = Ok top ->
  top !! p = Some i ->
  top !! q = Some j ->
  Qabs (nth i row 0) == Qabs (nth j row 0) ->
  (i < j)%nat ->
  (q < p)%nat /\
  forall top', top_7_indices argsort row min_contribution = Ok top' ->
               top' = top.
Proof.
  intros Hstable Htop Hp Hq Htie Hij.
  split; [|intros top' Htop'; congruence].
  assert (Hperm : forall a, Permutation (argsort a) (seq 0 (length a)))
    by (intros a; apply Hstable).
  unfold top_7_indices in Htop.
  rewrite (sorted_feature_indices_ranked argsort Hperm) in Htop.
  simpl in Htop. injection Htop as <-.
  apply lookup_take_Some in Hp as [Hp _].
  apply lookup_take_Some in Hq as [Hq _].
  pose proof (ranked_survivors_sorted argsort Hperm row min_contribution
    (fun i j ki kj => ki < kj \/ (ki == kj /\ (i < j)%nat))
    (fun a b => Qabs (nth b row 0) < Qabs (nth a row 0)
                \/ (Qabs (nth a row 0) == Qabs (nth b row 0) /\ (b < a)%nat)))
    as Hsorted.
  cbv beta in Hsorted.
  assert (Hranked : StronglySorted
            (fun a b => Qabs (nth b row 0) < Qabs (nth a row 0)
               \/ (Qabs (nth a row 0) == Qabs (nth b row 0) /\ (b < a)%nat))
            (ranked_survivors argsort row min_contribution)).
  { apply Hsorted.
    - intros a. apply Hstable.
    - intros x y survivors Hx Hy [Hlt|[Heq Hxy]]; [left; exact Hlt|].
      right. split; [symmetry; exact Heq|].
      destruct (lookup_lt_is_Some_2 survivors x Hx) as [sx Hsx].
      destruct (lookup_lt_is_Some_2 survivors y Hy) as [sy Hsy].
      rewrite (nth_lookup_Some _ _ 0%nat _ Hsx).
      rewrite (nth_lookup_Some _ _ 0%nat _ Hsy).
      exact (StronglySorted_lookup lt survivors x y sx sy
               (spec_survivors_increasing row min_contribution) Hxy Hsx Hsy). }
  destruct (Nat.lt_trichotomy p q) as [Hpq|[Hpq|Hpq]].
  - exfalso.
    destruct (StronglySorted_lookup _ _ p q i j Hranked Hpq Hp Hq)
      as [Hlt|[_ Hji]].
    + rewrite Htie in Hlt. exact (Qlt_irrefl _ Hlt).
    + lia.
  - exfalso. subst q. rewrite Hp in Hq. injection Hq as ->. lia.
  - exact Hpq.
Qed.

Lemma ties_rank_later_feature_first_witness :
  argsort_stable argsort_insertion /\
  top_7_indices argsort_insertion [1 # 2; 1 # 2] default_min_contribution
    = Ok [1; 0]%nat /\
  (0 < 1)%nat.
Proof.
  split; [exact argsort_insertion_stable|].
  split; [reflexivity|].
  apply (ties_rank_later_feature_first argsort_insertion [1 # 2; 1 # 2]
           default_min_contribution [1; 0]%nat 1 0 0 1
           argsort_insertion_stable);
    [reflexivity | reflexivity | reflexivity | reflexivity | lia].
Defined.

(** ** Proofs: feature attribution *)

Lemma set_column_lookup (m : list (list Q)) (i : nat) (col : list Q)
    (r : nat) (row : list Q) (v : Q) :
  m !! r = Some row -> col !! r = Some v ->
  set_column m i col !! r = Some (<[i := v]> row).
Proof.
  intros Hm Hc. unfold set_column.
  rewrite lookup_zip_with, Hm. simpl. now rewrite Hc.
Qed.

Lemma np_sub_lookup (a b : list Q) (r : nat) (x y : Q) :
  a !! r = Some x -> b !! r = Some y -> np_sub a b !! r = Some (x - y).
Proof.
  intros Ha Hb. unfold np_sub.
  rewrite lookup_zip_with, Ha. simpl. now rewrite Hb.
Qed.

Lemma np_sub_length (a b : list Q) :
  length a = length b -> length (np_sub a b) = length a.
Proof.
  intros H. unfold np_sub. rewrite length_zip_with. lia.
Qed.

Lemma perturbed_features_lookup (features : list (list Q)) (i r : nat)
    (row : list Q) :
  features !! r = Some row ->
  perturbed_features features i !! r
  = Some (<[i := np_mean (column_of features i)]> row).
Proof.
  intros Hr. unfold perturbed_features, set_column_scalar.
  change (map ?f ?l) with (f <$> l).
  now rewrite list_lookup_fmap, Hr.
Qed.

Lemma perturbed_features_length (features : list (list Q)) (i : nat) :
  length (perturbed_features features i) = length features.
Proof. unfold perturbed_features, set_column_scalar. apply length_map. Qed.

(** The matrix the code scores for feature [i] is the matrix of the
    specification: column [i] replaced by the mean of column [i]. *)
Lemma perturbed_features_spec (features : list (list Q)) (i : nat) :
  Forall (fun row => (i < length row)%nat) features ->
  perturbed_features features i
  = spec_replace_column features i (spec_column_mean features i).
Proof.
  intros Hrows.
  unfold perturbed_features, set_column_scalar, spec_replace_column.
  assert (Hmean : np_mean (column_of features i)
                  = spec_column_mean features i).
  { unfold np_mean, column_of, spec_column_mean, Qsum, Q_of_nat.
    now rewrite length_map. }
  rewrite Hmean. apply map_ext_in. intros row Hrow.
  apply insert_take_drop.
  rewrite Forall_forall in Hrows. apply Hrows. now apply list_elem_of_In.
Qed.

Section Attribution.

Context {Forest : Type}.
Variable decision_function : Forest -> list (list Q) -> list Q.
Hypothesis decision_function_shape :
  forall (forest : Forest) (X : list (list Q)),
    length (decision_function forest X) = length X.

Variable forest : Forest.
Variable features : list (list Q).

Let baseline_scores := decision_function forest features.

(** The loop over the columns [k], [k+1], ..., [k+m-1] writes exactly those
    columns, each with the score differences of its own perturbation, and
    leaves every other entry as it was. *)
Lemma contributions_loop (m k : nat) (contributions : list (list Q)) :
  length contributions = length features ->
  let final :=
    foldl (contributions_step decision_function forest features
             baseline_scores) contributions (seq k m) in
  length final = length features /\
  forall (r : nat) (row0 : list Q),
    contributions !! r = Some row0 ->
    exists row1 : list Q,
      final !! r = Some row1 /\
      length row1 = length row0 /\
      (forall i, (k <= i < k + m)%nat -> (i < length row0)%nat ->
         exists b p,
           baseline_scores !! r = Some b /\
           decision_function forest (perturbed_features features i) !! r
             = Some p /\
           row1 !! i = Some (b - p)) /\
      (forall i, (i < k \/ k + m <= i)%nat -> row1 !! i = row0 !! i).
Proof.
  revert k contributions.
  induction m as [|m IH]; intros k contributions Hlen; simpl.
  - split; [exact Hlen|]. intros r row0 Hr. exists row0.
    repeat split; [exact Hr | intros i Hi; lia].
  - set (column :=
           np_sub baseline_scores
             (decision_function forest (perturbed_features features k))).
    assert (Hcol : length column = length features).
    { unfold column. rewrite np_sub_length; unfold baseline_scores;
        rewrite !decision_function_shape, ?perturbed_features_length;
        reflexivity. }
    assert (Hlen' : length (set_column contributions k column)
                    = length features).
    { unfold set_column. rewrite length_zip_with. lia. }
    destruct (IH (S k) (set_column contributions k column) Hlen')
      as [Hfinal Hrows].
    unfold contributions_step at 2. fold column.
    split; [exact Hfinal|].
    intros r row0 Hr.
    assert (Hrlt : (r < length features)%nat).
    { rewrite <- Hlen. eapply lookup_lt_Some, Hr. }
    destruct (lookup_lt_is_Some_2 baseline_scores r) as [b Hb].
    { unfold baseline_scores. now rewrite decision_function_shape. }
    destruct (lookup_lt_is_Some_2
                (decision_function forest (perturbed_features features k)) r)
      as [p Hp].
    { now rewrite decision_function_shape, perturbed_features_length. }
    pose proof (np_sub_lookup _ _ _ _ _ Hb Hp) as Hv. fold column in Hv.
    destruct (Hrows r _ (set_column_lookup _ k _ _ _ _ Hr Hv))
      as (row1 & Hrow1 & Hlen1 & Hin & Hout).
    exists row1. split; [exact Hrow1|].
    rewrite length_insert in Hlen1. split; [exact Hlen1|]. split.
    + intros i Hi Hilt. destruct (decide (i = k)) as [->|Hne].
      * exists b, p. split; [exact Hb|]. split; [exact Hp|].
        rewrite Hout by lia. now apply list_lookup_insert_eq.
      * apply Hin; [lia | now rewrite length_insert].
    + intros i Hi. rewrite Hout by lia.
      apply list_lookup_insert_ne. lia.
Qed.

End Attribution.

(** C3. For a fitted detector and a rectangular matrix, attribution returns a
    matrix with one row per input row in which the entry for row [r] and
    feature [i] is the baseline score of row [r] minus the score of row [r]
    in the copy of the matrix whose column [i] alone is replaced by the mean
    of column [i] of that same matrix: the sum of the entries of column [i]
    of the matrix being explained, divided by its number of rows. *)
Theorem calculate_feature_contributions_spec {Forest : Type}
    (decision_function : Forest -> list (list Q) -> list Q)
    (self : AnomalyDetector Forest) (forest : Forest)
    (features : list (list Q)) (feature_names : list string) :
  (forall (f : Forest) (X : list (list Q)),
     length (decision_function f X) = length X) ->
  is_fitted self = true ->
  model self = Some forest ->
  Forall (fun row => length row = (shape features).2) features ->
  exists contributions : list (list Q),
    calculate_feature_contributions decision_function self features
      feature_names = Ok contributions /\
    length contributions = length features /\
    forall (r i : nat) (row : list Q),
      features !! r = Some row ->
      (i < length row)%nat ->
      exists b p : Q,
        decision_function forest features !! r = Some b /\
        perturbed_features features i
          = spec_replace_column features i (spec_column_mean features i) /\
        perturbed_features features i !! r
          = Some (<[i := np_mean (column_of features i)]> row) /\
        spec_replace_column features i (spec_column_mean features i) !! r
          = Some (take i row ++ spec_column_mean features i
                    :: drop (S i) row) /\
        decision_function forest
          (spec_replace_column features i (spec_column_mean features i)) !! r
          = Some p /\
        contributions !! r ≫= (.!! i) = Some (b - p).
Proof.
  intros Hshape Hfit Hmodel Hrect.
  unfold calculate_feature_contributions. rewrite Hfit, Hmodel. simpl.
  set (n_features := length (default [] (head features))).
  set (zeros := replicate (length features) (replicate n_features 0)).
  destruct (contributions_loop decision_function Hshape forest features
              n_features 0 zeros) as [Hlen Hrows].
  { unfold zeros. apply length_replicate. }
  eexists. split; [reflexivity|]. split; [exact Hlen|].
  intros r i row Hr Hi.
  assert (Hrow : length row = n_features).
  { rewrite Forall_forall in Hrect.
    apply (Hrect row). eapply list_elem_of_lookup_2, Hr. }
  assert (Hz : zeros !! r = Some (replicate n_features 0)).
  { unfold zeros. apply lookup_replicate_2. eapply lookup_lt_Some, Hr. }
  destruct (Hrows r _ Hz) as (row1 & Hrow1 & _ & Hin & _).
  destruct (Hin i) as (b & p & Hb & Hp & Hbp).
  { lia. }
  { rewrite length_replicate. lia. }
  assert (Hspec : perturbed_features features i
                  = spec_replace_column features i
                      (spec_column_mean features i)).
  { apply perturbed_features_spec.
    eapply Forall_impl; [exact Hrect|]. simpl. intros row' Hrow'.
    fold n_features in Hrow'. lia. }
  exists b, p. split; [exact Hb|]. split; [exact Hspec|]. split.
  { now apply perturbed_features_lookup. }
  split.
  { unfold spec_replace_column. change (List.map ?f ?l) with (f <$> l).
    now rewrite list_lookup_fmap, Hr. }
  split; [now rewrite <- Hspec|].
  rewrite Hrow1. simpl. exact Hbp.
Qed.

Lemma calculate_feature_contributions_spec_witness :
  is_fitted {| contamination := 1 # 10; random_state := 42;
               model := Some tt; is_fitted := true |} = true /\
  exists contributions : list (list Q),
    calculate_feature_contributions sample_decision_function
      {| contamination := 1 # 10; random_state := 42;
         model := Some tt; is_fitted := true |}
      [[1; 2]; [3; 6]] ["a"; "b"]%string = Ok contributions /\
    length contributions = 2%nat /\
    spec_column_mean [[1; 2]; [3; 6]] 1 == 4 /\
    exists b p v : Q,
      sample_decision_function tt [[1; 2]; [3; 6]] !! 0%nat = Some b /\
      sample_decision_function tt [[1; 4]; [3; 4]] !! 0%nat = Some p /\
      contributions !! 0%nat ≫= (.!! 1%nat) = Some v /\
      v == b - p /\ v == 2.
Proof.
  split; [reflexivity|].
  destruct (calculate_feature_contributions_spec sample_decision_function
              {| contamination := 1 # 10; random_state := 42;
                 model := Some tt; is_fitted := true |}
              tt [[1; 2]; [3; 6]] ["a"; "b"]%string)
    as (contributions & Hrun & Hlen & Hentries).
  - intros f X. unfold sample_decision_function. apply length_map.
  - reflexivity.
  - reflexivity.
  - repeat constructor.
  - exists contributions. split; [exact Hrun|]. split; [exact Hlen|].
    split; [vm_compute; reflexivity|].
    destruct (Hentries 0%nat 1%nat [1; 2] eq_refl)
      as (b & p & Hb & _ & _ & _ & Hp & Hv); [simpl; lia|].
    vm_compute in Hb, Hp. injection Hb as <-. injection Hp as <-.
    eexists _, _, _. split; [reflexivity|]. split; [reflexivity|].
    split; [exact Hv|]. split; vm_compute; reflexivity.
Defined.

(** ** Proofs: the fitted guard *)

Lemma train_fitted {Forest : Type}
    (forest_fit : Q -> Z -> list (list Q) -> result Forest)
    (self self' : AnomalyDetector Forest) (X : list (list Q)) :
  train forest_fit self X = Ok self' ->
  is_fitted self' = true /\ exists forest, model self' = Some forest.
Proof.
  unfold train. intros H.
  destruct (forest_fit (5 # 100) (random_state self) X); [|discriminate].
  simpl in H.
  destruct (forest_fit (contamination self) (random_state self) X) as [f|];
    [|discriminate].
  simpl in H. injection H as <-. simpl. eauto.
Qed.

(** C5. On a detector whose [train] has not run ([is_fitted] is false, as it
    is after construction) scoring and attribution both fail with the error
    the specification calls NotFittedError; on the detector a successful
    [train] returns, both return a result. *)
Theorem scoring_requires_training {Forest : Type}
    (forest_fit : Q -> Z -> list (list Q) -> result Forest)
    (decision_function : Forest -> list (list Q) -> list Q)
    (self : AnomalyDetector Forest) :
  is_fitted self = false ->
  (forall (c : Q) (rs : Z),
     is_fitted (AnomalyDetector_init (Forest := Forest) c rs) = false) /\
  (forall features,
     predict_anomaly_scores decision_function self features
     = Err (ValueError NotTrainedPrediction)) /\
  (forall features names,
     calculate_feature_contributions decision_function self features names
     = Err (ValueError NotTrainedAttribution)) /\
  error_kind_of (ValueError NotTrainedPrediction) = NotFittedError /\
  error_kind_of (ValueError NotTrainedAttribution) = NotFittedError /\
  (forall (any : AnomalyDetector Forest) (X : list (list Q))
          (trained : AnomalyDetector Forest),
     train forest_fit any X = Ok trained ->
     forall features names,
       (exists scores,
          predict_anomaly_scores decision_function trained features
          = Ok scores) /\
       (exists contributions,
          calculate_feature_contributions decision_function trained
            features names = Ok contributions)).
Proof.
  intros Hnot. split; [reflexivity|]. split; [|split; [|split; [|split]]].
  - intros features.
    unfold predict_anomaly_scores. now rewrite Hnot.
  - intros features names.
    unfold calculate_feature_contributions. now rewrite Hnot.
  - reflexivity.
  - reflexivity.
  - intros any X trained Htrain features names.
    apply train_fitted in Htrain as [Hfit [forest Hmodel]].
    unfold predict_anomaly_scores, model_decision_function,
      calculate_feature_contributions.
    rewrite Hfit, Hmodel. simpl. split; eexists; reflexivity.
Qed.

Lemma scoring_requires_training_witness :
  is_fitted (AnomalyDetector_init (Forest := unit) (1 # 10) 42) = false /\
  predict_anomaly_scores sample_decision_function
    (AnomalyDetector_init (1 # 10) 42) [[1; 2]]
  = Err (ValueError NotTrainedPrediction).
Proof.
  split; [reflexivity|].
  apply (scoring_requires_training sample_forest_fit sample_decision_function
           (AnomalyDetector_init (1 # 10) 42) eq_refl).
Defined.

(** ** Proofs: constant features *)

Lemma constant_features_elem (series_std_is_zero : list (option Q) -> bool)
    (cols : list (string * column)) (name : string)
    (vals : list (option Q)) :
  (name, NumCol vals) ∈ cols -> series_std_is_zero vals = true ->
  name ∈ constant_features series_std_is_zero cols.
Proof.
  intros Hin Hstd. unfold constant_features.
  apply list_elem_of_omap. exists (name, NumCol vals).
  split; [exact Hin|]. simpl. now rewrite Hstd.
Qed.

Lemma drop_columns_names (names : list string)
    (cols : list (string * column)) (name : string) :
  name ∈ names -> name ∉ map fst (drop_columns names cols).
Proof.
  intros Hin Hout. unfold drop_columns in Hout.
  apply list_elem_of_fmap in Hout as ([n c] & -> & Hnc).
  apply list_elem_of_In, filter_In in Hnc as [_ Hkeep]. simpl in *.
  apply negb_true_iff, bool_decide_eq_false in Hkeep. contradiction.
Qed.

Lemma rmapM_index1_elem {A} (arr : list A) (idxs : list nat) (out : list A) :
  rmapM (index1 arr) idxs = Ok out -> Forall (fun a => a ∈ arr) out.
Proof.
  revert out. induction idxs as [|i idxs IH]; intros out H; simpl in H.
  - injection H as <-. constructor.
  - unfold index1 at 1 in H. destruct (arr !! i) as [a|] eqn:Ha;
      [|discriminate].
    simpl in H. destruct (rmapM (index1 arr) idxs) as [rest|];
      [|discriminate].
    simpl in H. injection H as <-.
    constructor; [eapply list_elem_of_lookup_2, Ha | now apply IH].
Qed.

Lemma rmapM_elem {A B} (f : A -> result B) (l : list A) (out : list B)
    (b : B) :
  rmapM f l = Ok out -> b ∈ out -> exists a, a ∈ l /\ f a = Ok b.
Proof.
  revert out. induction l as [|a l IH]; intros out H Hb; simpl in H.
  - injection H as <-. inversion Hb.
  - destruct (f a) as [b0|] eqn:Hfa; [|discriminate]. simpl in H.
    destruct (rmapM f l) as [rest|]; [|discriminate].
    simpl in H. injection H as <-.
    apply elem_of_cons in Hb as [->|Hb].
    + exists a. split; [left | exact Hfa].
    + destruct (IH rest eq_refl Hb) as (a' & Ha' & Hfa').
      exists a'. split; [now right | exact Hfa'].
Qed.

(** Every slot of the top-feature lists is a feature name or the padding. *)
Lemma get_top_features_slots (argsort : list Q -> list nat)
    (contributions : list (list Q)) (feature_names : list string)
    (min_contribution : Q) (top : list (list string))
    (slots : list string) (slot : string) :
  get_top_features argsort contributions feature_names min_contribution
    = Ok top ->
  slots ∈ top -> slot ∈ slots ->
  slot = EmptyString \/ slot ∈ feature_names.
Proof.
  intros Hrun Hslots Hslot. unfold get_top_features in Hrun.
  destruct (rmapM_elem _ _ _ _ Hrun Hslots) as (row & _ & Hrow).
  unfold get_top_features_row in Hrow.
  destruct (top_7_indices argsort row min_contribution) as [top7|];
    [|discriminate].
  simpl in Hrow.
  destruct (rmapM (index1 feature_names) top7) as [names|] eqn:Hnames;
    [|discriminate].
  simpl in Hrow. injection Hrow as <-.
  apply elem_of_app in Hslot as [Hslot|Hslot].
  - right. apply rmapM_index1_elem in Hnames.
    rewrite Forall_forall in Hnames. now apply Hnames.
  - left. now apply elem_of_replicate in Hslot as [-> _].
Qed.

(** C7, as the specification states it, fails: column [x] of the sample
    table has zero variance over the training window, is kept in the feature
    ordering, and is reported as a top feature. *)
Lemma constant_in_training_window_kept :
  exists (dp : DataProcessor unit) (df : DataFrame),
    load_and_validate_data exact_std_is_zero
      (DataProcessor_init default_min_training_hours)
      {["in.csv"%string := sample_drift_table]} "in.csv" = Ok (dp, df) /\
    lookup_column (df_cols (training_window df)) "x"
      = Ok (NumCol (replicate 74 (Some 1))) /\
    exact_std_is_zero (replicate 74 (Some 1)) = true /\
    feature_names dp = ["x"; "y"]%string /\
    exists (w : World unit unit) (out : csv_file) (top_2 : list string),
      sample_run sample_drift_table = (w, Ok tt) /\
      files w !! "out.csv"%string = Some out /\
      lookup_column (csv_cols out) "top_feature_2" = Ok (ObjCol top_2) /\
      "x"%string ∈ top_2.
Proof.
  eexists _, _. split; [vm_compute; reflexivity|].
  split; [vm_compute; reflexivity|].
  split; [vm_compute; reflexivity|].
  split; [vm_compute; reflexivity|].
  destruct (sample_run sample_drift_table) as [w r] eqn:Hrun.
  assert (Hr : r = Ok tt).
  { change r with (w, r).2. rewrite <- Hrun. vm_compute. reflexivity. }
  subst r.
  assert (Hout : exists out top_2,
             files (sample_run sample_drift_table).1 !! "out.csv"%string
               = Some out /\
             lookup_column (csv_cols out) "top_feature_2" = Ok (ObjCol top_2)
             /\ head top_2 = Some "x"%string).
  { eexists _, _. split; [vm_compute; reflexivity|].
    split; vm_compute; reflexivity. }
  destruct Hout as (out & top_2 & Hfile & Hcol & Hhead).
  rewrite Hrun in Hfile. simpl in Hfile.
  exists w, out, top_2. repeat split; try assumption.
  destruct top_2 as [|s rest]; [discriminate|].
  injection Hhead as ->. left.
Qed.

(** C7, amended. A numeric column for which the test [df[col].std() == 0]
    holds on the whole loaded table (sorted, gaps filled), as pandas
    evaluates it, is left out of the feature ordering and of the loaded
    frame, and, unless its name is empty, never shows up in a top-feature
    slot.  The test is a parameter: the statement holds for whatever value
    the float64 computation gives. *)
Theorem constant_features_excluded {Scaler : Type}
    (series_std_is_zero : list (option Q) -> bool)
    (self : DataProcessor Scaler) (fs : gmap string csv_file)
    (csv_path : string) (file : csv_file) (t : list Z) (name : string)
    (vals : list (option Q)) :
  fs !! csv_path = Some file ->
  csv_time file = Some t ->
  (name, NumCol vals) ∈ df_cols (sorted_and_filled t (csv_cols file)) ->
  series_std_is_zero vals = true ->
  exists (self' : DataProcessor Scaler) (df : DataFrame),
    load_and_validate_data series_std_is_zero self fs csv_path
      = Ok (self', df) /\
    (name ∉ feature_names self') /\
    (name ∉ map fst (df_cols df)) /\
    forall (argsort : list Q -> list nat) (contributions : list (list Q))
           (min_contribution : Q) (top : list (list string))
           (slots : list string) (slot : string),
      get_top_features argsort contributions (feature_names self')
        min_contribution = Ok top ->
      slots ∈ top -> slot ∈ slots -> name <> EmptyString -> slot <> name.
Proof.
  intros Hfile Htime Hcol Hstd.
  unfold load_and_validate_data. rewrite Hfile, Htime.
  pose proof (constant_features_elem _ _ _ _ Hcol Hstd) as Hconst.
  destruct (constant_features series_std_is_zero
              (df_cols (sorted_and_filled t (csv_cols file))))
    as [|c constant] eqn:E; [inversion Hconst|].
  eexists _, _. split; [reflexivity|]. simpl.
  assert (Hnot : name ∉ map fst
            (drop_columns (c :: constant)
               (df_cols (sorted_and_filled t (csv_cols file)))))
    by now apply drop_columns_names.
  split; [exact Hnot|]. split; [exact Hnot|].
  intros argsort contributions min_contribution top slots slot
    Hrun Hslots Hslot Hname ->.
  destruct (get_top_features_slots _ _ _ _ _ _ _ Hrun Hslots Hslot)
    as [Hempty|Hin]; [congruence | contradiction].
Qed.

Lemma constant_features_excluded_witness :
  ("k"%string, NumCol (replicate 75 (Some 1)))
    ∈ df_cols (sorted_and_filled
                 (hourly_ticks 74 ++ [Timestamp_2004_01 10 0 0 0])
                 (csv_cols sample_drift_table)) /\
  exact_std_is_zero (replicate 75 (Some 1)) = true /\
  exists (self' : DataProcessor unit) (df : DataFrame),
    load_and_validate_data exact_std_is_zero
      (DataProcessor_init default_min_training_hours)
      {["in.csv"%string := sample_drift_table]} "in.csv" = Ok (self', df) /\
    "k"%string ∉ feature_names self'.
Proof.
  assert (Hin : ("k"%string, NumCol (replicate 75 (Some 1)))
    ∈ df_cols (sorted_and_filled
                 (hourly_ticks 74 ++ [Timestamp_2004_01 10 0 0 0])
                 (csv_cols sample_drift_table))).
  { apply list_elem_of_lookup. exists 1%nat. vm_compute. reflexivity. }
  assert (Hstd : exact_std_is_zero (replicate 75 (Some 1)) = true)
    by (vm_compute; reflexivity).
  split; [exact Hin|]. split; [exact Hstd|].
  destruct (constant_features_excluded exact_std_is_zero
              (DataProcessor_init (Scaler := unit) default_min_training_hours)
              {["in.csv"%string := sample_drift_table]} "in.csv"
              sample_drift_table
              (hourly_ticks 74 ++ [Timestamp_2004_01 10 0 0 0]) "k"
              (replicate 75 (Some 1)) (lookup_singleton_eq _ _) eq_refl
              Hin Hstd)
    as (self' & df & Hload & Hnot & _).
  exists self', df. split; [exact Hload | exact Hnot].
Defined.

(** ** Proofs: the orchestrator *)

Lemma load_keeps_min_training_hours {Scaler : Type}
    (series_std_is_zero : list (option Q) -> bool)
    (self self' : DataProcessor Scaler) (fs : gmap string csv_file)
    (csv_path : string) (df : DataFrame) :
  load_and_validate_data series_std_is_zero self fs csv_path
    = Ok (self', df) ->
  min_training_hours self' = min_training_hours self.
Proof.
  unfold load_and_validate_data. intros H.
  destruct (fs !! csv_path) as [file|]; [|discriminate].
  destruct (csv_time file) as [t|]; [|discriminate].
  injection H as <- _. reflexivity.
Qed.

Lemma set_col_names (cols : list (string * column)) (name : string)
    (c : column) :
  name ∈ map fst (set_col cols name c) /\
  forall n, n ∈ map fst cols -> n ∈ map fst (set_col cols name c).
Proof.
  induction cols as [|[n0 c0] cols [IHin IHkeep]]; simpl.
  - split; [left | intros n Hn; inversion Hn].
  - destruct (bool_decide (n0 = name)) eqn:E; simpl.
    + apply bool_decide_eq_true in E as ->.
      split; [left | intros n Hn; exact Hn].
    + split; [right; exact IHin|].
      intros n Hn. apply elem_of_cons in Hn as [->|Hn];
        [left | right; now apply IHkeep].
Qed.

Lemma assign_column_names (df df' : DataFrame) (name : string) (c : column) :
  assign_column df name c = Ok df' ->
  name ∈ frame_columns df' /\
  forall n, n ∈ frame_columns df -> n ∈ frame_columns df'.
Proof.
  unfold assign_column. intros H.
  destruct (Nat.eqb (column_length c) (len df)); [|discriminate].
  injection H as <-. unfold frame_columns. simpl.
  destruct (set_col_names (df_cols df) name c) as [Hin Hkeep].
  split; [right; exact Hin|].
  intros n Hn. apply elem_of_cons in Hn as [->|Hn];
    [left | right; now apply Hkeep].
Qed.

Lemma add_top_feature_columns_names (top_features : list (list string))
    (idxs : list nat) (df df' : DataFrame) :
  rfoldl (add_top_feature_column top_features) df idxs = Ok df' ->
  (forall i, i ∈ idxs -> top_feature_column i ∈ frame_columns df') /\
  (forall n, n ∈ frame_columns df -> n ∈ frame_columns df').
Proof.
  revert df. induction idxs as [|i idxs IH]; intros df H; simpl in H.
  - injection H as <-. split; [intros i Hi; inversion Hi | auto].
  - destruct (add_top_feature_column top_features df i) as [df1|] eqn:E;
      [|discriminate].
    unfold add_top_feature_column in E.
    destruct (rmapM _ top_features) as [col|]; [|discriminate].
    simpl in E. apply assign_column_names in E as [Hnew Hold].
    destruct (IH df1 H) as [Hidx Hkeep]. split.
    + intros j Hj. apply elem_of_cons in Hj as [->|Hj];
        [apply Hkeep, Hnew | apply Hidx, Hj].
    + intros n Hn. apply Hkeep, Hold, Hn.
Qed.

Lemma List_filter_none {A} (f : A -> bool) (l : list A) :
  Forall (fun a => f a = false) l -> List.filter f l = [].
Proof.
  induction 1 as [|a l Ha _ IH]; simpl; [reflexivity|].
  now rewrite Ha.
Qed.

Lemma lookup_column_set_col_eq (cols : list (string * column))
    (name : string) (c : column) :
  lookup_column (set_col cols name c) name = Ok c.
Proof.
  induction cols as [|[n c0] cols IH]; simpl.
  - now rewrite bool_decide_eq_true_2.
  - destruct (bool_decide (n = name)) eqn:E; simpl; rewrite E;
      [reflexivity | exact IH].
Qed.

Lemma lookup_column_set_col_ne (cols : list (string * column))
    (name other : string) (c : column) :
  name <> other ->
  lookup_column (set_col cols name c) other = lookup_column cols other.
Proof.
  intros Hne. induction cols as [|[n c0] cols IH]; simpl.
  - now rewrite bool_decide_eq_false_2.
  - destruct (bool_decide (n = name)) eqn:E; simpl.
    + apply bool_decide_eq_true in E as ->.
      now rewrite bool_decide_eq_false_2.
    + now rewrite IH.
Qed.

Lemma top_feature_column_not_score (i : nat) :
  top_feature_column i <> "Abnormality_score"%string.
Proof. unfold top_feature_column. simpl. discriminate. Qed.

Lemma add_top_feature_columns_keep (top_features : list (list string))
    (idxs : list nat) (df df' : DataFrame) :
  rfoldl (add_top_feature_column top_features) df idxs = Ok df' ->
  df_time df' = df_time df /\
  lookup_column (df_cols df') "Abnormality_score"
  = lookup_column (df_cols df) "Abnormality_score".
Proof.
  revert df. induction idxs as [|i idxs IH]; intros df H; simpl in H.
  - injection H as <-. auto.
  - destruct (add_top_feature_column top_features df i) as [df1|] eqn:E;
      [|discriminate].
    unfold add_top_feature_column in E.
    destruct (rmapM _ top_features) as [col|]; [|discriminate].
    cbn [rbind] in E. unfold assign_column in E.
    destruct (Nat.eqb _ _); [|discriminate]. injection E as <-.
    destruct (IH _ H) as [Ht Hc]. cbn [df_time df_cols] in *.
    split; [exact Ht|]. rewrite Hc.
    apply lookup_column_set_col_ne, top_feature_column_not_score.
Qed.

(** What the output frame of step 9 holds. *)
Lemma create_output_frame (analysis_data : DataFrame)
    (transformed_scores : list Q) (top_features : list (list string))
    (output_df : DataFrame) :
  create_output analysis_data transformed_scores top_features = Ok output_df ->
  df_time output_df = df_time analysis_data /\
  lookup_column (df_cols output_df) "Abnormality_score"
  = Ok (NumCol (map Some transformed_scores)) /\
  length transformed_scores = len analysis_data.
Proof.
  unfold create_output. intros H.
  destruct (assign_column analysis_data "Abnormality_score" _) as [df1|] eqn:E;
    [|discriminate].
  cbn [rbind] in H. apply add_top_feature_columns_keep in H as [Ht Hc].
  unfold assign_column in E. cbn [column_length] in E.
  destruct (Nat.eqb_spec (length (map Some transformed_scores))
              (len analysis_data)) as [Hlen|]; [|discriminate].
  injection E as <-. cbn [df_time df_cols] in *.
  split; [exact Ht|]. split.
  - rewrite Hc. apply lookup_column_set_col_eq.
  - now rewrite length_map in Hlen.
Qed.

(** The frame that step 9 builds has every column the validation step asks
    for. *)
Lemma create_output_columns (analysis_data : DataFrame)
    (transformed_scores : list Q) (top_features : list (list string))
    (output_df : DataFrame) :
  create_output analysis_data transformed_scores top_features = Ok output_df ->
  Forall (fun col => col ∈ frame_columns output_df) required_columns.
Proof.
  unfold create_output. intros H.
  destruct (assign_column analysis_data "Abnormality_score" _) as [df1|] eqn:E;
    [|discriminate].
  cbn [rbind] in H. apply assign_column_names in E as [Hscore _].
  apply add_top_feature_columns_names in H as [Htop Hkeep].
  apply Forall_forall. intros col Hcol.
  unfold required_columns in Hcol.
  apply elem_of_cons in Hcol as [->|Hcol].
  - apply Hkeep, Hscore.
  - apply list_elem_of_fmap in Hcol as (i & -> & Hi). apply Htop, Hi.
Qed.

(** The frame that step 9 builds passes the validation step: its score
    column holds numbers, so the statistics are logged, and every required
    column is there.  After the file is written no step can fail. *)
Lemma validate_results_created (analysis_data training_data : DataFrame)
    (transformed_scores : list Q) (top_features : list (list string))
    (output_df : DataFrame) :
  create_output analysis_data transformed_scores top_features = Ok output_df ->
  validate_results output_df training_data = Ok tt.
Proof.
  intros H.
  destruct (create_output_frame _ _ _ _ H) as (_ & Hlookup & _).
  pose proof (create_output_columns _ _ _ _ H) as Hreq.
  unfold validate_results. rewrite Hlookup. cbn [rbind log_score_statistics].
  rewrite List_filter_none; [reflexivity|].
  eapply Forall_impl; [exact Hreq|]. simpl. intros col Hcol.
  now apply negb_false_iff, bool_decide_eq_true.
Qed.

Section Orchestrator.

Context {Scaler Forest : Type}.
Variable series_std_is_zero : list (option Q) -> bool.
Variable scaler_fit : list (list Q) -> Scaler.
Variable scaler_transform : Scaler -> list (list Q) -> list (list Q).
Variable float_of_string : string -> option pyfloat.
Variable forest_fit : Q -> Z -> list (list Q) -> result Forest.
Variable decision_function : Forest -> list (list Q) -> list Q.
Variable argsort : list Q -> list nat.

Abbreviation run :=
  (process_data series_std_is_zero scaler_fit scaler_transform float_of_string
     forest_fit decision_function argsort).

(** A run that fails leaves the files as they were, and its error is the one
    a stage raised. *)
Lemma process_data_failure (input_csv_path output_csv_path : string)
    (w w' : World Scaler Forest) (e : exn) :
  run input_csv_path output_csv_path w = (w', Err e) ->
  files w' = files w /\
  ((exists dp : DataProcessor Scaler, load_and_validate_data series_std_is_zero dp (files w)
        input_csv_path = Err e) \/
   (exists (dp : DataProcessor Scaler) df, split_data dp df = Err e) \/
   (exists dp df fit_scaler,
      preprocess_features scaler_fit scaler_transform float_of_string dp df fit_scaler
      = Err e) \/
   (exists ad X, train forest_fit ad X = Err e) \/
   (exists ad X, predict_anomaly_scores decision_function ad X = Err e) \/
   (exists ad X names,
      calculate_feature_contributions decision_function ad X names = Err e) \/
   (exists contributions names,
      get_top_features argsort contributions names default_min_contribution
      = Err e) \/
   (exists analysis_data transformed_scores top_features,
      create_output analysis_data transformed_scores top_features = Err e)).
Proof.
  unfold process_data, bind_world, get_files, get_feature_names, call_processor,
    call_detector_update, call_detector, lift, to_csv.
  intros H.
  destruct (load_and_validate_data series_std_is_zero
              (data_processor (system w)) (files w)
              input_csv_path)
    as [[dp1 df]|e1] eqn:Eload.
  2:{ injection H as <- <-. split; [reflexivity|]. left. eauto. }
  cbn [system files data_processor anomaly_detector] in H.
  destruct (split_data dp1 df) as [[training_data analysis_data]|e2]
    eqn:Esplit.
  2:{ simpl in H. injection H as <- <-. split; [reflexivity|].
      right; left. eauto. }
  cbn [rbind system files data_processor anomaly_detector fst snd] in H.
  destruct (preprocess_features scaler_fit scaler_transform float_of_string dp1
              training_data true) as [[dp2 training_features]|e3] eqn:Etrain.
  2:{ injection H as <- <-. split; [reflexivity|].
      right; right; left. eauto. }
  cbn [system files data_processor anomaly_detector] in H.
  destruct (preprocess_features scaler_fit scaler_transform float_of_string dp2
              analysis_data false) as [[dp3 analysis_features]|e4] eqn:Eana.
  2:{ injection H as <- <-. split; [reflexivity|].
      right; right; left. eauto. }
  cbn [system files data_processor anomaly_detector] in H.
  destruct (train forest_fit (anomaly_detector (system w)) training_features)
    as [ad|e5] eqn:Efit.
  2:{ injection H as <- <-. split; [reflexivity|].
      right; right; right; left. eauto. }
  cbn [system files data_processor anomaly_detector] in H.
  destruct (predict_anomaly_scores decision_function ad analysis_features)
    as [raw_scores|e6] eqn:Epred.
  2:{ injection H as <- <-. split; [reflexivity|].
      right; right; right; right; left. eauto. }
  cbn [system files data_processor anomaly_detector] in H.
  destruct (calculate_feature_contributions decision_function ad
              analysis_features (feature_names dp3))
    as [contributions|e7] eqn:Econ.
  2:{ injection H as <- <-. split; [reflexivity|].
      right; right; right; right; right; left. eauto. }
  destruct (get_top_features argsort contributions (feature_names dp3)
              default_min_contribution) as [top_features|e8] eqn:Etop.
  2:{ injection H as <- <-. split; [reflexivity|].
      right; right; right; right; right; right; left. eauto. }
  destruct (create_output analysis_data
              (transform_scores raw_scores true) top_features)
    as [output_df|e9] eqn:Eout.
  2:{ injection H as <- <-. split; [reflexivity|].
      do 7 right. eauto. }
  cbn [system files data_processor anomaly_detector] in H.
  rewrite (validate_results_created _ training_data _ _ _ Eout) in H.
  discriminate.
Qed.

(** C4. When the loaded table has fewer rows in the training window than the
    configured minimum (72 for a system as constructed), the run fails at the
    split with the error the specification calls ValidationError, and the
    files are as they were before: no output is written. *)
Theorem insufficient_training_data_fails
    (input_csv_path output_csv_path : string) (w : World Scaler Forest)
    (dp : DataProcessor Scaler) (df : DataFrame) :
  load_and_validate_data series_std_is_zero (data_processor (system w))
    (files w) input_csv_path = Ok (dp, df) ->
  (len (training_window df)
   < min_training_hours (data_processor (system w)))%nat ->
  (forall (c : Q) (rs : Z),
     min_training_hours
       (data_processor
          (AnomalyDetectionSystem_init (Scaler := Scaler) (Forest := Forest)
             c rs)) = 72%nat) /\
  exists (w' : World Scaler Forest) (e : exn),
    run input_csv_path output_csv_path w = (w', Err e) /\
    e = ValueError
          (InsufficientTrainingData (len (training_window df))
             (min_training_hours (data_processor (system w)))) /\
    error_kind_of e = ValidationError /\
    files w' = files w.
Proof.
  intros Hload Hfew. split; [reflexivity|].
  pose proof (load_keeps_min_training_hours _ _ _ _ _ _ Hload) as Hmin.
  unfold process_data, bind_world, get_files, call_processor.
  rewrite Hload. cbn [system files data_processor anomaly_detector].
  unfold split_data. rewrite Hmin.
  apply Nat.ltb_lt in Hfew. rewrite Hfew. cbn [rbind].
  eexists _, _. split; [reflexivity|].
  split; [reflexivity|]. split; reflexivity.
Qed.

(** C6. A run that fails at any stage returns the error that stage raised and
    leaves the files as they were; in particular an output file that did not
    exist before the run does not exist after it.  The validation step, which
    runs after the file is written, cannot fail on the frame the run
    builds. *)
Theorem failed_run_persists_nothing
    (input_csv_path output_csv_path : string)
    (w w' : World Scaler Forest) (e : exn) :
  run input_csv_path output_csv_path w = (w', Err e) ->
  files w' = files w /\
  (files w !! output_csv_path = None -> files w' !! output_csv_path = None) /\
  (forall analysis_data training_data transformed_scores top_features
          output_df,
     create_output analysis_data transformed_scores top_features
       = Ok output_df ->
     validate_results output_df training_data = Ok tt) /\
  ((exists dp : DataProcessor Scaler,
      load_and_validate_data series_std_is_zero dp (files w)
        input_csv_path = Err e) \/
   (exists (dp : DataProcessor Scaler) df, split_data dp df = Err e) \/
   (exists dp df fit_scaler,
      preprocess_features scaler_fit scaler_transform float_of_string dp df fit_scaler
      = Err e) \/
   (exists ad X, train forest_fit ad X = Err e) \/
   (exists ad X, predict_anomaly_scores decision_function ad X = Err e) \/
   (exists ad X names,
      calculate_feature_contributions decision_function ad X names = Err e) \/
   (exists contributions names,
      get_top_features argsort contributions names default_min_contribution
      = Err e) \/
   (exists analysis_data transformed_scores top_features,
      create_output analysis_data transformed_scores top_features = Err e)).
Proof.
  intros Hrun.
  destruct (process_data_failure _ _ _ _ _ Hrun) as [Hfiles Hstage].
  split; [exact Hfiles|]. split; [now rewrite Hfiles|].
  split; [|exact Hstage].
  intros analysis_data training_data transformed_scores top_features
    output_df Hout.
  eapply validate_results_created, Hout.
Qed.

End Orchestrator.

Lemma sample_short_run_fails :
  exists w' : World unit unit,
    sample_run sample_short_table
    = (w', Err (ValueError (InsufficientTrainingData 3 72))).
Proof.
  destruct (sample_run sample_short_table) as [w' r] eqn:Hrun.
  exists w'. f_equal.
  change r with (w', r).2. rewrite <- Hrun. vm_compute. reflexivity.
Defined.

Lemma insufficient_training_data_fails_witness :
  (len (training_window sample_short_frame) < 72)%nat /\
  exists (w' : World unit unit) (e : exn),
    sample_run sample_short_table = (w', Err e) /\
    error_kind_of e = ValidationError /\
    files w' = files (sample_world sample_short_table).
Proof.
  assert (Hfew : (len (training_window sample_short_frame) < 72)%nat)
    by (vm_compute; lia).
  split; [exact Hfew|].
  destruct (insufficient_training_data_fails exact_std_is_zero
              sample_scaler_fit
              sample_scaler_transform sample_float_of_string sample_forest_fit
              sample_decision_function argsort_insertion "in.csv" "out.csv"
              (sample_world sample_short_table)
              {| min_training_hours := 72; scaler := None;
                 feature_names := ["y"%string] |}
              sample_short_frame)
    as (_ & w' & e & Hrun & _ & Hkind & Hfiles).
  - vm_compute. reflexivity.
  - exact Hfew.
  - exists w', e. split; [exact Hrun|]. split; [exact Hkind | exact Hfiles].
Defined.

Lemma failed_run_persists_nothing_witness :
  exists w' : World unit unit,
    sample_run sample_short_table
    = (w', Err (ValueError (InsufficientTrainingData 3 72))) /\
    files w' = files (sample_world sample_short_table) /\
    files w' !! "out.csv"%string = None.
Proof.
  destruct sample_short_run_fails as [w' Hrun].
  exists w'. split; [exact Hrun|].
  destruct (failed_run_persists_nothing exact_std_is_zero sample_scaler_fit
              sample_scaler_transform sample_float_of_string sample_forest_fit
              sample_decision_function argsort_insertion "in.csv" "out.csv"
              (sample_world sample_short_table) w'
              (ValueError (InsufficientTrainingData 3 72)) Hrun)
    as (Hfiles & Habsent & _).
  split; [exact Hfiles|]. apply Habsent. vm_compute. reflexivity.
Defined.

(** ** More on the percentile transform *)

Lemma clip1_inside (lo hi x : Q) : lo <= x -> x <= hi -> clip1 lo hi x = x.
Proof.
  intros Hlo Hhi. unfold clip1.
  apply Qle_bool_iff in Hlo. rewrite Hlo.
  apply Qle_bool_iff in Hhi. now rewrite Hhi.
Qed.

Lemma count_le_bounds (arr : list Q) (x : Q) :
  (np_sum_mask (mask_le arr x) <= length arr)%nat.
Proof.
  unfold mask_le. induction arr as [|y arr IH]; simpl; [lia|].
  destruct (Qle_bool y x); lia.
Qed.

Lemma count_le_self (arr : list Q) (x : Q) :
  x ∈ arr -> (1 <= np_sum_mask (mask_le arr x))%nat.
Proof.
  unfold mask_le. induction 1 as [x arr|x y arr _ IH]; simpl.
  - assert (H : Qle_bool x x = true) by (apply Qle_bool_iff, Qle_refl).
    rewrite H. lia.
  - destruct (Qle_bool y x); lia.
Qed.

Lemma count_le_all (arr : list Q) (x : Q) :
  Forall (fun y => y <= x) arr ->
  np_sum_mask (mask_le arr x) = length arr.
Proof.
  unfold mask_le. induction 1 as [|y arr Hy _ IH]; simpl; [reflexivity|].
  apply Qle_bool_iff in Hy. rewrite Hy. now rewrite IH.
Qed.

Lemma Q_of_nat_pos (n : nat) : (0 < n)%nat -> 0 < Q_of_nat n.
Proof. intros H. unfold Q_of_nat, Qlt. simpl. lia. Qed.

Lemma Qminus_le_self (a b : Q) : 0 <= b -> a - b <= a.
Proof.
  intros Hb. pose proof (Qplus_le_compat a a (- b) 0 (Qle_refl a)) as H.
  rewrite Qplus_0_r in H. apply H.
  apply (Qopp_le_compat 0 b Hb).
Qed.

Lemma Qminus_lt_self (a b : Q) : 0 < b -> a - b < a.
Proof.
  intros Hb. apply Qlt_minus_iff.
  assert (E : a + - (a - b) == b) by ring.
  now rewrite E.
Qed.

Lemma Qminus_nonneg (a b : Q) : b <= a -> 0 <= a - b.
Proof. intros H. now apply Qle_minus_iff in H. Qed.

Lemma percentile_rank_bounds (arr : list Q) (x : Q) :
  x ∈ arr ->
  100 / Q_of_nat (length arr) <= percentile_rank arr x <= 100.
Proof.
  intros Hin.
  pose proof (count_le_self arr x Hin) as Hone.
  pose proof (count_le_bounds arr x) as Hall.
  assert (Hn : 0 < Q_of_nat (length arr)) by (apply Q_of_nat_pos; lia).
  unfold percentile_rank. split.
  - assert (E : 100 / Q_of_nat (length arr)
                == Q_of_nat 1 / Q_of_nat (length arr) * 100).
    { unfold Q_of_nat at 2. simpl. field.
      intros H0. rewrite H0 in Hn. exact (Qlt_irrefl _ Hn). }
    rewrite E.
    apply Qmult_le_compat_r; [|discriminate].
    unfold Qdiv. apply Qmult_le_compat_r.
    + now apply Q_of_nat_le.
    + apply Qinv_le_0_compat, Q_of_nat_nonneg.
  - apply (Qle_trans _ (1 * 100)); [|rewrite Qmult_1_l; apply Qle_refl].
    apply Qmult_le_compat_r; [|discriminate].
    apply Qle_shift_div_r; [exact Hn|].
    rewrite Qmult_1_l. now apply Q_of_nat_le.
Qed.

(** X1. In a batch, every transformed score is 100 minus the percentile rank
    as it stands (clipping changes nothing), it is at most 100 - 100/n for a
    batch of n scores, so 100 itself is never produced, and a score that no
    other score of the batch exceeds is transformed to 0. *)
Theorem transform_scores_never_100 (scores : list Q) (flag : bool)
    (i : nat) (s : Q) :
  scores !! i = Some s ->
  transform_scores scores flag !! i
    = Some (100 - percentile_rank scores s) /\
  100 - percentile_rank scores s <= 100 - 100 / Q_of_nat (length scores) /\
  100 - percentile_rank scores s < 100 /\
  (Forall (fun x => x <= s) scores -> 100 - percentile_rank scores s == 0).
Proof.
  intros Hi.
  assert (Hin : s ∈ scores) by (eapply list_elem_of_lookup_2, Hi).
  destruct (percentile_rank_bounds scores s Hin) as [Hlo Hhi].
  assert (Hn : 0 < Q_of_nat (length scores)).
  { apply Q_of_nat_pos. apply lookup_lt_Some in Hi. lia. }
  assert (Hpos : 0 < 100 / Q_of_nat (length scores)).
  { apply Qlt_shift_div_l; [exact Hn|]. now rewrite Qmult_0_l. }
  split; [|split; [|split]].
  - rewrite (transform_scores_lookup _ _ _ _ Hi). f_equal.
    apply clip1_inside.
    + now apply Qminus_nonneg.
    + apply Qminus_le_self, Qlt_le_weak.
      eapply Qlt_le_trans; [exact Hpos | exact Hlo].
  - apply Qplus_le_r, Qopp_le_compat, Hlo.
  - apply Qminus_lt_self.
    eapply Qlt_le_trans; [exact Hpos | exact Hlo].
  - intros Hmax. unfold percentile_rank.
    rewrite (count_le_all scores s Hmax). field.
    intros H0. rewrite H0 in Hn. exact (Qlt_irrefl _ Hn).
Qed.

Lemma transform_scores_never_100_witness :
  [1 # 2; -(1 # 3); 1 # 2; 2] !! 3%nat = Some 2 /\
  transform_scores [1 # 2; -(1 # 3); 1 # 2; 2] true !! 3%nat
    = Some (100 - percentile_rank [1 # 2; -(1 # 3); 1 # 2; 2] 2).
Proof.
  split; [reflexivity|].
  apply (transform_scores_never_100 [1 # 2; -(1 # 3); 1 # 2; 2] true 3 2).
  reflexivity.
Defined.

Lemma count_le_Permutation (a b : list Q) (x : Q) :
  Permutation a b ->
  np_sum_mask (mask_le a x) = np_sum_mask (mask_le b x).
Proof.
  unfold mask_le. induction 1 as [|y a b _ IH|y z a|a b c _ IH1 _ IH2]; simpl.
  - reflexivity.
  - now rewrite IH.
  - destruct (Qle_bool y x), (Qle_bool z x); reflexivity.
  - congruence.
Qed.

(** X2. The transformed score of a raw score depends on the batch as a
    multiset only: reordering the batch moves the transformed scores with
    their raw scores and changes none of them. *)
Theorem transform_scores_order_free (scores scores' : list Q)
    (flag flag' : bool) (i j : nat) (s : Q) :
  Permutation scores scores' ->
  scores !! i = Some s ->
  scores' !! j = Some s ->
  transform_scores scores flag !! i = transform_scores scores' flag' !! j.
Proof.
  intros Hperm Hi Hj.
  rewrite (transform_scores_lookup _ _ _ _ Hi).
  rewrite (transform_scores_lookup _ _ _ _ Hj).
  unfold percentile_rank.
  now rewrite (count_le_Permutation _ _ s Hperm), (Permutation_length Hperm).
Qed.

Lemma transform_scores_order_free_witness :
  Permutation [1 # 2; 2; -(1 # 3)] [2; -(1 # 3); 1 # 2] /\
  transform_scores [1 # 2; 2; -(1 # 3)] true !! 0%nat
  = transform_scores [2; -(1 # 3); 1 # 2] false !! 2%nat.
Proof.
  assert (Hp : Permutation [1 # 2; 2; -(1 # 3)] [2; -(1 # 3); 1 # 2]).
  { eapply perm_trans; [apply perm_swap|]. apply perm_skip, perm_swap. }
  split; [exact Hp|].
  apply (transform_scores_order_free _ _ true false 0 2 (1 # 2) Hp);
    reflexivity.
Defined.

(** ** More on top-feature selection *)

Lemma StronglySorted_lt_NoDup (l : list nat) : StronglySorted lt l -> NoDup l.
Proof.
  induction 1 as [|x l _ IH Hx]; constructor; [|exact IH].
  intros Hin. rewrite Forall_forall in Hx. specialize (Hx x Hin). lia.
Qed.

Lemma spec_survivors_NoDup (row : list Q) (min_contribution : Q) :
  NoDup (spec_survivors row min_contribution).
Proof. apply StronglySorted_lt_NoDup, spec_survivors_increasing. Qed.

Lemma spec_survivors_nonempty (row : list Q) (min_contribution : Q) :
  row <> [] -> spec_survivors row min_contribution <> [].
Proof.
  intros Hrow. unfold spec_survivors.
  destruct (List.filter _ _) eqn:E; [|discriminate].
  destruct row; [contradiction | discriminate].
Qed.

(** A position of the row is a survivor, or it misses a threshold that every
    survivor reaches. *)
Lemma spec_survivors_cases (row : list Q) (min_contribution : Q) (j : nat) :
  (j < length row)%nat ->
  j ∈ spec_survivors row min_contribution \/
  (Qabs (nth j row 0) < min_contribution /\
   forall h, h ∈ spec_survivors row min_contribution ->
             min_contribution <= Qabs (nth h row 0)).
Proof.
  intros Hj. unfold spec_survivors.
  assert (Hseq : In j (seq 0 (length row))) by (apply in_seq; lia).
  destruct (List.filter _ _) eqn:E.
  - left. now apply list_elem_of_In.
  - rewrite <- E.
    destruct (Qle_bool min_contribution (Qabs (nth j row 0))) eqn:Hpass.
    + left. apply list_elem_of_In, filter_In. split; assumption.
    + right. split; [now apply Qle_bool_false|].
      intros h Hh. apply list_elem_of_In, filter_In in Hh as [_ Hh].
      now apply Qle_bool_iff.
Qed.

(** X3. With distinct feature names, the slots of a row are distinct feature
    names followed by padding only, and the number of names is the number of
    survivors, capped at seven. *)
Theorem top_feature_slots_distinct (argsort : list Q -> list nat)
    (row : list Q) (feature_names : list string) (min_contribution : Q) :
  (forall a : list Q, Permutation (argsort a) (seq 0 (length a))) ->
  NoDup feature_names ->
  (length row <= length feature_names)%nat ->
  exists named : list string,
    get_top_features_row argsort row feature_names min_contribution
      = Ok (named ++ replicate (7 - length named) EmptyString) /\
    length named
      = Nat.min 7 (length (spec_survivors row min_contribution)) /\
    NoDup named /\
    Forall (fun name => name ∈ feature_names) named.
Proof.
  intros Hperm Hnames Hlen.
  pose proof (ranked_survivors_perm argsort Hperm row min_contribution)
    as Hranked.
  set (ranked := ranked_survivors argsort row min_contribution) in *.
  assert (Hbound : forall idx, idx ∈ take 7 ranked ->
                               (idx < length feature_names)%nat).
  { intros idx Hidx. apply elem_of_take in Hidx as (p & Hp & _).
    apply list_elem_of_lookup_2 in Hp. rewrite Hranked in Hp.
    apply spec_survivors_bound in Hp. lia. }
  exists (map (fun idx => nth idx feature_names EmptyString) (take 7 ranked)).
  split; [|split; [|split]].
  - rewrite (get_top_features_row_slots argsort Hperm _ _ _ Hlen).
    unfold seven_slots. fold ranked. now rewrite length_map.
  - rewrite length_map, length_take. now rewrite (Permutation_length Hranked).
  - change (map ?f ?l) with (f <$> l). apply NoDup_fmap_2_strong.
    + intros x y Hx Hy Hxy.
      destruct (lookup_lt_is_Some_2 feature_names x (Hbound x Hx)) as [a Ha].
      destruct (lookup_lt_is_Some_2 feature_names y (Hbound y Hy)) as [b Hb].
      rewrite (nth_lookup_Some _ _ EmptyString _ Ha) in Hxy.
      rewrite (nth_lookup_Some _ _ EmptyString _ Hb) in Hxy. subst b.
      eapply NoDup_lookup; eassumption.
    + pose proof (spec_survivors_NoDup row min_contribution) as Hnd.
      rewrite <- Hranked, <- (take_drop 7 ranked) in Hnd.
      now apply NoDup_app in Hnd as [Hnd _].
  - apply Forall_forall. intros name Hname.
    apply list_elem_of_fmap in Hname as (idx & -> & Hidx).
    destruct (lookup_lt_is_Some_2 feature_names idx (Hbound idx Hidx))
      as [a Ha].
    rewrite (nth_lookup_Some _ _ EmptyString _ Ha).
    eapply list_elem_of_lookup_2, Ha.
Qed.

Lemma top_feature_slots_distinct_witness :
  NoDup ["a"; "b"; "c"; "d"]%string /\
  exists named : list string,
    get_top_features_row argsort_insertion [1 # 2; -(3 # 4); 1 # 1000; 1 # 2]
      ["a"; "b"; "c"; "d"]%string default_min_contribution
      = Ok (named ++ replicate (7 - length named) EmptyString) /\
    length named = 3%nat.
Proof.
  assert (Hnd : NoDup ["a"; "b"; "c"; "d"]%string).
  { apply (bool_decide_unpack (NoDup _)). vm_compute. exact I. }
  split; [exact Hnd|].
  destruct (top_feature_slots_distinct argsort_insertion
              [1 # 2; -(3 # 4); 1 # 1000; 1 # 2]
              ["a"; "b"; "c"; "d"]%string default_min_contribution)
    as (named & Hrun & Hlen & _).
  - intros a. apply argsort_insertion_spec.
  - exact Hnd.
  - simpl. lia.
  - exists named. split; [exact Hrun | exact Hlen].
Defined.

(** X4. For a row with at least one feature, the first slot names a feature
    whose absolute contribution no feature of the row exceeds. *)
Theorem top_feature_1_is_largest (argsort : list Q -> list nat)
    (row : list Q) (feature_names : list string) (min_contribution : Q) :
  argsort_spec argsort ->
  row <> [] ->
  (length row <= length feature_names)%nat ->
  exists (slots : list string) (h : nat) (name : string),
    get_top_features_row argsort row feature_names min_contribution
      = Ok slots /\
    slots !! 0%nat = Some name /\
    feature_names !! h = Some name /\
    (h < length row)%nat /\
    forall j, (j < length row)%nat ->
              Qabs (nth j row 0) <= Qabs (nth h row 0).
Proof.
  intros Hargsort Hrow Hlen.
  assert (Hperm : forall a, Permutation (argsort a) (seq 0 (length a)))
    by (intros a; apply Hargsort).
  pose proof (ranked_survivors_perm argsort Hperm row min_contribution)
    as Hranked.
  pose proof (ranked_survivors_sorted argsort Hperm row min_contribution
                (fun _ _ ki kj => ki <= kj)
                (fun a b => Qabs (nth b row 0) <= Qabs (nth a row 0)))
    as Hsorted.
  cbv beta in Hsorted.
  assert (Hs : StronglySorted
                 (fun a b => Qabs (nth b row 0) <= Qabs (nth a row 0))
                 (ranked_survivors argsort row min_contribution)).
  { apply Hsorted; [intros a; apply Hargsort | auto]. }
  clear Hsorted.
  destruct (ranked_survivors argsort row min_contribution)
    as [|h rest] eqn:E.
  { exfalso. apply (spec_survivors_nonempty row min_contribution Hrow).
    now apply Permutation_nil in Hranked. }
  assert (Hh : h ∈ spec_survivors row min_contribution).
  { rewrite <- Hranked. left. }
  pose proof (spec_survivors_bound _ _ _ Hh) as Hhlt.
  destruct (lookup_lt_is_Some_2 feature_names h) as [name Hname]; [lia|].
  exists (seven_slots feature_names (h :: rest)), h, name.
  split; [|split; [|split; [|split]]].
  - rewrite (get_top_features_row_slots argsort Hperm _ _ _ Hlen).
    now rewrite E.
  - unfold seven_slots. simpl.
    now rewrite (nth_lookup_Some _ _ EmptyString _ Hname).
  - exact Hname.
  - exact Hhlt.
  - intros j Hj. apply StronglySorted_inv in Hs as [_ Hhead].
    rewrite Forall_forall in Hhead.
    destruct (spec_survivors_cases row min_contribution j Hj)
      as [Hin|[Hlow Hall]].
    + rewrite <- Hranked in Hin. apply elem_of_cons in Hin as [->|Hin].
      * apply Qle_refl.
      * now apply Hhead.
    + apply Qlt_le_weak. eapply Qlt_le_trans; [exact Hlow|].
      now apply Hall.
Qed.

Lemma top_feature_1_is_largest_witness :
  argsort_spec argsort_insertion /\
  exists (slots : list string) (h : nat) (name : string),
    get_top_features_row argsort_insertion [1 # 2; -(3 # 4); 1 # 1000]
      ["a"; "b"; "c"]%string default_min_contribution = Ok slots /\
    slots !! 0%nat = Some name /\
    ["a"; "b"; "c"]%string !! h = Some name.
Proof.
  split; [exact argsort_insertion_spec|].
  destruct (top_feature_1_is_largest argsort_insertion
              [1 # 2; -(3 # 4); 1 # 1000] ["a"; "b"; "c"]%string
              default_min_contribution argsort_insertion_spec)
    as (slots & h & name & Hrun & Hslot & Hname & _).
  - discriminate.
  - simpl. lia.
  - exists slots, h, name. repeat split; assumption.
Defined.

(** ** More on feature attribution *)

(** X5. For a fitted detector, the contribution matrix has the shape of the
    feature matrix: one row per sample, and in every row one entry per
    feature (the width of the first row of the input). *)
Theorem contributions_shape {Forest : Type}
    (decision_function : Forest -> list (list Q) -> list Q)
    (self : AnomalyDetector Forest) (forest : Forest)
    (features : list (list Q)) (feature_names : list string) :
  (forall (f : Forest) (X : list (list Q)),
     length (decision_function f X) = length X) ->
  is_fitted self = true ->
  model self = Some forest ->
  exists contributions : list (list Q),
    calculate_feature_contributions decision_function self features
      feature_names = Ok contributions /\
    length contributions = (shape features).1 /\
    Forall (fun row => length row = (shape features).2) contributions.
Proof.
  intros Hshape Hfit Hmodel.
  unfold calculate_feature_contributions. rewrite Hfit, Hmodel. simpl.
  set (n_features := length (default [] (head features))).
  set (zeros := replicate (length features) (replicate n_features 0)).
  destruct (contributions_loop decision_function Hshape forest features
              n_features 0 zeros) as [Hlen Hrows].
  { unfold zeros. apply length_replicate. }
  eexists. split; [reflexivity|]. split; [exact Hlen|].
  apply Forall_lookup. intros r row Hr.
  assert (Hrlt : (r < length features)%nat).
  { rewrite <- Hlen. eapply lookup_lt_Some, Hr. }
  assert (Hz : zeros !! r = Some (replicate n_features 0)).
  { unfold zeros. now apply lookup_replicate_2. }
  destruct (Hrows r _ Hz) as (row1 & Hrow1 & Hlen1 & _).
  rewrite Hr in Hrow1. injection Hrow1 as <-.
  now rewrite Hlen1, length_replicate.
Qed.

Lemma contributions_shape_witness :
  is_fitted {| contamination := 1 # 10; random_state := 42;
               model := Some tt; is_fitted := true |} = true /\
  exists contributions : list (list Q),
    calculate_feature_contributions sample_decision_function
      {| contamination := 1 # 10; random_state := 42;
         model := Some tt; is_fitted := true |}
      [[1; 2; 3]; [3; 6; 9]] [] = Ok contributions /\
    length contributions = 2%nat.
Proof.
  split; [reflexivity|].
  destruct (contributions_shape sample_decision_function
              {| contamination := 1 # 10; random_state := 42;
                 model := Some tt; is_fitted := true |}
              tt [[1; 2; 3]; [3; 6; 9]] [])
    as (contributions & Hrun & Hlen & _).
  - intros f X. unfold sample_decision_function. apply length_map.
  - reflexivity.
  - reflexivity.
  - exists contributions. split; [exact Hrun | exact Hlen].
Defined.

(** X6. A feature the model does not look at has contribution zero in every
    row: when replacing column [i] by any constant leaves the scores of the
    matrix as they are, every entry of column [i] of the contribution matrix
    is a score minus itself. *)
Theorem ignored_feature_contributes_nothing {Forest : Type}
    (decision_function : Forest -> list (list Q) -> list Q)
    (self : AnomalyDetector Forest) (forest : Forest)
    (features : list (list Q)) (feature_names : list string)
    (i r : nat) (row : list Q) :
  (forall (f : Forest) (X : list (list Q)),
     length (decision_function f X) = length X) ->
  is_fitted self = true ->
  model self = Some forest ->
  Forall (fun row => length row = (shape features).2) features ->
  (forall v : Q,
     decision_function forest (set_column_scalar features i v)
     = decision_function forest features) ->
  features !! r = Some row ->
  (i < length row)%nat ->
  exists (contributions : list (list Q)) (c : Q),
    calculate_feature_contributions decision_function self features
      feature_names = Ok contributions /\
    contributions !! r ≫= (.!! i) = Some c /\
    c == 0.
Proof.
  intros Hshape Hfit Hmodel Hrect Hignored Hr Hi.
  unfold calculate_feature_contributions. rewrite Hfit, Hmodel. simpl.
  set (n_features := length (default [] (head features))).
  set (zeros := replicate (length features) (replicate n_features 0)).
  destruct (contributions_loop decision_function Hshape forest features
              n_features 0 zeros) as [_ Hrows].
  { unfold zeros. apply length_replicate. }
  assert (Hrow : length row = n_features).
  { rewrite Forall_forall in Hrect.
    apply (Hrect row). eapply list_elem_of_lookup_2, Hr. }
  assert (Hz : zeros !! r = Some (replicate n_features 0)).
  { unfold zeros. apply lookup_replicate_2. eapply lookup_lt_Some, Hr. }
  destruct (Hrows r _ Hz) as (row1 & Hrow1 & _ & Hin & _).
  destruct (Hin i) as (b & p & Hb & Hp & Hbp).
  { lia. }
  { rewrite length_replicate. lia. }
  unfold perturbed_features in Hp. rewrite Hignored, Hb in Hp.
  injection Hp as <-.
  eexists _, (b - b). split; [reflexivity|].
  split; [rewrite Hrow1; exact Hbp | ring].
Qed.

Lemma ignored_feature_contributes_nothing_witness :
  (forall v : Q,
     sample_first_column_score tt (set_column_scalar [[1; 2]; [3; 6]] 1 v)
     = sample_first_column_score tt [[1; 2]; [3; 6]]) /\
  exists (contributions : list (list Q)) (c : Q),
    calculate_feature_contributions sample_first_column_score
      {| contamination := 1 # 10; random_state := 42;
         model := Some tt; is_fitted := true |}
      [[1; 2]; [3; 6]] ["a"; "b"]%string = Ok contributions /\
    contributions !! 0%nat ≫= (.!! 1%nat) = Some c /\
    c == 0.
Proof.
  assert (Hignored : forall v : Q,
     sample_first_column_score tt (set_column_scalar [[1; 2]; [3; 6]] 1 v)
     = sample_first_column_score tt [[1; 2]; [3; 6]])
    by (intros v; reflexivity).
  split; [exact Hignored|].
  apply (ignored_feature_contributes_nothing sample_first_column_score
           {| contamination := 1 # 10; random_state := 42;
              model := Some tt; is_fitted := true |}
           tt [[1; 2]; [3; 6]] ["a"; "b"]%string 1 0 [1; 2]).
  - intros f X. unfold sample_first_column_score. apply length_map.
  - reflexivity.
  - reflexivity.
  - repeat constructor.
  - exact Hignored.
  - reflexivity.
  - simpl. lia.
Defined.

(** ** Missing values *)

Lemma ffill_from_length (last : option Q) (vals : list (option Q)) :
  length (ffill_from last vals) = length vals.
Proof.
  revert last. induction vals as [|v vals IH]; intros last; simpl;
    [reflexivity | now rewrite IH].
Qed.

Lemma ffill_from_keeps (last : option Q) (vals : list (option Q))
    (i : nat) (x : Q) :
  vals !! i = Some (Some x) -> ffill_from last vals !! i = Some (Some x).
Proof.
  revert last i. induction vals as [|v vals IH]; intros last i Hi.
  - discriminate.
  - destruct i as [|i]; simpl in *.
    + injection Hi as ->. reflexivity.
    + now apply IH.
Qed.

Lemma ffill_from_Some (x : Q) (vals : list (option Q)) :
  Forall is_Some (ffill_from (Some x) vals).
Proof.
  revert x. induction vals as [|v vals IH]; intros x; simpl; constructor.
  - destruct v; eauto.
  - destruct v as [y|]; apply IH.
Qed.

(** Filling forward leaves missing values only in front of the first value
    that is present. *)
Lemma ffill_shape (vals : list (option Q)) :
  exists (k : nat) (filled : list (option Q)),
    ffill vals = replicate k None ++ filled /\ Forall is_Some filled.
Proof.
  unfold ffill. induction vals as [|v vals (k & filled & IH & Hsome)]; simpl.
  - exists 0%nat, []. split; [reflexivity | constructor].
  - destruct v as [x|].
    + exists 0%nat, (Some x :: ffill_from (Some x) vals).
      split; [reflexivity|].
      constructor; [eauto | apply ffill_from_Some].
    + exists (S k), filled. split; [simpl; now rewrite IH | exact Hsome].
Qed.

Lemma ffill_leading_Some (vals rest : list (option Q)) :
  vals <> [] -> Forall is_Some vals -> Forall is_Some (ffill (vals ++ rest)).
Proof.
  intros Hne Hall. destruct vals as [|v vals]; [contradiction|].
  apply Forall_cons in Hall as [[x ->] _].
  unfold ffill. simpl. constructor; [eauto | apply ffill_from_Some].
Qed.

Lemma bfill_length (vals : list (option Q)) :
  length (bfill vals) = length vals.
Proof.
  unfold bfill, ffill. now rewrite length_reverse, ffill_from_length,
    length_reverse.
Qed.

Lemma bfill_keeps (vals : list (option Q)) (i : nat) (x : Q) :
  vals !! i = Some (Some x) -> bfill vals !! i = Some (Some x).
Proof.
  intros Hi. pose proof (lookup_lt_Some _ _ _ Hi) as Hlt.
  unfold bfill, ffill.
  rewrite reverse_lookup by (now rewrite ffill_from_length, length_reverse).
  rewrite ffill_from_length, length_reverse.
  apply ffill_from_keeps.
  rewrite reverse_lookup by lia.
  replace (length vals - S (length vals - S i))%nat with i by lia.
  exact Hi.
Qed.

(** X7. Filling a numeric column that has at least one value leaves no
    missing entry, keeps the number of rows, and keeps every value that was
    present in its place; a column with no value at all stays as it is. *)
Theorem fill_missing_complete (vals : list (option Q)) :
  (forall x : Q, Some x ∈ vals ->
     exists filled : list (option Q),
       fill_missing (NumCol vals) = NumCol filled /\
       length filled = length vals /\
       Forall is_Some filled /\
       forall (i : nat) (y : Q),
         vals !! i = Some (Some y) -> filled !! i = Some (Some y)) /\
  (Forall (fun v => v = None) vals ->
   exists filled : list (option Q),
     fill_missing (NumCol vals) = NumCol filled /\
     Forall (fun v => v = None) filled /\
     length filled = length vals).
Proof.
  split.
  - intros x Hx. unfold fill_missing.
    destruct (Nat.ltb_spec 0 (isnull_sum vals)) as [Hnull|Hnull].
    + exists (bfill (ffill vals)). split; [reflexivity|].
      split; [|split].
      * unfold ffill. now rewrite bfill_length, ffill_from_length.
      * destruct (ffill_shape vals) as (k & filled & Hshape & Hsome).
        assert (Hne : filled <> []).
        { intros ->. rewrite app_nil_r in Hshape.
          apply list_elem_of_lookup in Hx as [i Hi].
          apply (ffill_from_keeps None) in Hi. fold (ffill vals) in Hi.
          rewrite Hshape in Hi. apply list_elem_of_lookup_2 in Hi.
          now apply elem_of_replicate in Hi as [? _]. }
        rewrite Hshape. unfold bfill.
        apply Forall_reverse. rewrite reverse_app.
        apply ffill_leading_Some.
        -- intros Hrev. apply Hne.
           rewrite <- (reverse_involutive filled), Hrev. reflexivity.
        -- now apply Forall_reverse.
      * intros i y Hi. apply bfill_keeps. now apply (ffill_from_keeps None).
    + exists vals. split; [reflexivity|]. split; [reflexivity|].
      split; [|auto].
      assert (Hz : isnull_sum vals = 0%nat) by lia. clear Hnull Hx.
      unfold isnull_sum in Hz.
      induction vals as [|v vals IH]; simpl in *; constructor.
      * destruct v; [eauto | discriminate].
      * apply IH. destruct v; [exact Hz | discriminate].
  - intros Hnone. unfold fill_missing.
    assert (Hf : forall l : list (option Q),
              Forall (fun v => v = None) l -> ffill l = l).
    { unfold ffill. induction 1 as [|v l -> _ IH]; simpl;
        [reflexivity | now rewrite IH]. }
    destruct (Nat.ltb 0 (isnull_sum vals)).
    + exists (bfill (ffill vals)). split; [reflexivity|].
      rewrite (Hf vals Hnone). unfold bfill.
      rewrite (Hf (reverse vals)) by (now apply Forall_reverse).
      rewrite reverse_involutive. split; [exact Hnone | reflexivity].
    + exists vals. split; [reflexivity|]. split; [exact Hnone | reflexivity].
Qed.

Lemma fill_missing_complete_witness :
  Some 1 ∈ [None; Some 1; None; Some 2] /\
  exists filled : list (option Q),
    fill_missing (NumCol [None; Some 1; None; Some 2]) = NumCol filled /\
    Forall is_Some filled.
Proof.
  assert (Hin : Some 1 ∈ [None; Some 1; None; Some 2]) by (right; left).
  split; [exact Hin|].
  destruct (fill_missing_complete [None; Some 1; None; Some 2])
    as [Hfill _].
  destruct (Hfill 1 Hin) as (filled & Hrun & _ & Hsome & _).
  exists filled. split; [exact Hrun | exact Hsome].
Defined.

(** ** Loading a table *)

Lemma insert_by_Z_sorted (x : nat * Z) (l : list (nat * Z)) :
  StronglySorted (fun a b : nat * Z => (a.2 <= b.2)%Z) l ->
  StronglySorted (fun a b : nat * Z => (a.2 <= b.2)%Z) (insert_by Z.leb x l).
Proof.
  induction 1 as [|y l Hl IH Hy]; simpl.
  - repeat constructor.
  - destruct (Z.leb_spec x.2 y.2) as [Hle|Hgt].
    + constructor; [constructor; assumption|].
      constructor; [exact Hle|].
      eapply Forall_impl; [exact Hy|]. simpl. intros z Hz. lia.
    + constructor; [exact IH|].
      rewrite (insert_by_perm Z.leb x l).
      constructor; [lia | exact Hy].
Qed.

Lemma insertion_Z_sorted (l : list (nat * Z)) :
  StronglySorted (fun a b : nat * Z => (a.2 <= b.2)%Z)
                 (foldr (insert_by Z.leb) [] l).
Proof.
  induction l as [|x l IH]; simpl; [constructor|].
  now apply insert_by_Z_sorted.
Qed.

(** Sorting by time yields ascending timestamps, the same timestamps as
    before, and the same number of rows in every column. *)
Lemma sort_values_Time_sorted (t : list Z) (cols : list (string * column)) :
  StronglySorted Z.le (df_time (sort_values_Time t cols)) /\
  Permutation (df_time (sort_values_Time t cols)) t.
Proof.
  unfold sort_values_Time. simpl. split.
  - unfold argsort_by. rewrite map_map.
    assert (Hk : Forall (fun p : nat * Z => p.2 = nth p.1 t 0%Z)
                   (foldr (insert_by Z.leb) [] (enumerate t))).
    { rewrite (insertion_perm Z.leb _). apply enumerate_lookup. }
    eapply StronglySorted_map; [|apply (insertion_Z_sorted (enumerate t))].
    intros x y Hx Hy Hxy. rewrite Forall_forall in Hk.
    rewrite <- !nth_lookup, <- (Hk x Hx), <- (Hk y Hy). exact Hxy.
  - rewrite (Permutation_map _ (argsort_by_perm Z.leb t)).
    assert (E : map (fun i => default 0%Z (t !! i)) (seq 0 (length t))
                = map (fun i => nth i t 0%Z) (seq 0 (length t))).
    { apply map_ext. intros i. now rewrite nth_lookup. }
    rewrite E, map_nth_seq. reflexivity.
Qed.

Lemma drop_columns_elem (names : list string) (cols : list (string * column))
    (name : string) :
  name ∈ map fst (drop_columns names cols) <->
  name ∈ map fst cols /\ name ∉ names.
Proof.
  unfold drop_columns. split.
  - intros Hin. apply list_elem_of_fmap in Hin as ([n c] & -> & Hnc).
    apply list_elem_of_In, filter_In in Hnc as [Hnc Hkeep]. simpl in *.
    apply negb_true_iff, bool_decide_eq_false in Hkeep.
    split; [|exact Hkeep].
    apply list_elem_of_fmap. exists (n, c).
    split; [reflexivity | now apply list_elem_of_In].
  - intros [Hin Hnot]. apply list_elem_of_fmap in Hin as ([n c] & -> & Hnc).
    apply list_elem_of_fmap. exists (n, c). split; [reflexivity|].
    apply list_elem_of_In, filter_In. split; [now apply list_elem_of_In|].
    simpl. now apply negb_true_iff, bool_decide_eq_false.
Qed.

Lemma drop_columns_nil (cols : list (string * column)) :
  drop_columns [] cols = cols.
Proof.
  unfold drop_columns. induction cols as [|x l IH]; [reflexivity|].
  cbn [List.filter].
  rewrite bool_decide_eq_false_2 by apply not_elem_of_nil.
  cbn [negb]. now rewrite IH.
Qed.

Lemma drop_columns_sublist (names : list string)
    (cols : list (string * column)) :
  map fst (drop_columns names cols) `sublist_of` map fst cols.
Proof.
  unfold drop_columns. induction cols as [|x l IH]; simpl; [constructor|].
  destruct (negb _); simpl; [now constructor | now apply sublist_cons].
Qed.

Lemma sorted_and_filled_names (t : list Z) (cols : list (string * column)) :
  map fst (df_cols (sorted_and_filled t cols)) = map fst cols.
Proof.
  unfold sorted_and_filled, sort_values_Time. simpl.
  rewrite !map_map. reflexivity.
Qed.

Lemma constant_features_iff (series_std_is_zero : list (option Q) -> bool)
    (cols : list (string * column)) (name : string) :
  name ∈ constant_features series_std_is_zero cols <->
  exists vals : list (option Q),
    (name, NumCol vals) ∈ cols /\ series_std_is_zero vals = true.
Proof.
  unfold constant_features. rewrite list_elem_of_omap. split.
  - intros ([n c] & Hin & Hsome). simpl in Hsome.
    destruct c as [vals|vals]; [|discriminate].
    destruct (series_std_is_zero vals) eqn:Hstd; [|discriminate].
    injection Hsome as ->. exists vals. split; [exact Hin | exact Hstd].
  - intros (vals & Hin & Hstd).
    exists (name, NumCol vals). split; [exact Hin|]. simpl.
    now rewrite Hstd.
Qed.

(** X8. Loading a file that exists and has a Time column always succeeds.
    The frame has the file's timestamps in ascending order, the feature
    ordering is the list of the frame's columns, in file order, a column
    (numeric or not) is in it exactly when no numeric column of that name in
    the sorted and filled table passes the test [std() == 0], as pandas
    evaluates it, and the other fields of the processor are untouched. *)
Theorem load_and_validate_data_post {Scaler : Type}
    (series_std_is_zero : list (option Q) -> bool)
    (self : DataProcessor Scaler) (fs : gmap string csv_file)
    (csv_path : string) (file : csv_file) (t : list Z) :
  fs !! csv_path = Some file ->
  csv_time file = Some t ->
  exists (self' : DataProcessor Scaler) (df : DataFrame),
    load_and_validate_data series_std_is_zero self fs csv_path
      = Ok (self', df) /\
    StronglySorted Z.le (df_time df) /\
    Permutation (df_time df) t /\
    feature_names self' = map fst (df_cols df) /\
    feature_names self' `sublist_of` map fst (csv_cols file) /\
    (forall name,
       name ∈ feature_names self' <->
       name ∈ map fst (csv_cols file) /\
       ~ exists vals : list (option Q),
           (name, NumCol vals)
             ∈ df_cols (sorted_and_filled t (csv_cols file)) /\
           series_std_is_zero vals = true) /\
    min_training_hours self' = min_training_hours self /\
    scaler self' = scaler self.
Proof.
  intros Hfile Htime. unfold load_and_validate_data. rewrite Hfile, Htime.
  eexists _, _. split; [reflexivity|]. cbn [feature_names min_training_hours
    scaler].
  destruct (sort_values_Time_sorted t (csv_cols file)) as [Hsorted Hperm].
  set (cols := df_cols (sorted_and_filled t (csv_cols file))).
  assert (Htimes : forall c,
    df_time match c with
            | [] => sorted_and_filled t (csv_cols file)
            | _ :: _ =>
                {| df_time := df_time (sorted_and_filled t (csv_cols file));
                   df_cols := drop_columns c cols |}
            end = df_time (sort_values_Time t (csv_cols file))).
  { intros []; reflexivity. }
  assert (Hcols : forall c,
    map fst (df_cols match c with
                     | [] => sorted_and_filled t (csv_cols file)
                     | _ :: _ =>
                         {| df_time :=
                              df_time (sorted_and_filled t (csv_cols file));
                            df_cols := drop_columns c cols |}
                     end) = map fst (drop_columns c cols)).
  { intros [|n c]; [|reflexivity]. now rewrite drop_columns_nil. }
  rewrite Htimes, Hcols.
  split; [exact Hsorted|]. split; [exact Hperm|]. split; [reflexivity|].
  split; [|split; [|split; reflexivity]].
  - rewrite <- (sorted_and_filled_names t (csv_cols file)).
    apply drop_columns_sublist.
  - intros name. rewrite drop_columns_elem, constant_features_iff.
    unfold cols. now rewrite sorted_and_filled_names.
Qed.

Lemma load_and_validate_data_post_witness :
  ({["in.csv"%string := sample_drift_table]} : gmap string csv_file)
    !! "in.csv"%string = Some sample_drift_table /\
  exists (self' : DataProcessor unit) (df : DataFrame),
    load_and_validate_data exact_std_is_zero
      (DataProcessor_init default_min_training_hours)
      {["in.csv"%string := sample_drift_table]} "in.csv" = Ok (self', df) /\
    StronglySorted Z.le (df_time df).
Proof.
  split; [apply lookup_singleton_eq|].
  destruct (load_and_validate_data_post exact_std_is_zero
              (DataProcessor_init (Scaler := unit) default_min_training_hours)
              {["in.csv"%string := sample_drift_table]} "in.csv"
              sample_drift_table
              (hourly_ticks 74 ++ [Timestamp_2004_01 10 0 0 0])
              (lookup_singleton_eq _ _) eq_refl)
    as (self' & df & Hload & Hsorted & _).
  exists self', df. split; [exact Hload | exact Hsorted].
Defined.

(** ** Splitting a frame *)

Lemma select_mask_map_Forall {A} (f : A -> bool) (l : list A) :
  Forall (fun x => f x = true) (select_mask l (map f l)).
Proof.
  induction l as [|x l IH]; simpl; [constructor|].
  destruct (f x) eqn:E; [constructor; assumption | exact IH].
Qed.

Lemma select_mask_length {A} (l : list A) (mask : list bool) :
  length l = length mask -> length (select_mask l mask) = np_sum_mask mask.
Proof.
  revert mask. induction l as [|x l IH]; intros [|b mask] Hlen;
    try discriminate; [reflexivity|].
  simpl in *. injection Hlen as Hlen.
  destruct b; simpl; now rewrite IH.
Qed.

Lemma select_mask_sublist {A} (l : list A) (mask : list bool) :
  select_mask l mask `sublist_of` l.
Proof.
  revert mask. induction l as [|x l IH]; intros [|b mask]; simpl;
    try apply sublist_nil_l.
  destruct b; [apply sublist_skip | apply sublist_cons]; apply IH.
Qed.

Lemma select_mask_weaker {A} (f g : A -> bool) (l : list A) :
  (forall x, f x = true -> g x = true) ->
  select_mask l (map f l) `sublist_of` select_mask l (map g l).
Proof.
  intros Himp. induction l as [|x l IH]; simpl; [constructor|].
  destruct (f x) eqn:Ef.
  - rewrite (Himp x Ef). now apply sublist_skip.
  - destruct (g x); [now apply sublist_cons | exact IH].
Qed.

Lemma training_inside_analysis (x : Z) :
  Z.leb train_start x && Z.leb x train_end = true ->
  Z.leb analysis_start x && Z.leb x analysis_end = true.
Proof.
  intros H. apply andb_true_iff in H as [H1 H2].
  apply Z.leb_le in H1, H2. apply andb_true_iff.
  split; apply Z.leb_le.
  - exact H1.
  - eapply Z.le_trans; [exact H2|]. vm_compute. discriminate.
Qed.

(** X10. When [split_data] returns, the training frame has at least the
    required number of rows, all inside the training window; the analysis
    frame has all its rows inside the analysis window; the training rows are
    among the analysis rows, which are among the rows of the table, in the
    same order; and both frames have the columns of the table. *)
Theorem split_data_post {Scaler : Type} (self : DataProcessor Scaler)
    (df training_data analysis_data : DataFrame) :
  split_data self df = Ok (training_data, analysis_data) ->
  (min_training_hours self <= len training_data)%nat /\
  Forall in_training_window (df_time training_data) /\
  Forall in_analysis_window (df_time analysis_data) /\
  df_time training_data `sublist_of` df_time analysis_data /\
  df_time analysis_data `sublist_of` df_time df /\
  map fst (df_cols training_data) = map fst (df_cols df) /\
  map fst (df_cols analysis_data) = map fst (df_cols df).
Proof.
  unfold split_data. intros H.
  destruct (Nat.ltb_spec (len (training_window df)) (min_training_hours self))
    as [Hlt|Hge]; [discriminate|].
  injection H as <- <-.
  unfold training_window, analysis_window, select_rows, between_mask.
  cbn [df_time df_cols]. split; [exact Hge|].
  split; [|split; [|split; [|split; [|split]]]].
  - eapply Forall_impl; [apply select_mask_map_Forall|].
    intros x Hx. simpl in Hx. apply andb_true_iff in Hx as [H1 H2].
    apply Z.leb_le in H1, H2. split; assumption.
  - eapply Forall_impl; [apply select_mask_map_Forall|].
    intros x Hx. simpl in Hx. apply andb_true_iff in Hx as [H1 H2].
    apply Z.leb_le in H1, H2. split; assumption.
  - apply select_mask_weaker, training_inside_analysis.
  - apply select_mask_sublist.
  - rewrite map_map. reflexivity.
  - rewrite map_map. reflexivity.
Qed.

Lemma split_data_post_witness :
  exists training_data analysis_data : DataFrame,
    split_data (DataProcessor_init (Scaler := unit) 2) sample_short_frame
      = Ok (training_data, analysis_data) /\
    (2 <= len training_data)%nat /\
    Forall in_training_window (df_time training_data).
Proof.
  destruct (split_data (DataProcessor_init (Scaler := unit) 2)
              sample_short_frame) as [[tr an]|e] eqn:E.
  - exists tr, an. split; [reflexivity|].
    destruct (split_data_post (DataProcessor_init 2) sample_short_frame
                tr an E) as (Hrows & Hwin & _).
    split; [exact Hrows | exact Hwin].
  - exfalso. vm_compute in E. discriminate.
Defined.

(** ** Frames stay rectangular *)

Lemma reindex_column_length (order : list nat) (c : column) :
  column_length (reindex_column order c) = length order.
Proof. destruct c; simpl; apply length_map. Qed.

Lemma fill_missing_length (c : column) :
  column_length (fill_missing c) = column_length c.
Proof.
  destruct c as [vals|vals]; simpl; [|reflexivity].
  destruct (Nat.ltb 0 (isnull_sum vals)); simpl; [|reflexivity].
  unfold ffill. now rewrite bfill_length, ffill_from_length.
Qed.

Lemma mask_column_length (mask : list bool) (c : column) :
  column_length c = length mask ->
  column_length (mask_column mask c) = np_sum_mask mask.
Proof. destruct c; simpl; apply select_mask_length. Qed.

Lemma select_rows_aligned (df : DataFrame) (f : Z -> bool) :
  frame_aligned df -> frame_aligned (select_rows df (map f (df_time df))).
Proof.
  unfold frame_aligned, select_rows, len. cbn [df_time df_cols].
  intros Hal. apply Forall_forall. intros nc Hnc.
  apply list_elem_of_fmap in Hnc as ([n c] & -> & Hin). simpl.
  rewrite Forall_forall in Hal. specialize (Hal _ Hin). simpl in Hal.
  rewrite mask_column_length by (now rewrite Hal, length_map).
  symmetry. apply select_mask_length. now rewrite length_map.
Qed.

(** X11. Frames stay rectangular through loading and splitting: in the
    loaded frame, and in the training and analysis frames cut from it, every
    column has exactly one entry per timestamp. *)
Theorem frames_stay_aligned {Scaler : Type}
    (series_std_is_zero : list (option Q) -> bool)
    (self self' : DataProcessor Scaler)
    (fs : gmap string csv_file) (csv_path : string) (df : DataFrame) :
  load_and_validate_data series_std_is_zero self fs csv_path
    = Ok (self', df) ->
  frame_aligned df /\
  forall training_data analysis_data,
    split_data self' df = Ok (training_data, analysis_data) ->
    frame_aligned training_data /\ frame_aligned analysis_data.
Proof.
  intros Hload.
  assert (Hal : frame_aligned df).
  { unfold load_and_validate_data in Hload.
    destruct (fs !! csv_path) as [file|]; [|discriminate].
    destruct (csv_time file) as [t|]; [|discriminate].
    injection Hload as _ <-.
    assert (Hbase : Forall
              (fun nc : string * column =>
                 column_length nc.2 = length (argsort_by Z.leb t))
              (df_cols (sorted_and_filled t (csv_cols file)))).
    { unfold sorted_and_filled, sort_values_Time. cbn [df_cols].
      rewrite map_map. apply Forall_forall. intros nc Hnc.
      apply list_elem_of_fmap in Hnc as ([n c] & -> & _). simpl.
      now rewrite fill_missing_length, reindex_column_length. }
    assert (Htime : length (df_time (sorted_and_filled t (csv_cols file)))
                    = length (argsort_by Z.leb t)).
    { unfold sorted_and_filled, sort_values_Time. cbn [df_time].
      apply length_map. }
    unfold frame_aligned, len.
    destruct (constant_features _ _) as [|s l].
    - rewrite Htime. exact Hbase.
    - change (Forall
                (fun nc : string * column =>
                   column_length nc.2
                   = length (df_time (sorted_and_filled t (csv_cols file))))
                (drop_columns (s :: l)
                   (df_cols (sorted_and_filled t (csv_cols file))))).
      rewrite Htime. unfold drop_columns.
      apply Forall_forall. intros nc Hnc.
      apply list_elem_of_In, filter_In in Hnc as [Hnc _].
      rewrite Forall_forall in Hbase. apply Hbase.
      now apply list_elem_of_In. }
  split; [exact Hal|].
  intros training_data analysis_data Hsplit. unfold split_data in Hsplit.
  destruct (Nat.ltb _ _); [discriminate|]. injection Hsplit as <- <-.
  unfold training_window, analysis_window, between_mask.
  split; now apply select_rows_aligned.
Qed.

Lemma frames_stay_aligned_witness :
  exists (self' : DataProcessor unit) (df : DataFrame),
    load_and_validate_data exact_std_is_zero
      (DataProcessor_init default_min_training_hours)
      {["in.csv"%string := sample_drift_table]} "in.csv" = Ok (self', df) /\
    frame_aligned df.
Proof.
  destruct (load_and_validate_data exact_std_is_zero
              (DataProcessor_init (Scaler := unit) default_min_training_hours)
              {["in.csv"%string := sample_drift_table]} "in.csv")
    as [[self' df]|e] eqn:E.
  - exists self', df. split; [reflexivity|].
    apply (frames_stay_aligned _ _ _ _ _ _ E).
  - exfalso. vm_compute in E. discriminate.
Defined.

(** ** Preprocessing *)

Lemma feature_rows_shape (n_rows : nat) (cols : list (list pyfloat)) :
  length (feature_rows n_rows cols) = n_rows /\
  Forall (fun row => length row = length cols) (feature_rows n_rows cols).
Proof.
  unfold feature_rows. split.
  - now rewrite length_map, length_seq.
  - apply Forall_forall. intros row Hrow.
    apply list_elem_of_fmap in Hrow as (r & -> & _). apply length_map.
Qed.

Lemma rmapM_length {A B} (f : A -> result B) (l : list A) (out : list B) :
  rmapM f l = Ok out -> length out = length l.
Proof.
  revert out. induction l as [|a l IH]; intros out H; simpl in H.
  - now injection H as <-.
  - destruct (f a); [|discriminate]. simpl in H.
    destruct (rmapM f l) as [rest|]; [|discriminate].
    simpl in H. injection H as <-. simpl. now rewrite (IH rest).
Qed.

Lemma rmapM_Err {A B} (f : A -> result B) (l : list A) (e : exn) :
  rmapM f l = Err e -> exists a, a ∈ l /\ f a = Err e.
Proof.
  induction l as [|a l IH]; simpl; intros H; [discriminate|].
  destruct (f a) as [b|e0] eqn:Ea; simpl in H.
  - destruct (rmapM f l) as [rest|e1]; simpl in H; [discriminate|].
    injection H as ->. destruct (IH eq_refl) as (a' & Hin & Ha').
    exists a'. split; [now right | exact Ha'].
  - injection H as ->. exists a. split; [left | exact Ea].
Qed.

Lemma rmapM_Ok {A B} (f : A -> result B) (l : list A) (out : list B) :
  rmapM f l = Ok out -> Forall2 (fun a b => f a = Ok b) l out.
Proof.
  revert out. induction l as [|a l IH]; intros out H; simpl in H.
  - injection H as <-. constructor.
  - destruct (f a) as [b|] eqn:Ea; [|discriminate]. simpl in H.
    destruct (rmapM f l) as [rest|]; [|discriminate].
    simpl in H. injection H as <-. constructor; [exact Ea | now apply IH].
Qed.

Lemma lookup_column_Err (cols : list (string * column)) (name : string)
    (e : exn) :
  lookup_column cols name = Err e -> e = KeyError name.
Proof.
  induction cols as [|[m c] cols IH]; simpl; intros H.
  - now injection H as <-.
  - destruct (bool_decide (m = name)); [discriminate | now apply IH].
Qed.

Lemma rmapM_all_Ok {A B} (f : A -> result B) (l : list A) :
  (forall a, a ∈ l -> exists b, f a = Ok b) -> exists out, rmapM f l = Ok out.
Proof.
  induction l as [|a l IH]; intros Hall; simpl; [eauto|].
  destruct (Hall a) as [b ->]; [left|]. simpl.
  destruct IH as [rest ->]; [intros a' Ha'; apply Hall; now right|].
  simpl. eauto.
Qed.

Section Preprocessing.

Context {Scaler : Type}.
Variable scaler_fit : list (list Q) -> Scaler.
Variable scaler_transform : Scaler -> list (list Q) -> list (list Q).
Variable float_of_string : string -> option pyfloat.

Lemma scaler_input_shape (n_rows : nat) (cols : list column)
    (features : list (list Q)) :
  scaler_input float_of_string n_rows cols = Ok features ->
  length features = n_rows /\
  Forall (fun row => length row = length cols) features.
Proof.
  unfold scaler_input. intros H.
  destruct (rmapM (float_values float_of_string) cols) as [vals|] eqn:Evals;
    [|discriminate].
  cbn [rbind] in H.
  destruct (is_object_array cols && has_inf vals); [discriminate|].
  destruct (is_object_array cols && has_nan vals); [discriminate|].
  injection H as <-.
  destruct (feature_rows_shape n_rows vals) as [Hr Hc].
  apply rmapM_length in Evals. split; [exact Hr|].
  eapply Forall_impl; [exact Hc|]. simpl. intros; congruence.
Qed.

Lemma float_values_Err (c : column) (e : exn) :
  float_values float_of_string c = Err e ->
  e = SklearnError "could not convert string to float".
Proof.
  destruct c as [vals|vals]; simpl; [discriminate|].
  intros H. apply rmapM_Err in H as (s & _ & Hs).
  destruct (float_of_string s); [discriminate | now injection Hs as <-].
Qed.

Lemma float_values_bad_string (vals : list string) (s : string) :
  s ∈ vals -> float_of_string s = None ->
  float_values float_of_string (ObjCol vals)
  = Err (SklearnError "could not convert string to float").
Proof.
  intros Hin Hbad.
  destruct (float_values float_of_string (ObjCol vals)) as [out|e] eqn:E.
  - exfalso. simpl in E. apply rmapM_Ok in E.
    apply list_elem_of_lookup in Hin as [i Hi].
    destruct (Forall2_lookup_l _ _ _ _ _ E Hi) as (v & _ & Hv).
    rewrite Hbad in Hv. discriminate.
  - now rewrite (float_values_Err _ _ E).
Qed.

(** X12. The scaler is fitted on the training matrix only.  When the
    training frame is preprocessed with [fit_scaler=True] and the analysis
    frame afterwards with [fit_scaler=False], both results are transforms by
    the one scaler fitted on the unscaled training matrix; the unscaled
    matrices have one row per row of their frame and one column per feature
    name, and the second call leaves the processor as it is. *)
Theorem scaler_fitted_on_training_only (self self1 self2 : DataProcessor Scaler)
    (training_data analysis_data : DataFrame)
    (training_features analysis_features : list (list Q)) :
  preprocess_features scaler_fit scaler_transform float_of_string self
    training_data true = Ok (self1, training_features) ->
  preprocess_features scaler_fit scaler_transform float_of_string self1
    analysis_data false = Ok (self2, analysis_features) ->
  exists raw_training raw_analysis : list (list Q),
    training_features
      = scaler_transform (scaler_fit raw_training) raw_training /\
    analysis_features
      = scaler_transform (scaler_fit raw_training) raw_analysis /\
    scaler self1 = Some (scaler_fit raw_training) /\
    self2 = self1 /\
    feature_names self1 = feature_names self /\
    length raw_training = len training_data /\
    length raw_analysis = len analysis_data /\
    Forall (fun row => length row = length (feature_names self))
           (raw_training ++ raw_analysis).
Proof.
  unfold preprocess_features. intros Htrain Hana.
  destruct (rmapM (lookup_column (df_cols training_data)) (feature_names self))
    as [cols1|] eqn:Ecols1; [|discriminate].
  cbn [rbind] in Htrain.
  destruct (scaler_input float_of_string (len training_data) cols1)
    as [raw1|] eqn:Eraw1; [|discriminate].
  cbn [rbind] in Htrain. injection Htrain as <- <-.
  cbn [feature_names scaler] in Hana.
  destruct (rmapM (lookup_column (df_cols analysis_data)) (feature_names self))
    as [cols2|] eqn:Ecols2; [|discriminate].
  cbn [rbind] in Hana.
  destruct (scaler_input float_of_string (len analysis_data) cols2)
    as [raw2|] eqn:Eraw2; [|discriminate].
  cbn [rbind] in Hana. injection Hana as <- <-.
  exists raw1, raw2.
  destruct (scaler_input_shape _ _ _ Eraw1) as [Hr1 Hc1].
  destruct (scaler_input_shape _ _ _ Eraw2) as [Hr2 Hc2].
  apply rmapM_length in Ecols1, Ecols2.
  repeat split; try reflexivity; try assumption.
  apply Forall_app. split.
  - eapply Forall_impl; [exact Hc1|]. simpl. intros; congruence.
  - eapply Forall_impl; [exact Hc2|]. simpl. intros; congruence.
Qed.

(** X13. How preprocessing fails.  With [fit_scaler=False] on a processor
    whose scaler was never fitted it always fails: with a KeyError when a
    feature name is not a column of the frame, and otherwise with the
    scaler's not-fitted error, whatever the columns hold.  Whatever the flag,
    a feature name that is not a column of the frame makes it fail with a
    KeyError.  And when every feature name is a column and the scaler is to
    be fitted, or is fitted, a selected column of strings one of which is no
    number makes it fail with the conversion error. *)
Theorem preprocess_features_failures (self : DataProcessor Scaler)
    (df : DataFrame) :
  (scaler self = None ->
   (exists name,
      name ∈ feature_names self /\
      lookup_column (df_cols df) name = Err (KeyError name) /\
      preprocess_features scaler_fit scaler_transform float_of_string self df
        false = Err (KeyError name)) \/
   ((forall name, name ∈ feature_names self ->
                  exists c, lookup_column (df_cols df) name = Ok c) /\
    preprocess_features scaler_fit scaler_transform float_of_string self df
      false = Err (SklearnError "StandardScaler is not fitted"))) /\
  (forall (name : string) (fit_scaler : bool),
     name ∈ feature_names self ->
     lookup_column (df_cols df) name = Err (KeyError name) ->
     exists name',
       name' ∈ feature_names self /\
       lookup_column (df_cols df) name' = Err (KeyError name') /\
       preprocess_features scaler_fit scaler_transform float_of_string self df
         fit_scaler = Err (KeyError name')) /\
  (forall (name : string) (vals : list string) (s : string)
          (fit_scaler : bool),
     (forall n, n ∈ feature_names self ->
                exists c, lookup_column (df_cols df) n = Ok c) ->
     name ∈ feature_names self ->
     lookup_column (df_cols df) name = Ok (ObjCol vals) ->
     s ∈ vals ->
     float_of_string s = None ->
     fit_scaler = true \/ is_Some (scaler self) ->
     preprocess_features scaler_fit scaler_transform float_of_string self df
       fit_scaler = Err (SklearnError "could not convert string to float")).
Proof.
  unfold preprocess_features. split; [|split].
  - intros Hnone.
    destruct (rmapM (lookup_column (df_cols df)) (feature_names self))
      as [cols|e] eqn:Ecols; cbn [rbind].
    + right. split; [|now rewrite Hnone].
      intros name Hin. apply rmapM_Ok in Ecols.
      apply list_elem_of_lookup in Hin as [i Hi].
      destruct (Forall2_lookup_l _ _ _ _ _ Ecols Hi) as (c & _ & Hc). eauto.
    + left. apply rmapM_Err in Ecols as (name & Hin & Hname).
      pose proof (lookup_column_Err _ _ _ Hname) as ->. eauto.
  - intros name fit_scaler Hin Hbad.
    destruct (rmapM (lookup_column (df_cols df)) (feature_names self))
      as [cols|e] eqn:Ecols; cbn [rbind].
    + exfalso. apply rmapM_Ok in Ecols.
      apply list_elem_of_lookup in Hin as [i Hi].
      destruct (Forall2_lookup_l _ _ _ _ _ Ecols Hi) as (c & _ & Hc).
      congruence.
    + apply rmapM_Err in Ecols as (name' & Hin' & Hname').
      pose proof (lookup_column_Err _ _ _ Hname') as ->. eauto.
  - intros name vals s fit_scaler Hall Hin Hcol Hs Hbad Hscaler.
    destruct (rmapM_all_Ok _ _ Hall) as [cols Ecols]. rewrite Ecols.
    cbn [rbind].
    assert (Hinput : forall n_rows,
              scaler_input float_of_string n_rows cols
              = Err (SklearnError "could not convert string to float")).
    { intros n_rows. unfold scaler_input.
      destruct (rmapM (float_values float_of_string) cols) as [out|e] eqn:E;
        cbn [rbind].
      - exfalso. apply rmapM_Ok in Ecols, E.
        apply list_elem_of_lookup in Hin as [i Hi].
        destruct (Forall2_lookup_l _ _ _ _ _ Ecols Hi) as (c & Hc & Hlook).
        destruct (Forall2_lookup_l _ _ _ _ _ E Hc) as (v & _ & Hv).
        rewrite Hcol in Hlook. injection Hlook as <-.
        rewrite (float_values_bad_string _ _ Hs Hbad) in Hv. discriminate.
      - apply rmapM_Err in E as (c & _ & Hc).
        now rewrite (float_values_Err _ _ Hc). }
    destruct fit_scaler.
    + now rewrite Hinput.
    + destruct Hscaler as [Hfit|[sc Hsc]]; [discriminate|].
      rewrite Hsc. now rewrite Hinput.
Qed.

End Preprocessing.

Lemma scaler_fitted_on_training_only_witness :
  exists (self1 self2 : DataProcessor unit)
         (training_features analysis_features : list (list Q)),
    preprocess_features sample_scaler_fit sample_scaler_transform
      sample_float_of_string
      {| min_training_hours := 72; scaler := None;
         feature_names := ["y"%string] |} sample_short_frame true
      = Ok (self1, training_features) /\
    preprocess_features sample_scaler_fit sample_scaler_transform
      sample_float_of_string
      self1 sample_short_frame false = Ok (self2, analysis_features) /\
    self2 = self1.
Proof.
  eexists _, _, _, _. split; [reflexivity|]. split; [reflexivity|].
  destruct (scaler_fitted_on_training_only sample_scaler_fit
              sample_scaler_transform sample_float_of_string
              {| min_training_hours := 72; scaler := None;
                 feature_names := ["y"%string] |}
              _ _ sample_short_frame sample_short_frame _ _
              eq_refl eq_refl)
    as (_ & _ & _ & _ & _ & Hsame & _).
  exact Hsame.
Defined.

Lemma preprocess_features_failures_witness :
  scaler (DataProcessor_init (Scaler := unit) 72) = None /\
  preprocess_features sample_scaler_fit sample_scaler_transform
    sample_float_of_string (DataProcessor_init 72) sample_short_frame false
  = Err (SklearnError "StandardScaler is not fitted") /\
  preprocess_features sample_scaler_fit sample_scaler_transform
    sample_float_of_string
    {| min_training_hours := 72; scaler := None;
       feature_names := ["s"%string] |}
    {| df_time := [train_start];
       df_cols := [("s"%string, ObjCol ["abc"%string])] |} true
  = Err (SklearnError "could not convert string to float").
Proof.
  split; [reflexivity|]. split.
  - destruct (preprocess_features_failures sample_scaler_fit
                sample_scaler_transform sample_float_of_string
                (DataProcessor_init 72) sample_short_frame)
      as [Hunfitted _].
    destruct (Hunfitted eq_refl) as [(name & Hin & _)|[_ Hfails]].
    + inversion Hin.
    + exact Hfails.
  - destruct (preprocess_features_failures sample_scaler_fit
                sample_scaler_transform sample_float_of_string
                {| min_training_hours := 72; scaler := None;
                   feature_names := ["s"%string] |}
                {| df_time := [train_start];
                   df_cols := [("s"%string, ObjCol ["abc"%string])] |})
      as (_ & _ & Hconvert).
    apply (Hconvert "s"%string ["abc"%string] "abc"%string true).
    + intros n Hn. apply elem_of_cons in Hn as [->|Hn];
        [eexists; reflexivity | inversion Hn].
    + left.
    + reflexivity.
    + left.
    + reflexivity.
    + left. reflexivity.
Defined.

(** ** More on the orchestrator *)

Section OrchestratorRuns.

Context {Scaler Forest : Type}.
Variable series_std_is_zero : list (option Q) -> bool.
Variable scaler_fit : list (list Q) -> Scaler.
Variable scaler_transform : Scaler -> list (list Q) -> list (list Q).
Variable float_of_string : string -> option pyfloat.
Variable forest_fit : Q -> Z -> list (list Q) -> result Forest.
Variable decision_function : Forest -> list (list Q) -> list Q.
Variable argsort : list Q -> list nat.

Abbreviation run_pipeline :=
  (process_data series_std_is_zero scaler_fit scaler_transform
     float_of_string forest_fit decision_function argsort).

(** The steps of a run that succeeds. *)
Lemma process_data_success (input_csv_path output_csv_path : string)
    (w w' : World Scaler Forest) :
  run_pipeline input_csv_path output_csv_path w = (w', Ok tt) ->
  exists dp1 df training_data analysis_data dp2 training_features dp3
         analysis_features ad raw_scores contributions top_features output_df,
    load_and_validate_data series_std_is_zero (data_processor (system w))
      (files w) input_csv_path = Ok (dp1, df) /\
    split_data dp1 df = Ok (training_data, analysis_data) /\
    preprocess_features scaler_fit scaler_transform float_of_string dp1 training_data true
      = Ok (dp2, training_features) /\
    preprocess_features scaler_fit scaler_transform float_of_string dp2 analysis_data false
      = Ok (dp3, analysis_features) /\
    train forest_fit (anomaly_detector (system w)) training_features = Ok ad /\
    predict_anomaly_scores decision_function ad analysis_features
      = Ok raw_scores /\
    calculate_feature_contributions decision_function ad analysis_features
      (feature_names dp3) = Ok contributions /\
    get_top_features argsort contributions (feature_names dp3)
      default_min_contribution = Ok top_features /\
    create_output analysis_data (transform_scores raw_scores true)
      top_features = Ok output_df /\
    w' = {| system := {| data_processor := dp3; anomaly_detector := ad |};
            files := <[output_csv_path := csv_of_frame output_df]> (files w) |}.
Proof.
  unfold process_data, bind_world, get_files, get_feature_names,
    call_processor, call_detector_update, call_detector, lift, to_csv.
  intros H.
  destruct (load_and_validate_data series_std_is_zero
              (data_processor (system w)) (files w) input_csv_path)
    as [[dp1 df]|] eqn:Eload; [|discriminate].
  cbn [system files data_processor anomaly_detector] in H.
  destruct (split_data dp1 df) as [[training_data analysis_data]|]
    eqn:Esplit; [|discriminate].
  cbn [rbind system files data_processor anomaly_detector fst snd] in H.
  destruct (preprocess_features scaler_fit scaler_transform float_of_string dp1
              training_data true) as [[dp2 training_features]|] eqn:Etrain;
    [|discriminate].
  cbn [system files data_processor anomaly_detector] in H.
  destruct (preprocess_features scaler_fit scaler_transform float_of_string dp2
              analysis_data false) as [[dp3 analysis_features]|] eqn:Eana;
    [|discriminate].
  cbn [system files data_processor anomaly_detector] in H.
  destruct (train forest_fit (anomaly_detector (system w)) training_features)
    as [ad|] eqn:Efit; [|discriminate].
  cbn [system files data_processor anomaly_detector] in H.
  destruct (predict_anomaly_scores decision_function ad analysis_features)
    as [raw_scores|] eqn:Epred; [|discriminate].
  cbn [system files data_processor anomaly_detector] in H.
  destruct (calculate_feature_contributions decision_function ad
              analysis_features (feature_names dp3))
    as [contributions|] eqn:Econ; [|discriminate].
  destruct (get_top_features argsort contributions (feature_names dp3)
              default_min_contribution) as [top_features|] eqn:Etop;
    [|discriminate].
  destruct (create_output analysis_data
              (transform_scores raw_scores true) top_features)
    as [output_df|] eqn:Eout; [|discriminate].
  cbn [system files data_processor anomaly_detector] in H.
  injection H as <- _.
  exists dp1, df, training_data, analysis_data, dp2, training_features, dp3,
    analysis_features, ad, raw_scores, contributions, top_features, output_df.
  repeat split; assumption || reflexivity.
Qed.

(** X14. A run that succeeds writes one file, at the output path, and
    leaves every other file as it was.  The file holds the analysis-window
    rows of the loaded table, all the columns the validation step asks for,
    and an [Abnormality_score] column with one score per row, each between 0
    and 100; the detector of the system is fitted afterwards. *)
Theorem successful_run_output (input_csv_path output_csv_path : string)
    (w w' : World Scaler Forest) :
  run_pipeline input_csv_path output_csv_path w = (w', Ok tt) ->
  exists (out : csv_file) (times : list Z) (scores : list Q),
    files w' = <[output_csv_path := out]> (files w) /\
    (forall path, path <> output_csv_path ->
                  files w' !! path = files w !! path) /\
    csv_time out = Some times /\
    Forall in_analysis_window times /\
    Forall (fun col => col = "Time"%string \/ col ∈ map fst (csv_cols out))
           required_columns /\
    lookup_column (csv_cols out) "Abnormality_score"
      = Ok (NumCol (map Some scores)) /\
    length scores = length times /\
    Forall (fun s => 0 <= s <= 100) scores /\
    is_fitted (anomaly_detector (system w')) = true.
Proof.
  intros Hrun.
  destruct (process_data_success _ _ _ _ Hrun)
    as (dp1 & df & training_data & analysis_data & dp2 & training_features
        & dp3 & analysis_features & ad & raw_scores & contributions
        & top_features & output_df & Hload & Hsplit & _ & _ & Hfit & _ & _
        & _ & Hout & ->).
  destruct (create_output_frame _ _ _ _ Hout) as (Htime & Hscore & Hlen).
  exists (csv_of_frame output_df), (df_time analysis_data),
         (transform_scores raw_scores true).
  cbn [files system anomaly_detector csv_of_frame csv_time csv_cols].
  split; [reflexivity|]. split.
  { intros path Hne. now apply lookup_insert_ne. }
  split; [now rewrite Htime|]. split.
  { unfold split_data in Hsplit.
    destruct (Nat.ltb _ _); [discriminate|]. injection Hsplit as _ <-.
    unfold analysis_window, select_rows, between_mask. cbn [df_time].
    eapply Forall_impl; [apply select_mask_map_Forall|].
    intros x Hx. simpl in Hx. apply andb_true_iff in Hx as [H1 H2].
    apply Z.leb_le in H1, H2. split; assumption. }
  split.
  { pose proof (create_output_columns _ _ _ _ Hout) as Hreq.
    eapply Forall_impl; [exact Hreq|]. simpl. intros col Hcol.
    unfold frame_columns in Hcol. apply elem_of_cons in Hcol. exact Hcol. }
  split; [exact Hscore|]. split; [exact Hlen|]. split.
  { apply Forall_forall. intros s Hs. rewrite transform_scores_map in Hs.
    apply list_elem_of_fmap in Hs as (x & -> & _).
    apply clip1_range. discriminate. }
  now apply train_fitted in Hfit as [Hfit _].
Qed.

(** X15. A run on a path that holds no file, or on a file without a Time
    column, fails at the first step and changes nothing at all: neither the
    files nor the system object. *)
Theorem run_fails_at_load (input_csv_path output_csv_path : string)
    (w : World Scaler Forest) :
  (files w !! input_csv_path = None ->
   run_pipeline input_csv_path output_csv_path w
   = (w, Err (FileNotFoundError input_csv_path))) /\
  (forall file,
     files w !! input_csv_path = Some file -> csv_time file = None ->
     run_pipeline input_csv_path output_csv_path w
     = (w, Err (ValueError MissingTimeColumn))).
Proof.
  unfold process_data, bind_world, get_files, call_processor,
    load_and_validate_data.
  split.
  - intros ->. reflexivity.
  - intros file -> ->. reflexivity.
Qed.

(** X16. Whatever the outcome, [main] leaves every file other than the one
    at the output path as it was. *)
Theorem main_touches_only_output (fs : gmap string csv_file)
    (input_csv_path output_csv_path path : string) :
  path <> output_csv_path ->
  files (main series_std_is_zero scaler_fit scaler_transform float_of_string
           forest_fit decision_function argsort fs input_csv_path
           output_csv_path).1 !! path
  = fs !! path.
Proof.
  intros Hne. unfold main.
  destruct (process_data _ _ _ _ _ _ _ _ _ _) as [w' [[]|e]] eqn:Hrun.
  - destruct (process_data_success _ _ _ _ Hrun)
      as (? & ? & ? & ? & ? & ? & ? & ? & ? & ? & ? & ? & output_df & Hsteps).
    destruct Hsteps as (_ & _ & _ & _ & _ & _ & _ & _ & _ & ->).
    cbn [fst files]. now apply lookup_insert_ne.
  - destruct (process_data_failure _ _ _ _ _ _ _ _ _ _ _ _ Hrun)
      as [Hfiles _].
    cbn [fst]. now rewrite Hfiles.
Qed.

End OrchestratorRuns.

Lemma sample_drift_run_succeeds :
  exists w' : World unit unit, sample_run sample_drift_table = (w', Ok tt).
Proof.
  destruct (sample_run sample_drift_table) as [w' r] eqn:Hrun.
  exists w'. f_equal.
  change r with (w', r).2. rewrite <- Hrun. vm_compute. reflexivity.
Defined.

Lemma successful_run_output_witness :
  exists (w' : World unit unit) (out : csv_file) (scores : list Q),
    sample_run sample_drift_table = (w', Ok tt) /\
    files w' = <[("out.csv"%string) := out]> (files (sample_world sample_drift_table)) /\
    lookup_column (csv_cols out) "Abnormality_score"
      = Ok (NumCol (map Some scores)) /\
    Forall (fun s => 0 <= s <= 100) scores.
Proof.
  destruct sample_drift_run_succeeds as [w' Hrun].
  destruct (successful_run_output exact_std_is_zero sample_scaler_fit
              sample_scaler_transform sample_float_of_string sample_forest_fit
              sample_decision_function argsort_insertion
              "in.csv" "out.csv" (sample_world sample_drift_table) w' Hrun)
    as (out & times & scores & Hfiles & _ & _ & _ & _ & Hcol & _ & Hrange & _).
  exists w', out, scores.
  split; [exact Hrun|]. split; [exact Hfiles|].
  split; [exact Hcol | exact Hrange].
Defined.

Lemma run_fails_at_load_witness :
  files (sample_world sample_short_table) !! "missing.csv"%string = None /\
  process_data exact_std_is_zero sample_scaler_fit sample_scaler_transform
    sample_float_of_string sample_forest_fit sample_decision_function
    argsort_insertion "missing.csv" "out.csv"
    (sample_world sample_short_table)
  = (sample_world sample_short_table,
     Err (FileNotFoundError "missing.csv")).
Proof.
  assert (Hnone : files (sample_world sample_short_table)
                    !! "missing.csv"%string = None)
    by (vm_compute; reflexivity).
  split; [exact Hnone|].
  apply (run_fails_at_load exact_std_is_zero sample_scaler_fit
           sample_scaler_transform sample_float_of_string sample_forest_fit
           sample_decision_function argsort_insertion
           "missing.csv" "out.csv" (sample_world sample_short_table)).
  exact Hnone.
Defined.

Lemma main_touches_only_output_witness :
  "in.csv"%string <> "out.csv"%string /\
  files (main exact_std_is_zero sample_scaler_fit sample_scaler_transform
           sample_float_of_string sample_forest_fit sample_decision_function
           argsort_insertion
           {["in.csv"%string := sample_short_table]} "in.csv" "out.csv").1
    !! "in.csv"%string
  = ({["in.csv"%string := sample_short_table]} : gmap string csv_file)
      !! "in.csv"%string.
Proof.
  assert (Hne : "in.csv"%string <> "out.csv"%string) by discriminate.
  split; [exact Hne|].
  apply (main_touches_only_output exact_std_is_zero sample_scaler_fit
           sample_scaler_transform sample_float_of_string sample_forest_fit
           sample_decision_function argsort_insertion
           {["in.csv"%string := sample_short_table]} "in.csv" "out.csv"
           "in.csv" Hne).
Defined.

(** ** Validation and training on their own *)

Lemma missing_columns_elem (output_df : DataFrame) (col : string) :
  col ∈ List.filter
          (fun col => negb (bool_decide (col ∈ frame_columns output_df)))
          required_columns <->
  col ∈ required_columns /\ col ∉ frame_columns output_df.
Proof.
  rewrite list_elem_of_In, filter_In, <- list_elem_of_In, negb_true_iff,
    bool_decide_eq_false.
  reflexivity.
Qed.

(** X17. [_validate_results] reads the score column before it checks the
    columns: on a frame without an [Abnormality_score] column it raises
    KeyError.  On a frame whose score column holds numbers it returns
    normally exactly when the seven top-feature columns are there too, and
    otherwise raises the ValueError that lists the required columns the frame
    lacks, and only those.  The training frame plays no part in the
    outcome. *)
Theorem validate_results_outcome (output_df training_data : DataFrame) :
  (lookup_column (df_cols output_df) "Abnormality_score"
   = Err (KeyError "Abnormality_score") ->
   validate_results output_df training_data
   = Err (KeyError "Abnormality_score")) /\
  (forall scores : list (option Q),
     lookup_column (df_cols output_df) "Abnormality_score"
     = Ok (NumCol scores) ->
     (validate_results output_df training_data = Ok tt <->
      Forall (fun col => col ∈ frame_columns output_df) required_columns) /\
     (forall e,
        validate_results output_df training_data = Err e ->
        exists missing,
          e = ValueError (MissingRequiredColumns missing) /\
          missing <> [] /\
          forall col, col ∈ missing <->
                      col ∈ required_columns /\
                      col ∉ frame_columns output_df)) /\
  (forall other : DataFrame,
     validate_results output_df other
     = validate_results output_df training_data).
Proof.
  unfold validate_results. split; [|split; [|reflexivity]].
  - intros ->. reflexivity.
  - intros scores ->. cbn [rbind log_score_statistics].
    pose proof (missing_columns_elem output_df) as Hchar.
    destruct (List.filter _ required_columns) as [|c l].
    + split.
      * split; [|reflexivity]. intros _.
        apply Forall_forall. intros col Hcol.
        destruct (decide (col ∈ frame_columns output_df)) as [Hin|Hout];
          [exact Hin|].
        exfalso. assert (Hc : col ∈ []) by (apply Hchar; auto).
        inversion Hc.
      * intros e H. discriminate.
    + split.
      * split; [discriminate|]. intros Hall. exfalso.
        assert (Hc : c ∈ c :: l) by left.
        apply Hchar in Hc as [Hreq Hnot]. rewrite Forall_forall in Hall.
        apply Hnot, Hall, Hreq.
      * intros e H. injection H as <-. exists (c :: l).
        split; [reflexivity|]. split; [discriminate | exact Hchar].
Qed.

Lemma validate_results_outcome_witness :
  validate_results {| df_time := [train_start]; df_cols := [] |}
    {| df_time := []; df_cols := [] |}
  = Err (KeyError "Abnormality_score") /\
  exists missing,
    validate_results
      {| df_time := [train_start];
         df_cols := [("Abnormality_score"%string, NumCol [Some 0])] |}
      {| df_time := []; df_cols := [] |}
    = Err (ValueError (MissingRequiredColumns missing)) /\
    length missing = 7%nat.
Proof.
  split.
  - destruct (validate_results_outcome
                {| df_time := [train_start]; df_cols := [] |}
                {| df_time := []; df_cols := [] |})
      as (Hkey & _).
    apply Hkey. reflexivity.
  - destruct (validate_results_outcome
                {| df_time := [train_start];
                   df_cols := [("Abnormality_score"%string,
                                NumCol [Some 0])] |}
                {| df_time := []; df_cols := [] |})
      as (_ & Hnum & _).
    destruct (Hnum [Some 0] eq_refl) as [_ Herr].
    destruct (Herr _ eq_refl) as (missing & Hmissing & _).
    exists missing. injection Hmissing as <-.
    split; reflexivity.
Defined.

(** X18. A successful [train] keeps the contamination and the seed and
    installs the forest fitted with them on the training features; scoring
    with the trained detector is that forest's decision function. *)
Theorem train_then_predict {Forest : Type}
    (forest_fit : Q -> Z -> list (list Q) -> result Forest)
    (decision_function : Forest -> list (list Q) -> list Q)
    (self trained : AnomalyDetector Forest)
    (training_features : list (list Q)) :
  train forest_fit self training_features = Ok trained ->
  exists fitted : Forest,
    forest_fit (contamination self) (random_state self) training_features
      = Ok fitted /\
    model trained = Some fitted /\
    contamination trained = contamination self /\
    random_state trained = random_state self /\
    forall features,
      predict_anomaly_scores decision_function trained features
      = Ok (decision_function fitted features).
Proof.
  unfold train. intros H.
  destruct (forest_fit (5 # 100) (random_state self) training_features);
    [|discriminate].
  cbn [rbind] in H.
  destruct (forest_fit (contamination self) (random_state self)
              training_features) as [fitted|]; [|discriminate].
  cbn [rbind] in H. injection H as <-.
  exists fitted. repeat split; reflexivity.
Qed.

Lemma train_then_predict_witness :
  exists trained : AnomalyDetector unit,
    train sample_forest_fit (AnomalyDetector_init (1 # 10) 42) [[1; 2]]
      = Ok trained /\
    predict_anomaly_scores sample_decision_function trained [[3; 4]]
      = Ok (sample_decision_function tt [[3; 4]]).
Proof.
  eexists. split; [reflexivity|].
  destruct (train_then_predict sample_forest_fit sample_decision_function
              (AnomalyDetector_init (1 # 10) 42) _ [[1; 2]] eq_refl)
    as ([] & _ & _ & _ & _ & Hpredict).
  apply Hpredict.
Defined.

(** X19. [train] fails exactly when one of its two fits fails: the
    throw-away forest with contamination 0.05 that only feeds the log, or,
    after it, the forest of the detector; the error is that fit's error, and
    a failure of the throw-away fit alone is enough. *)
Theorem train_failure {Forest : Type}
    (forest_fit : Q -> Z -> list (list Q) -> result Forest)
    (self : AnomalyDetector Forest) (training_features : list (list Q))
    (e : exn) :
  train forest_fit self training_features = Err e <->
  forest_fit (5 # 100) (random_state self) training_features = Err e \/
  ((exists temp,
      forest_fit (5 # 100) (random_state self) training_features = Ok temp) /\
   forest_fit (contamination self) (random_state self) training_features
   = Err e).
Proof.
  unfold train.
  destruct (forest_fit (5 # 100) (random_state self) training_features)
    as [temp|e0]; cbn [rbind].
  - destruct (forest_fit (contamination self) (random_state self)
                training_features) as [fitted|e1]; cbn [rbind].
    + split; [discriminate|].
      intros [H|[_ H]]; discriminate.
    + split.
      * intros H. injection H as ->. right. eauto.
      * intros [H|[_ H]]; [discriminate | now injection H as ->].
  - split.
    + intros H. left. now injection H as ->.
    + intros [H|[[temp H] _]]; [now injection H as -> | discriminate].
Qed.

(** ** The backend: upload filter, score buckets, JSON cleaning *)

Lemma is_dot_spec (c : ascii) : is_dot c = true <-> c = "."%char.
Proof. unfold is_dot. apply bool_decide_eq_true. Qed.

Lemma split_last_dot_None (s : list ascii) :
  split_last_dot s = None <-> contains_dot s = false.
Proof.
  unfold contains_dot. induction s as [|c s IH]; simpl.
  - split; reflexivity.
  - destruct (split_last_dot s) as [[b a]|].
    + split; [discriminate|]. intros H.
      apply orb_false_iff in H as [_ H]. apply IH in H. discriminate.
    + destruct (is_dot c); simpl.
      * split; discriminate.
      * split; [intros _; now apply IH | reflexivity].
Qed.

Lemma split_last_dot_Some (s before after : list ascii) :
  split_last_dot s = Some (before, after) ->
  s = before ++ "."%char :: after /\ contains_dot after = false.
Proof.
  revert before. induction s as [|c s IH]; intros before H; simpl in H.
  - discriminate.
  - destruct (split_last_dot s) as [[b a]|] eqn:E.
    + injection H as <- <-. destruct (IH b eq_refl) as [-> Hno].
      split; [reflexivity | exact Hno].
    + destruct (is_dot c) eqn:Ec; [|discriminate].
      injection H as <- <-. apply is_dot_spec in Ec as ->.
      split; [reflexivity | now apply split_last_dot_None].
Qed.

Lemma split_last_dot_app (before after : list ascii) :
  contains_dot after = false ->
  split_last_dot (before ++ "."%char :: after) = Some (before, after).
Proof.
  intros Hno.
  assert (Hdot : is_dot "."%char = true) by now apply is_dot_spec.
  induction before as [|c before IH]; cbn [app split_last_dot].
  - apply split_last_dot_None in Hno. now rewrite Hno, Hdot.
  - now rewrite IH.
Qed.

(** X20. [allowed_file] never raises.  It accepts a file name exactly when
    the name has a dot and the part after its last dot, with ASCII capitals
    lowered, is csv, xls or xlsx. *)
Theorem allowed_file_spec (filename : string) :
  exists accepted : bool,
    allowed_file filename = Ok accepted /\
    (accepted = true <->
     exists before ext : list ascii,
       String.list_ascii_of_string filename = before ++ "."%char :: ext /\
       contains_dot ext = false /\
       String.string_of_list_ascii (lower ext) ∈ ALLOWED_EXTENSIONS).
Proof.
  unfold allowed_file.
  set (s := String.list_ascii_of_string filename).
  destruct (contains_dot s) eqn:Edot.
  - destruct (split_last_dot s) as [[b a]|] eqn:Esplit.
    + unfold rsplit_dot. rewrite Esplit. cbn [index1 lookup list_lookup rbind].
      eexists. split; [reflexivity|].
      destruct (split_last_dot_Some _ _ _ Esplit) as [Hs Hno].
      rewrite bool_decide_eq_true. split.
      * intros Hin. exists b, a. auto.
      * intros (before & ext & Hs' & Hno' & Hin).
        pose proof (split_last_dot_app before ext Hno') as Hsplit'.
        rewrite <- Hs', Esplit in Hsplit'. now injection Hsplit' as _ ->.
    + apply split_last_dot_None in Esplit. congruence.
  - exists false. split; [reflexivity|]. split; [discriminate|].
    intros (before & ext & Hs & _ & _). exfalso.
    assert (Hdot : is_dot "."%char = true) by now apply is_dot_spec.
    rewrite Hs in Edot. unfold contains_dot in Edot.
    rewrite existsb_app in Edot. cbn [existsb] in Edot.
    rewrite Hdot in Edot. cbn [orb] in Edot.
    now rewrite orb_true_r in Edot.
Qed.

Lemma Qle_bool_up (x a b : Q) :
  a <= b -> Qle_bool x a = true -> Qle_bool x b = true.
Proof.
  intros Hab Hx. apply Qle_bool_iff in Hx. apply Qle_bool_iff.
  eapply Qle_trans; eassumption.
Qed.

Lemma mask_and_map {A} (f g : A -> bool) (l : list A) :
  mask_and (map f l) (map g l) = map (fun x => f x && g x) l.
Proof.
  unfold mask_and. induction l as [|x l IH]; simpl; [reflexivity|].
  now rewrite IH.
Qed.

(** X21. The five score buckets of the summary (at most 10, above 10 up to
    30, above 30 up to 60, above 60 up to 90, above 90) split the scores:
    their counts add up to the number of rows. *)
Theorem score_distribution_partition (scores : list Q) :
  (normal (score_distribution scores) + slight (score_distribution scores)
   + moderate (score_distribution scores)
   + significant (score_distribution scores)
   + severe (score_distribution scores))%nat
  = length scores.
Proof.
  unfold score_distribution. cbn [normal slight moderate significant severe].
  unfold mask_gt, mask_le. rewrite !mask_and_map.
  induction scores as [|x scores IH]; [reflexivity|].
  cbn [map select_mask length].
  assert (H13 : Qle_bool x 10 = true -> Qle_bool x 30 = true)
    by (apply Qle_bool_up; discriminate).
  assert (H36 : Qle_bool x 30 = true -> Qle_bool x 60 = true)
    by (apply Qle_bool_up; discriminate).
  assert (H69 : Qle_bool x 60 = true -> Qle_bool x 90 = true)
    by (apply Qle_bool_up; discriminate).
  destruct (Qle_bool x 10) eqn:E1; destruct (Qle_bool x 30) eqn:E3;
    destruct (Qle_bool x 60) eqn:E6; destruct (Qle_bool x 90) eqn:E9;
    try (specialize (H13 eq_refl); discriminate);
    try (specialize (H36 eq_refl); discriminate);
    try (specialize (H69 eq_refl); discriminate);
    cbn [negb andb length]; lia.
Qed.

(** An induction principle that reaches inside dictionaries and lists. *)
Lemma pyvalue_nested_ind (P : pyvalue -> Prop) :
  (forall items, Forall (fun kv : string * pyvalue => P kv.2) items ->
                 P (PyDict items)) ->
  (forall items, Forall P items -> P (PyList items)) ->
  (forall f, P (PyFloat f)) ->
  P PyNone ->
  (forall s, P (PyStr s)) ->
  (forall z, P (PyInt z)) ->
  (forall b, P (PyBool b)) ->
  forall data, P data.
Proof.
  intros Hdict Hlist Hfloat Hnone Hstr Hint Hbool.
  fix IH 1. intros [items|items|f| |s|z|b].
  - apply Hdict. induction items as [|[k v] items IHitems]; constructor.
    + apply IH.
    + exact IHitems.
  - apply Hlist. induction items as [|v items IHitems]; constructor.
    + apply IH.
    + exact IHitems.
  - apply Hfloat.
  - apply Hnone.
  - apply Hstr.
  - apply Hint.
  - apply Hbool.
Qed.

Lemma sanitize_json_safe (data : pyvalue) :
  json_safe (sanitize_json data) = true.
Proof.
  induction data as [items IH|items IH|f| | | |] using pyvalue_nested_ind;
    try reflexivity.
  - cbn [sanitize_json json_safe]. rewrite forallb_forall.
    intros [k v] Hin. apply in_map_iff in Hin as ([k0 v0] & Heq & Hin).
    injection Heq as <- <-. rewrite Forall_forall in IH.
    apply (IH (k0, v0)). now apply list_elem_of_In.
  - cbn [sanitize_json json_safe]. rewrite forallb_forall.
    intros v Hin. apply in_map_iff in Hin as (v0 & <- & Hin).
    rewrite Forall_forall in IH. apply IH. now apply list_elem_of_In.
  - destruct f; reflexivity.
Qed.

Lemma sanitize_json_fixes_safe (data : pyvalue) :
  json_safe data = true -> sanitize_json data = data.
Proof.
  induction data as [items IH|items IH|f| | | |] using pyvalue_nested_ind;
    try reflexivity.
  - cbn [sanitize_json json_safe]. intros Hsafe. f_equal.
    rewrite forallb_forall in Hsafe.
    induction IH as [|[k v] items Hv _ IHitems]; [reflexivity|].
    cbn [map]. f_equal.
    + f_equal. apply Hv. apply (Hsafe (k, v)). now left.
    + apply IHitems. intros kv Hkv. apply Hsafe. now right.
  - cbn [sanitize_json json_safe]. intros Hsafe. f_equal.
    rewrite forallb_forall in Hsafe.
    induction IH as [|v items Hv _ IHitems]; [reflexivity|].
    cbn [map]. f_equal.
    + apply Hv, Hsafe. now left.
    + apply IHitems. intros x Hx. apply Hsafe. now right.
  - destruct f; [reflexivity | discriminate..].
Qed.

Lemma sanitize_json_shape (data : pyvalue) :
  same_shape data (sanitize_json data) = true.
Proof.
  induction data as [items IH|items IH|f| | | |] using pyvalue_nested_ind;
    try reflexivity.
  - cbn [sanitize_json same_shape].
    induction IH as [|[k v] items Hv _ IHitems]; [reflexivity|].
    cbn [map]. rewrite bool_decide_eq_true_2 by reflexivity.
    simpl in Hv. rewrite Hv. exact IHitems.
  - cbn [sanitize_json same_shape].
    induction IH as [|v items Hv _ IHitems]; [reflexivity|].
    cbn [map]. rewrite Hv. exact IHitems.
  - destruct f; reflexivity.
Qed.

(** X22. What [sanitize_json] returns holds no NaN and no infinity at any
    depth, and has the shape of its argument: the same keys in the same
    order in every dictionary and the same length for every list. *)
Theorem sanitize_json_result (data : pyvalue) :
  json_safe (sanitize_json data) = true /\
  same_shape data (sanitize_json data) = true.
Proof. split; [apply sanitize_json_safe | apply sanitize_json_shape]. Qed.

(** X23. [sanitize_json] changes nothing in a value that has no NaN and no
    infinity inside, so cleaning twice is cleaning once. *)
Theorem sanitize_json_idempotent (data : pyvalue) :
  (json_safe data = true -> sanitize_json data = data) /\
  sanitize_json (sanitize_json data) = sanitize_json data.
Proof.
  split; [apply sanitize_json_fixes_safe|].
  apply sanitize_json_fixes_safe, sanitize_json_safe.
Qed.

Lemma sanitize_json_idempotent_witness :
  json_safe (sanitize_json sample_payload) = true /\
  sanitize_json (sanitize_json sample_payload) = sanitize_json sample_payload.
Proof.
  split; [reflexivity|].
  apply (sanitize_json_idempotent sample_payload).
Defined.
